(** * Habit Tracker (Google Apps Script): a shallow embedding of [Code.js]

    The script keeps one spreadsheet row per day (date, exercise type,
    duration, beers, weight, notes), derives streaks and weekly/monthly
    statistics from the rows, appends today's row on a trigger and mails a
    daily reminder at most once per day.

    Modelling conventions.
    - A spreadsheet cell read with [getValues] is a JavaScript value: a
      [Date], a number, a string or a boolean; an empty cell reads as the
      empty string.  [null] is kept as a value because the script compares
      against it.  An index beyond the end of a row array reads [undefined],
      modelled as [None] of a list lookup.
    - A row is the six cells of columns A to F ([COL]); the sheet is the
      list of its rows from row 1, the header, and reads as empty beyond it.
      The data range of a sheet spans the rows and the columns that have
      content.
    - A number is an IEEE 754 binary64 value, Rocq's primitive [float]:
      [+], [*], [/] round to nearest, ties to even, and [=?], [<?] are the
      comparisons of the standard, as in JavaScript.  The counters of the
      script ([streak++], [totalDays++], an array length) are kept as [nat]
      and turned into the number they hold by [numOfNat] where the script
      computes with them.
    - The text of a number in a template literal ([Number::toString]) is a
      parameter, [numberToString]; [toFixed] is modelled up to the point
      where the language hands over to it.
    - A [Date] is its local wall-clock time in milliseconds since
      1970-01-01 00:00 in the script time zone, taken without daylight-saving
      shifts; every [new Date()] of one execution reads the same [now].
    - The platform services the script calls (lock, script properties, mail)
      are state of a [World]; whether the mail transport delivers is an input
      of the run. *)

From Stdlib Require Import ZArith QArith Qround String Ascii List Bool Lia.
From Stdlib Require Import Sorting.Permutation Sorting.Sorted DecimalString.
From Stdlib Require Import PrimFloat SpecFloat FloatOps FloatAxioms.
From Stdlib Require Uint63.
From stdpp Require Import base option list gmap strings.

Import ListNotations.
Local Open Scope string_scope.
Local Open Scope list_scope.
Local Open Scope Z_scope.

#[local] Set Warnings "-inexact-float".

(** ** JavaScript values held by cells *)

Inductive Cell : Type :=
| CDate (t : Z)
| CNum (x : float)
| CStr (s : string)
| CBool (b : bool)
| CNull.

(** [ToBoolean]: what [if (v)], [v ? a : b] and [v && ...] test; of the
    numbers 0, -0 and NaN are false. *)
Definition truthy (v : Cell) : bool :=
  match v with
  | CDate _ => true
  | CNum x => negb (x =? 0)%float && negb (is_nan x)
  | CStr s => negb (String.eqb s "")
  | CBool b => b
  | CNull => false
  end.

(** [v === "lit"], [v === 0], [v === null]. *)
Definition strictEqStr (v : Cell) (lit : string) : bool :=
  match v with CStr s => String.eqb s lit | _ => false end.

Definition strictEqNum (v : Cell) (lit : float) : bool :=
  match v with CNum x => (x =? lit)%float | _ => false end.

Definition strictEqNull (v : Cell) : bool :=
  match v with CNull => true | _ => false end.

(** [typeof v === "number"]; [v instanceof Date] is a match on [CDate]. *)
Definition typeofNumber (v : Cell) : bool :=
  match v with CNum _ => true | _ => false end.

(** ** Rows and columns of the Tracking sheet *)

Inductive COL : Type :=
  DATE | EXERCISE_TYPE | EXERCISE_MIN | BEER_COUNT | WEIGHT | NOTES.

Record Row : Type := mkRow {
  colDate : Cell;
  colExerciseType : Cell;
  colExerciseMin : Cell;
  colBeerCount : Cell;
  colWeight : Cell;
  colNotes : Cell
}.

#[global] Instance COL_eq_dec : EqDecision COL.
Proof. solve_decision. Defined.

(** [row[COL.X - 1]] *)
Definition cell (r : Row) (c : COL) : Cell :=
  match c with
  | DATE => colDate r
  | EXERCISE_TYPE => colExerciseType r
  | EXERCISE_MIN => colExerciseMin r
  | BEER_COUNT => colBeerCount r
  | WEIGHT => colWeight r
  | NOTES => colNotes r
  end.

Definition setCell (r : Row) (c : COL) (v : Cell) : Row :=
  match c with
  | DATE => mkRow v (colExerciseType r) (colExerciseMin r) (colBeerCount r) (colWeight r) (colNotes r)
  | EXERCISE_TYPE => mkRow (colDate r) v (colExerciseMin r) (colBeerCount r) (colWeight r) (colNotes r)
  | EXERCISE_MIN => mkRow (colDate r) (colExerciseType r) v (colBeerCount r) (colWeight r) (colNotes r)
  | BEER_COUNT => mkRow (colDate r) (colExerciseType r) (colExerciseMin r) v (colWeight r) (colNotes r)
  | WEIGHT => mkRow (colDate r) (colExerciseType r) (colExerciseMin r) (colBeerCount r) v (colNotes r)
  | NOTES => mkRow (colDate r) (colExerciseType r) (colExerciseMin r) (colBeerCount r) (colWeight r) v
  end.

Definition emptyCell : Cell := CStr "".
Definition emptyRow : Row :=
  mkRow emptyCell emptyCell emptyCell emptyCell emptyCell emptyCell.

Definition cellBlank (v : Cell) : bool := strictEqStr v "".

Definition rowBlank (r : Row) : bool :=
  cellBlank (colDate r) && cellBlank (colExerciseType r) &&
  cellBlank (colExerciseMin r) && cellBlank (colBeerCount r) &&
  cellBlank (colWeight r) && cellBlank (colNotes r).

(** The row as the array [getValues] gives for it, column A first. *)
Definition cells (r : Row) : list Cell :=
  [colDate r; colExerciseType r; colExerciseMin r; colBeerCount r;
   colWeight r; colNotes r].

(** The array index [COL.X - 1]. *)
Definition colIndex (c : COL) : nat :=
  match c with
  | DATE => 0
  | EXERCISE_TYPE => 1
  | EXERCISE_MIN => 2
  | BEER_COUNT => 3
  | WEIGHT => 4
  | NOTES => 5
  end.

(** The number of the last column of the row that has content, 0 for a
    blank row. *)
Definition lastColumnOfRow (r : Row) : nat :=
  if negb (cellBlank (colNotes r)) then 6
  else if negb (cellBlank (colWeight r)) then 5
  else if negb (cellBlank (colBeerCount r)) then 4
  else if negb (cellBlank (colExerciseMin r)) then 3
  else if negb (cellBlank (colExerciseType r)) then 2
  else if negb (cellBlank (colDate r)) then 1
  else 0.

(** ** Day classification, as tested inline by every loop of the script *)

(** [exerciseType && exerciseType !== "Rest Day" && exerciseType !== ""] *)
Definition isExerciseDay (r : Row) : bool :=
  let exerciseType := cell r EXERCISE_TYPE in
  truthy exerciseType
  && negb (strictEqStr exerciseType "Rest Day")
  && negb (strictEqStr exerciseType "").

(** [beerCount === 0 || beerCount === "" || beerCount === null] *)
Definition isNoAlcoholDay (r : Row) : bool :=
  let beerCount := cell r BEER_COUNT in
  strictEqNum beerCount 0 || strictEqStr beerCount "" || strictEqNull beerCount.

(** ** Dates *)

Definition msPerDay : Z := 86400000.

(** Days since 1970-01-01 of the calendar day a time falls on. *)
Definition dayNumber (t : Z) : Z := t / msPerDay.

(** [setHours(0, 0, 0, 0)] *)
Definition setHours0 (t : Z) : Z := t - t mod msPerDay.

(** [normalizeDate_(date)]: a copy of the date at 00:00:00.000. *)
Definition normalizeDate_ (date : Z) : Z := setHours0 date.

(** [getDay()]: 0 is Sunday; 1970-01-01 was a Thursday. *)
Definition getDay (t : Z) : Z := (dayNumber t + 4) mod 7.

(** [d.setDate(d.getDate() - k)]: the same time of day, [k] days earlier. *)
Definition setDateBack (t : Z) (k : Z) : Z := t - k * msPerDay.

(** Year, month and day of month of a day number (proleptic Gregorian). *)
Definition civil (z : Z) : Z * Z * Z :=
  let z := z + 719468 in
  let era := z / 146097 in
  let doe := z - era * 146097 in
  let yoe := (doe - doe / 1460 + doe / 36524 - doe / 146096) / 365 in
  let doy := doe - (365 * yoe + yoe / 4 - yoe / 100) in
  let mp := (5 * doy + 2) / 153 in
  let d := doy - (153 * mp + 2) / 5 + 1 in
  let m := if mp <? 10 then mp + 3 else mp - 9 in
  let y := yoe + era * 400 + (if m <=? 2 then 1 else 0) in
  (y, m, d).

(** Decimal numeral of a non-negative integer. *)
Definition decimal (n : Z) : string :=
  NilZero.string_of_uint (N.to_uint (Z.to_N n)).

Fixpoint zeros (k : nat) : string :=
  match k with
  | O => ""
  | S k' => String "0" (zeros k')
  end.

(** Left-pad with zeros to at least [width] digits. *)
Definition padded (width : nat) (n : Z) : string :=
  let s := decimal n in
  zeros (width - String.length s) +:+ s.

(** [Utilities.formatDate(d, Session.getScriptTimeZone(), "yyyy-MM-dd")] *)
Definition formatDate (t : Z) : string :=
  let '(y, m, d) := civil (dayNumber t) in
  padded 4 y +:+ "-" +:+ padded 2 m +:+ "-" +:+ padded 2 d.

#[global] Arguments formatDate : simpl never.

(** ** Numbers *)

(** The number for a count held in an integer: the count itself up to 2^53,
    where [x + 1] is [x] again and a counter of the script stays. *)
Definition numOfZ (z : Z) : float :=
  of_uint63 (Uint63.of_Z (Z.min z 9007199254740992)).

(** The number a counter of the script holds after [n] increments from 0
    ([totalDays++]), and the number [weights.length] is for [n] elements. *)
Definition numOfNat (n : nat) : float := numOfZ (Z.of_nat n).

(** [Number.prototype.toFixed] for the value [m * 2^e] above 0: the integer
    [n] for which [n / 10^digits] is nearest to the value, the larger one
    when two are equally near. *)
Definition nearestScaled (digits : nat) (m : positive) (e : Z) : Z :=
  let scaled := Z.pos m * 10 ^ Z.of_nat digits in
  if 0 <=? e then Z.shiftl scaled e
  else Z.shiftr (scaled + Z.shiftl 1 (- e - 1)) (- e).

(** [m * 2^e >= 10^21], from where [toFixed] hands over to
    [Number::toString]. *)
Definition atLeast1e21 (m : positive) (e : Z) : bool :=
  1000000000000000000000 <=? Z.shiftl (Z.pos m) e.

(** The digits of [n] with a point before the last [digits] of them, zeros
    put in front where [n] has too few. *)
Definition fixedDigits (digits : nat) (n : Z) : string :=
  let m := decimal n in
  if (digits =? 0)%nat then m
  else
    let m := zeros (S digits - String.length m) +:+ m in
    let k := String.length m in
    substring 0 (k - digits) m +:+ "." +:+ substring (k - digits) digits m.

(** ** The sheet as a grid *)

(** The rows of the sheet from row 1 (the header) down; cells beyond the list
    are empty. *)
Abbreviation Sheet := (list Row).

(** [sheet.getLastRow()]: the number of the last row that has content. *)
Fixpoint getLastRow (sheet : Sheet) : nat :=
  match sheet with
  | [] => O
  | r :: rest =>
      match getLastRow rest with
      | O => if rowBlank r then O else 1%nat
      | S n => S (S n)
      end
  end.

(** [sheet.getLastColumn()]: the number of the last column that has
    content. *)
Fixpoint getLastColumn (sheet : Sheet) : nat :=
  match sheet with
  | [] => O
  | r :: rest => Nat.max (lastColumnOfRow r) (getLastColumn rest)
  end.

(** [sheet.getRange(row, 1, numRows, HEADER_ROW.length).getValues()] *)
Definition getRangeValues (row numRows : nat) (sheet : Sheet) : list Row :=
  take numRows (drop (row - 1) sheet ++ replicate numRows emptyRow).

(** [sheet.getDataRange().getValues()]: the rows 1 to [getLastRow], each an
    array of the columns 1 to [getLastColumn]; an empty sheet yields the
    single cell A1. *)
Definition getDataRangeValues (sheet : Sheet) : list (list Cell) :=
  let numRows := Nat.max 1 (getLastRow sheet) in
  let numColumns := Nat.max 1 (getLastColumn sheet) in
  map (fun r => take numColumns (cells r)) (getRangeValues 1 numRows sheet).

(** The row at index [i] (row number [i + 1]); rows beyond the list are
    empty. *)
Definition rowAt (sheet : Sheet) (i : nat) : Row := default emptyRow (sheet !! i).

(** [sheet.getRange(row, col).getValue()] *)
Definition getValue (row : nat) (c : COL) (sheet : Sheet) : Cell :=
  match row with
  | O => emptyCell
  | S i => match sheet !! i with
           | Some r => cell r c
           | None => emptyCell
           end
  end.

(** [sheet.getRange(row, col).setValue(v)]: row numbers start at 1. *)
Definition setValue (row : nat) (c : COL) (v : Cell) (sheet : Sheet) : Sheet :=
  match row with
  | O => sheet
  | S i =>
      alter (fun r => setCell r c v) i
            (sheet ++ replicate (S i - length sheet) emptyRow)
  end.

(** ** The world the script runs in *)

Record Email : Type := mkEmail {
  mailTo : string;
  mailSubject : string;
  mailBody : string
}.

Record World : Type := mkWorld {
  (** the sheet named "Tracking", when the spreadsheet has one *)
  tracking : option Sheet;
  (** [PropertiesService.getScriptProperties()] *)
  scriptProperties : gmap string string;
  (** [LockService.getScriptLock()] is held by another execution *)
  scriptLock : bool;
  (** messages [MailApp.sendEmail] has delivered, oldest first *)
  sentMail : list Email
}.

(** What one execution reads from its environment. *)
Record Run : Type := mkRun {
  now : Z;
  mailDelivers : bool;
  userEmail : string;
  ssUrl : string
}.

Inductive Error : Type :=
| SheetNotFound
| MailFailure.

Inductive Result (A : Type) : Type :=
| Ok (a : A)
| Throw (e : Error).
Arguments Ok {A} a.
Arguments Throw {A} e.

(** A script function: it may read and change the world, and either returns
    or throws. *)
Definition Script (A : Type) : Type := World -> Result A * World.

Definition ret {A} (a : A) : Script A := fun w => (Ok a, w).

Definition throw {A} (e : Error) : Script A := fun w => (Throw e, w).

Definition bind {A B} (c : Script A) (k : A -> Script B) : Script B :=
  fun w =>
    match c w with
    | (Ok a, w') => k a w'
    | (Throw e, w') => (Throw e, w')
    end.

(** [try { c } finally { f }] for a handler [f] that does not throw. *)
Definition finally {A} (c : Script A) (f : World -> World) : Script A :=
  fun w => let '(r, w') := c w in (r, f w').

Declare Scope script_scope.
Delimit Scope script_scope with script.
Notation "x <- c ;; k" := (bind c (fun x => k))
  (at level 100, c at next level, right associativity) : script_scope.
Notation "c ;;; k" := (bind c (fun _ => k))
  (at level 100, right associativity) : script_scope.
Local Open Scope script_scope.

Definition setTracking (sheet : Sheet) (w : World) : World :=
  mkWorld (Some sheet) (scriptProperties w) (scriptLock w) (sentMail w).

Definition setLock (b : bool) (w : World) : World :=
  mkWorld (tracking w) (scriptProperties w) b (sentMail w).

(** [lock.tryLock(10000)] *)
Definition tryLock : Script bool :=
  fun w => if scriptLock w then (Ok false, w) else (Ok true, setLock true w).

(** [lock.releaseLock()] *)
Definition releaseLock (w : World) : World := setLock false w.

(** [props.getProperty(key)] *)
Definition getProperty (key : string) : Script (option string) :=
  fun w => (Ok (scriptProperties w !! key), w).

(** [props.setProperty(key, value)] *)
Definition setProperty (key value : string) : Script unit :=
  fun w => (Ok tt, mkWorld (tracking w) (<[key := value]> (scriptProperties w))
                           (scriptLock w) (sentMail w)).

(** [MailApp.sendEmail(message)]: throws when the transport fails. *)
Definition sendEmail (run : Run) (message : Email) : Script unit :=
  fun w =>
    if mailDelivers run
    then (Ok tt, mkWorld (tracking w) (scriptProperties w) (scriptLock w)
                         (sentMail w ++ [message]))
    else (Throw MailFailure, w).

(** [getTrackingSheet_()] *)
Definition getTrackingSheet_ : Script Sheet :=
  fun w =>
    match tracking w with
    | Some sheet => (Ok sheet, w)
    | None => (Throw SheetNotFound, w)
    end.

(** [getTrackingData_()]: all rows below the header. *)
Definition getTrackingData_ : Script (list Row) :=
  sheet <- getTrackingSheet_ ;;
  let lastRow := getLastRow sheet in
  if (lastRow <=? 1)%nat then ret []
  else ret (getRangeValues 2 (lastRow - 1) sheet).

(** ** Streak calculation *)

(** [for (let i = data.length - 1; i >= 0; i--) { if (test(data[i])) streak++; else break; }]
    run on the rows taken last to first. *)
Fixpoint countWhile (test : Row -> bool) (rows : list Row) : nat :=
  match rows with
  | [] => O
  | r :: rest => if test r then S (countWhile test rest) else O
  end.

Definition exerciseStreakOf (data : list Row) : nat :=
  countWhile isExerciseDay (rev data).

Definition noAlcoholStreakOf (data : list Row) : nat :=
  countWhile isNoAlcoholDay (rev data).

(** One iteration of the forward loop on [(longest, current)]. *)
Definition longestStep (acc : nat * nat) (r : Row) : nat * nat :=
  let '(longest, current) := acc in
  if isExerciseDay r
  then (Nat.max longest (S current), S current)
  else (longest, O).

Definition longestExerciseStreakOf (data : list Row) : nat :=
  fst (fold_left longestStep data (O, O)).

Definition calculateExerciseStreak : Script nat :=
  data <- getTrackingData_ ;; ret (exerciseStreakOf data).

Definition calculateNoAlcoholStreak : Script nat :=
  data <- getTrackingData_ ;; ret (noAlcoholStreakOf data).

Definition calculateLongestExerciseStreak : Script nat :=
  data <- getTrackingData_ ;; ret (longestExerciseStreakOf data).

(** ** Weekly statistics *)

Module WeekStats.
Record t : Type := mk {
  exerciseDays : nat;
  totalMinutes : float;
  totalBeers : float;
  avgWeight : option float
}.
End WeekStats.

(** The four running variables of the loop of [getWeekStats_]. *)
Record WeekAcc : Type := mkWeekAcc {
  accExerciseDays : nat;
  accTotalMinutes : float;
  accTotalBeers : float;
  accWeights : list float
}.

Definition weekAcc0 : WeekAcc := mkWeekAcc O 0 0 [].

(** The part of the loop body below the two [continue]s. *)
Definition weekCount (acc : WeekAcc) (row : Row) : WeekAcc :=
  let exerciseDays :=
    if isExerciseDay row then S (accExerciseDays acc) else accExerciseDays acc in
  let totalMinutes :=
    match cell row EXERCISE_MIN with
    | CNum minutes => (accTotalMinutes acc + minutes)%float
    | _ => accTotalMinutes acc
    end in
  let totalBeers :=
    match cell row BEER_COUNT with
    | CNum beers => (accTotalBeers acc + beers)%float
    | _ => accTotalBeers acc
    end in
  let weights :=
    match cell row WEIGHT with
    | CNum weight =>
        if (0 <? weight)%float then accWeights acc ++ [weight] else accWeights acc
    | _ => accWeights acc
    end in
  mkWeekAcc exerciseDays totalMinutes totalBeers weights.

Definition weekStep (monday : Z) (acc : WeekAcc) (row : Row) : WeekAcc :=
  match cell row DATE with
  | CDate d =>
      let rowDate := normalizeDate_ d in
      if rowDate <? monday then acc else weekCount acc row
  | _ => acc
  end.

(** [weights.reduce((a, b) => a + b, 0) / weights.length], or [null]. *)
Definition average (weights : list float) : option float :=
  if (0 <? length weights)%nat
  then Some (fold_left PrimFloat.add weights 0 / numOfNat (length weights))%float
  else None.

Definition weekResult (acc : WeekAcc) : WeekStats.t :=
  WeekStats.mk (accExerciseDays acc) (accTotalMinutes acc) (accTotalBeers acc)
               (average (accWeights acc)).

(** The Monday of [now]'s week at 00:00. *)
Definition mondayOf (now : Z) : Z :=
  let dayOfWeek := getDay now in
  let mondayOffset := if dayOfWeek =? 0 then 6 else dayOfWeek - 1 in
  setHours0 (setDateBack now mondayOffset).

Definition weekStatsOf (now : Z) (data : list Row) : WeekStats.t :=
  weekResult (fold_left (weekStep (mondayOf now)) data weekAcc0).

Definition getWeekStats_ (now : Z) : Script WeekStats.t :=
  data <- getTrackingData_ ;; ret (weekStatsOf now data).

(** ** Statistics of the last 30 days *)

Module MonthStats.
Record t : Type := mk {
  exerciseDays : nat;
  noAlcoholDays : nat;
  beerFreeRate : string
}.
End MonthStats.

(** The running variables [exerciseDays], [noAlcoholDays], [totalDays]. *)
Record MonthAcc : Type := mkMonthAcc {
  accMExerciseDays : nat;
  accNoAlcoholDays : nat;
  accTotalDays : nat
}.

Definition monthAcc0 : MonthAcc := mkMonthAcc O O O.

Definition monthCount (acc : MonthAcc) (row : Row) : MonthAcc :=
  mkMonthAcc
    (if isExerciseDay row then S (accMExerciseDays acc) else accMExerciseDays acc)
    (if isNoAlcoholDay row then S (accNoAlcoholDays acc) else accNoAlcoholDays acc)
    (S (accTotalDays acc)).

Definition monthStep (thirtyDaysAgo : Z) (acc : MonthAcc) (row : Row) : MonthAcc :=
  match cell row DATE with
  | CDate d =>
      let rowDate := normalizeDate_ d in
      if rowDate <? thirtyDaysAgo then acc else monthCount acc row
  | _ => acc
  end.

Definition thirtyDaysAgoOf (now : Z) : Z := setHours0 (setDateBack now 30).

Definition monthLoop (now : Z) (data : list Row) : MonthAcc :=
  fold_left (monthStep (thirtyDaysAgoOf now)) data monthAcc0.

(** [(noAlcoholDays / totalDays) * 100], the number [toFixed(0)] is applied
    to. *)
Definition rateOf (noAlcoholDays totalDays : float) : float :=
  ((noAlcoholDays / totalDays) * 100)%float.

Section Rendering.

(** A parameter: the text a template literal gives for a number
    ([Number::toString] of the language, not code of the script). *)
Variable numberToString : float -> string.

(** [x.toFixed(digits)]: a number that is not finite reads as
    [Number::toString] gives it, one of at least 10^21 in absolute value as
    that gives its absolute value, after the sign. *)
Definition toFixed (digits : nat) (x : float) : string :=
  match Prim2SF x with
  | S754_nan => "NaN"
  | S754_infinity s => if s then "-Infinity" else "Infinity"
  | S754_zero _ => fixedDigits digits 0
  | S754_finite s m e =>
      (if s then "-" else "")
      +:+ (if atLeast1e21 m e then numberToString (abs x)
           else fixedDigits digits (nearestScaled digits m e))
  end.

Definition beerFreeRateOf (noAlcoholDays totalDays : nat) : string :=
  if (0 <? totalDays)%nat
  then toFixed 0 (rateOf (numOfNat noAlcoholDays) (numOfNat totalDays))
  else "0".

Definition monthResult (acc : MonthAcc) : MonthStats.t :=
  MonthStats.mk (accMExerciseDays acc) (accNoAlcoholDays acc)
                (beerFreeRateOf (accNoAlcoholDays acc) (accTotalDays acc)).

Definition monthStatsOf (now : Z) (data : list Row) : MonthStats.t :=
  monthResult (monthLoop now data).

Definition getMonthStats_ (now : Z) : Script MonthStats.t :=
  data <- getTrackingData_ ;; ret (monthStatsOf now data).

End Rendering.

(** ** Daily row management *)

(** The scan of [addTodayRow] over the rows of the data range: is there a
    row whose first element is a [Date] that formats to [today]? *)
Fixpoint todayRowExists (today : string) (rows : list (list Cell)) : bool :=
  match rows with
  | [] => false
  | row :: rest =>
      match row !! colIndex DATE with
      | Some (CDate d) =>
          let rowDate := formatDate d in
          if String.eqb rowDate today then true else todayRowExists today rest
      | _ => todayRowExists today rest
      end
  end.

(** [sheet.getRange(row, col).setValue(v)] on the Tracking sheet. *)
Definition writeTracking (row : nat) (c : COL) (v : Cell) (sheet : Sheet) : Script unit :=
  fun w => (Ok tt, setTracking (setValue row c v sheet) w).

(** [addTodayRow()]; the scan starts at index 1, below the header. *)
Definition addTodayRow (now : Z) : Script unit :=
  sheet <- getTrackingSheet_ ;;
  let today := formatDate now in
  let data := getDataRangeValues sheet in
  if todayRowExists today (drop 1 data) then ret tt
  else
    let newRow := (getLastRow sheet + 1)%nat in
    writeTracking newRow DATE (CDate now) sheet.

(** ** The daily reminder *)

(** [v !== ""] for an array element [v]; an index beyond the array gives
    [undefined], which is not the empty string. *)
Definition notEmptyString (v : option Cell) : bool :=
  match v with
  | Some c => negb (strictEqStr c "")
  | None => true
  end.

(** The scan of [sendDailyReminder] over the rows of the data range: the
    first row dated [today] decides. *)
Fixpoint todayFilledScan (today : string) (rows : list (list Cell)) : bool :=
  match rows with
  | [] => false
  | row :: rest =>
      match row !! colIndex DATE with
      | Some (CDate d) =>
          let rowDate := formatDate d in
          if String.eqb rowDate today
          then
            let hasExercise := notEmptyString (row !! colIndex EXERCISE_TYPE) in
            hasExercise
          else todayFilledScan today rest
      | _ => todayFilledScan today rest
      end
  end.

Definition LF : string := String (ascii_of_nat 10) "".

(** [lines.join("\n")] *)
Fixpoint joinLines (lines : list string) : string :=
  match lines with
  | [] => ""
  | [l] => l
  | l :: rest => l +:+ LF +:+ joinLines rest
  end.

Definition reminderMail (run : Run) (exerciseStreak noAlcoholStreak : nat) : Email :=
  let subject := "Habit Tracker: Record Today's Habits" in
  let body := joinLines [
    "Today's habits haven't been recorded yet!";
    "";
    "Exercise Streak: " +:+ decimal (Z.of_nat exerciseStreak) +:+ " days";
    "No-Alcohol Streak: " +:+ decimal (Z.of_nat noAlcoholStreak) +:+ " days";
    "";
    "Record now: " +:+ ssUrl run;
    "";
    "Keep it up!" ] in
  mkEmail (userEmail run) subject body.

Definition lastReminderDate : string := "lastReminderDate".

Definition sendDailyReminder (run : Run) : Script unit :=
  locked <- tryLock ;;
  if negb locked then ret tt
  else
    finally
      (let today := formatDate (now run) in
       lastReminder <- getProperty lastReminderDate ;;
       if bool_decide (lastReminder = Some today) then ret tt
       else
         sheet <- getTrackingSheet_ ;;
         let data := getDataRangeValues sheet in
         let todayFilled := todayFilledScan today (drop 1 data) in
         if todayFilled then ret tt
         else
           exerciseStreak <- calculateExerciseStreak ;;
           noAlcoholStreak <- calculateNoAlcoholStreak ;;
           (sendEmail run (reminderMail run exerciseStreak noAlcoholStreak) ;;;
            setProperty lastReminderDate today))
      releaseLock.

(** ** Reference definitions taken from the specification's wording

    These are not part of the script; they state what the specification
    describes, to be compared with the functions above. *)

Definition dayOfRow (r : Row) : option Z :=
  match cell r DATE with
  | CDate d => Some (dayNumber d)
  | _ => None
  end.

(** [older] is the record of the calendar day just before [newer]'s. *)
Definition dayBefore (older newer : Row) : bool :=
  match dayOfRow older, dayOfRow newer with
  | Some a, Some b => a + 1 =? b
  | _, _ => false
  end.

(** "walk records from the most recent backward; count consecutive days
    classified as exercise days; stop at the first non-exercise day or at the
    first day with no matching record (a gap)"; [rows] is most recent first. *)
Fixpoint walkDays (test : Row -> bool) (rows : list Row) : nat :=
  match rows with
  | [] => O
  | r :: rest =>
      if test r
      then S (match rest with
              | [] => O
              | r' :: _ => if dayBefore r' r then walkDays test rest else O
              end)
      else O
  end.

Definition currentExerciseStreak_spec (records : list Row) : nat :=
  walkDays isExerciseDay (rev records).

(** Sorting "by date ascending": rows without a date first, the others by
    calendar day, rows of one day in their stored order. *)
Definition dateKey (r : Row) : option Z :=
  match cell r DATE with
  | CDate d => Some (normalizeDate_ d)
  | _ => None
  end.

Definition keyLe (a b : option Z) : bool :=
  match a, b with
  | None, _ => true
  | Some _, None => false
  | Some x, Some y => x <=? y
  end.

Definition dateLe (a b : Row) : Prop := keyLe (dateKey a) (dateKey b) = true.

Fixpoint insertByDate (r : Row) (rows : list Row) : list Row :=
  match rows with
  | [] => [r]
  | r' :: rest =>
      if keyLe (dateKey r) (dateKey r') then r :: rows
      else r' :: insertByDate r rest
  end.

Fixpoint sortByDate (rows : list Row) : list Row :=
  match rows with
  | [] => []
  | r :: rest => insertByDate r (sortByDate rest)
  end.

(** The stored order already is ascending by date. *)
Definition ascendingByDate (rows : list Row) : Prop := Sorted dateLe rows.

(** The week window as the specification words it: from the most recent
    Monday at 00:00 through [now]. *)
Definition inWeekWindow_spec (now : Z) (r : Row) : bool :=
  match cell r DATE with
  | CDate d => (mondayOf now <=? normalizeDate_ d) && (normalizeDate_ d <=? now)
  | _ => false
  end.

Definition weekSummary_spec (now : Z) (records : list Row) : WeekStats.t :=
  weekResult (fold_left weekCount (List.filter (inWeekWindow_spec now) records) weekAcc0).

(** The rows [getWeekStats_] lets through its two [continue]s. *)
Definition onOrAfter (start : Z) (r : Row) : bool :=
  match cell r DATE with
  | CDate d => negb (normalizeDate_ d <? start)
  | _ => false
  end.

(** A field that is not a number, read as absent (an empty cell). *)
Definition absentUnlessNumber (v : Cell) : Cell :=
  if typeofNumber v then v else emptyCell.

(** Minutes, beers and weight that are not numbers replaced by empty cells. *)
Definition dropNonNumeric (r : Row) : Row :=
  mkRow (colDate r) (colExerciseType r)
        (absentUnlessNumber (colExerciseMin r))
        (absentUnlessNumber (colBeerCount r))
        (absentUnlessNumber (colWeight r))
        (colNotes r).

(** The same for minutes and weight only. *)
Definition dropNonNumericMinWeight (r : Row) : Row :=
  mkRow (colDate r) (colExerciseType r)
        (absentUnlessNumber (colExerciseMin r))
        (colBeerCount r)
        (absentUnlessNumber (colWeight r))
        (colNotes r).

(** A weight that is a number but not above 0, read as absent. *)
Definition dropUnusedWeight (r : Row) : Row :=
  match cell r WEIGHT with
  | CNum weight => if (0 <? weight)%float then r else setCell r WEIGHT emptyCell
  | _ => r
  end.

(** "round(noAlcoholDays / totalDays * 100) as an integer percentage, or 0
    if totalDays == 0", in exact arithmetic, a half rounded upward. *)
Definition roundedPercentage_spec (noAlcoholDays totalDays : nat) : Z :=
  if (0 <? totalDays)%nat
  then Qfloor (inject_Z (Z.of_nat noAlcoholDays) / inject_Z (Z.of_nat totalDays)
               * inject_Z 100 + (1 # 2))%Q
  else 0.

(** [p] is an integer nearest to [n / t * 100]: at most one half away. *)
Definition nearestPercentage (n t p : Z) : bool :=
  (0 <=? p) && (p <=? 100)
  && ((2 * p - 1) * t <=? 200 * n)
  && (200 * n <=? (2 * p + 1) * t).

(** [p] is [n / t * 100] rounded to the nearest integer, a half upward. *)
Definition roundedPercentage (n t p : Z) : bool :=
  (0 <=? p) && (p <=? 100)
  && ((2 * p - 1) * t <=? 200 * n)
  && (200 * n <? (2 * p + 1) * t).

(** Number of data rows dated on [now]'s calendar day, compared the way the
    script compares days: by their "yyyy-MM-dd" rendering. *)
Definition isRecordOf (today : string) (r : Row) : bool :=
  match cell r DATE with
  | CDate d => String.eqb (formatDate d) today
  | _ => false
  end.

Definition recordsOf (sheet : Sheet) : list Row :=
  drop 1 (take (getLastRow sheet) sheet).

Definition countToday (now : Z) (sheet : Sheet) : nat :=
  length (List.filter (isRecordOf (formatDate now)) (recordsOf sheet)).

(** A record with only the date populated. *)
Definition dateOnlyRow (now : Z) : Row := setCell emptyRow DATE (CDate now).

(** What one record adds to the weekly totals: "sum exerciseMinutes (treat
    absent as 0), sum beerCount (absent as 0), collect weightKg values where
    present and > 0"; the numbers a record contributes, none when the field
    is absent. *)
Definition minutesOf (r : Row) : list float :=
  match cell r EXERCISE_MIN with CNum minutes => [minutes] | _ => [] end.

Definition beersOf (r : Row) : list float :=
  match cell r BEER_COUNT with CNum beers => [beers] | _ => [] end.

Definition weightsOf (r : Row) : list float :=
  match cell r WEIGHT with
  | CNum weight => if (0 <? weight)%float then [weight] else []
  | _ => []
  end.

(** The sum of a list of numbers taken left to right from 0, as a loop with
    [total += x] computes it. *)
Definition sumOf (l : list float) : float := fold_left PrimFloat.add l 0%float.

(** The weekly summary of a set of records already cut to the window. *)
Definition summaryOf (records : list Row) : WeekStats.t :=
  WeekStats.mk (length (List.filter isExerciseDay records))
               (sumOf (flat_map minutesOf records))
               (sumOf (flat_map beersOf records))
               (average (flat_map weightsOf records)).

(** No record is dated on a later calendar day than [now]. *)
Definition noneAfter (now : Z) (records : list Row) : Prop :=
  Forall (fun r => forall d, cell r DATE = CDate d -> normalizeDate_ d <= now) records.

(** The world after a reminder has been delivered and the marker written. *)
Definition afterReminder (run : Run) (w : World) (sheet : Sheet) : World :=
  mkWorld (tracking w)
          (<[lastReminderDate := formatDate (now run)]> (scriptProperties w))
          false
          (sentMail w ++ [reminderMail run (exerciseStreakOf (recordsOf sheet))
                                          (noAlcoholStreakOf (recordsOf sheet))]).

(** "today's record already shows a non-empty exerciseType": the first
    record dated [today] has something in its exercise cell. *)
Definition todayRecorded (today : string) (records : list Row) : Prop :=
  exists earlier r later,
    records = earlier ++ r :: later
    /\ Forall (fun x => isRecordOf today x = false) earlier
    /\ isRecordOf today r = true
    /\ cell r EXERCISE_TYPE <> CStr "".

(** The scan of [sendDailyReminder] as it comes out on the records, for a
    data range [width] columns wide: the first record dated [today] decides,
    and in a range of one column its exercise cell is not there to read. *)
Fixpoint todayFilledIn (width : nat) (today : string) (records : list Row) : bool :=
  match records with
  | [] => false
  | r :: rest =>
      if isRecordOf today r
      then (if (2 <=? width)%nat
            then negb (strictEqStr (cell r EXERCISE_TYPE) "")
            else true)
      else todayFilledIn width today rest
  end.

(** ** Sample data *)

Definition headerRow : Row :=
  mkRow (CStr "Date") (CStr "Exercise Type") (CStr "Duration (min)")
        (CStr "Beers") (CStr "Weight (kg)") (CStr "Notes").

Definition record (d : Z) (exerciseType : string) : Row :=
  mkRow (CDate d) (CStr exerciseType) emptyCell emptyCell emptyCell emptyCell.

Definition worldOf (data : list Row) : World :=
  mkWorld (Some (headerRow :: data)) ∅ false [].

(** Monday 2024-01-01 00:00 and the days after it. *)
Definition jan1 : Z := 1704067200000.
Definition jan (day : Z) : Z := jan1 + (day - 1) * msPerDay.
Definition hours (h : Z) : Z := h * 3600000.

(** Two gym days four days apart. *)
Definition gapRows : list Row := [record (jan 1) "Gym"; record (jan 5) "Gym"].

(** Tuesday's gym row stored above Monday's rest day. *)
Definition unsortedRows : list Row := [record (jan 2) "Gym"; record (jan 1) "Rest Day"].

(** A row pre-filled for the Monday of next week. *)
Definition nextWeekRows : list Row := [record (jan 15) "Running"].

(** A beer count typed as text. *)
Definition textBeerRow : Row :=
  mkRow (CDate (jan 3)) (CStr "Gym") (CNum 30) (CStr "two") emptyCell emptyCell.

(** Three January records, two of them without alcohol. *)
Definition monthRows : list Row :=
  [textBeerRow; record (jan 4) "Gym"; record (jan 5) ""].

(** Four weigh-ins stored out of date order. *)
Definition weighIn (d : Z) (weight : float) : Row :=
  mkRow (CDate d) emptyCell emptyCell emptyCell (CNum weight) emptyCell.

Definition weighInRows : list Row :=
  [weighIn (jan 4) 82.5; weighIn (jan 2) 68.3; weighIn (jan 1) 65.6;
   weighIn (jan 3) 77.4].

(** Forty days from 2024-01-01, the first 23 without beer. *)
Definition beerLog (d : Z) (beers : float) : Row :=
  mkRow (CDate d) emptyCell emptyCell (CNum beers) emptyCell emptyCell.

Definition fortyRows : list Row :=
  map (fun k => beerLog (jan (Z.of_nat k)) (if (k <=? 23)%nat then 0 else 2)%float)
      (seq 1 40).

(** Numbers outside any sensible range: minus 30 minutes, 25 beers, a
    weight of minus 5. *)
Definition outOfRangeRow : Row :=
  mkRow (CDate (jan 3)) (CStr "Gym") (CNum (-30)) (CNum 25) (CNum (-5)) emptyCell.

Definition sampleRun (t : Z) (delivers : bool) : Run :=
  mkRun t delivers "me@example.com" "https://docs.example.com/sheet".

(** ** The trigger handler of the daily row *)

(** [dailyAutoAddRow()] *)
Definition dailyAutoAddRow (now : Z) : Script unit :=
  locked <- tryLock ;;
  if negb locked then ret tt
  else finally (addTodayRow now) releaseLock.

(** A handler run once at each time of a list, in order; a throw ends the
    sequence. *)
Fixpoint atEach (handler : Z -> Script unit) (ticks : list Z) : Script unit :=
  match ticks with
  | [] => ret tt
  | t :: rest => (handler t ;;; atEach handler rest)
  end.

(** The calendar days, as [addTodayRow] renders them, of the records that
    carry a date, in stored order. *)
Definition dayKeyOf (r : Row) : option string :=
  match cell r DATE with
  | CDate d => Some (formatDate d)
  | _ => None
  end.

Definition dayKeys (sheet : Sheet) : list string := omap dayKeyOf (recordsOf sheet).

(** No calendar day has two records. *)
Definition oneRecordPerDay (sheet : Sheet) : Prop := NoDup (dayKeys sheet).

(** The row is counted by a window starting at [start] and has a weight that
    enters the average. *)
Definition weighsIn (start : Z) (r : Row) : Prop :=
  onOrAfter start r = true
  /\ exists weight : float, cell r WEIGHT = CNum weight /\ (0 <? weight)%float = true.

(** ** The workbook: dashboard, triggers, dialogs

    The functions below reach beyond the Tracking sheet.  A [Book] is the
    [World] together with the Dashboard sheet (cell values by row and
    column; fonts, colours and widths are not modelled), the default sheet
    "Sheet1", the count of any further sheets, the project's triggers and
    the dialogs shown. *)

Inductive WeekDay : Type :=
  MONDAY | TUESDAY | WEDNESDAY | THURSDAY | FRIDAY | SATURDAY | SUNDAY.

Inductive Schedule : Type :=
| EveryDaysAtHour (days hour : Z)
| OnWeekDayAtHour (day : WeekDay) (hour : Z).

Record Trigger : Type := mkTrigger {
  handlerFunction : string;
  schedule : Schedule
}.

Abbreviation Dashboard := (gmap (nat * nat) Cell).

Record Book : Type := mkBook {
  world : World;
  (** the sheet named "Dashboard", when there is one *)
  dashboard : option Dashboard;
  (** a sheet named "Sheet1" exists *)
  defaultSheet : bool;
  (** sheets other than Tracking, Dashboard and Sheet1 *)
  otherSheets : nat;
  (** [ScriptApp.getProjectTriggers()] *)
  triggers : list Trigger;
  (** messages shown with [ui.alert], oldest first *)
  alerts : list string
}.

Definition REMINDER_HOUR : Z := 21.
Definition WEEKLY_SUMMARY_HOUR : Z := 8.

Definition HEADER_ROW : Row :=
  mkRow (CStr "Date") (CStr "Exercise Type") (CStr "Duration (min)")
        (CStr "Beers") (CStr "Weight (kg)") (CStr "Notes").

Definition Action (A : Type) : Type := Book -> Result A * Book.

Definition retA {A} (a : A) : Action A := fun b => (Ok a, b).

Definition bindA {A B} (c : Action A) (k : A -> Action B) : Action B :=
  fun b =>
    match c b with
    | (Ok a, b') => k a b'
    | (Throw e, b') => (Throw e, b')
    end.

Definition setWorld (w : World) (b : Book) : Book :=
  mkBook w (dashboard b) (defaultSheet b) (otherSheets b) (triggers b) (alerts b).

Definition setDashboard (d : option Dashboard) (b : Book) : Book :=
  mkBook (world b) d (defaultSheet b) (otherSheets b) (triggers b) (alerts b).

(** A function of the script that only deals with the [World]. *)
Definition liftScript {A} (c : Script A) : Action A :=
  fun b => let '(r, w') := c (world b) in (r, setWorld w' b).

(** [try { c } finally { lock.releaseLock() }] *)
Definition finallyRelease {A} (c : Action A) : Action A :=
  fun b => let '(r, b') := c b in (r, setWorld (releaseLock (world b')) b').

(** [ui.alert(message)] *)
Definition alert (message : string) : Action unit :=
  fun b => (Ok tt, mkBook (world b) (dashboard b) (defaultSheet b) (otherSheets b)
                          (triggers b) (alerts b ++ [message])).

(** [ss.getSheets().length] *)
Definition countSheets (b : Book) : nat :=
  ((match tracking (world b) with Some _ => 1 | None => 0 end)
   + (match dashboard b with Some _ => 1 | None => 0 end)
   + (if defaultSheet b then 1 else 0)
   + otherSheets b)%nat.

(** "yyyy-MM-dd HH:mm" *)
Definition formatDateTime (t : Z) : string :=
  formatDate t +:+ " " +:+ padded 2 ((t mod msPerDay) / 3600000)
  +:+ ":" +:+ padded 2 ((t mod 3600000) / 60000).

#[global] Arguments formatDateTime : simpl never.

(** [sheet.getRange(row, col, values.length, 2).setValues(values)] *)
Fixpoint writeCells (row col : nat) (values : list string) (d : Dashboard) : Dashboard :=
  match values with
  | [] => d
  | v :: rest => writeCells row (S col) rest (<[(row, col) := CStr v]> d)
  end.

Fixpoint writeRows (row col : nat) (values : list (list string)) (d : Dashboard) : Dashboard :=
  match values with
  | [] => d
  | vs :: rest => writeRows (S row) col rest (writeCells row col vs d)
  end.

Definition DQ : string := String (ascii_of_nat 34) "".

Definition isHabitHandler (t : Trigger) : bool :=
  let handlerName := handlerFunction t in
  String.eqb handlerName "sendDailyReminder"
  || String.eqb handlerName "dailyAutoAddRow"
  || String.eqb handlerName "sendWeeklySummary".

Definition newTriggers : list Trigger :=
  [ mkTrigger "dailyAutoAddRow" (EveryDaysAtHour 1 0);
    mkTrigger "sendDailyReminder" (EveryDaysAtHour 1 REMINDER_HOUR);
    mkTrigger "sendWeeklySummary" (OnWeekDayAtHour MONDAY WEEKLY_SUMMARY_HOUR) ].

(** [setupTriggers()]: the loop deletes every trigger of the three handlers,
    then the three triggers are created anew. *)
Definition setupTriggers : Action unit :=
  bindA (fun b =>
           (Ok tt, mkBook (world b) (dashboard b) (defaultSheet b) (otherSheets b)
                          (List.filter (fun t => negb (isHabitHandler t)) (triggers b)
                             ++ newTriggers)
                          (alerts b)))
        (fun _ =>
           alert ("Triggers set up:" +:+ LF +:+ LF
                  +:+ "- Daily: Auto-add row at midnight" +:+ LF
                  +:+ "- Daily: Reminder email at 9 PM" +:+ LF
                  +:+ "- Weekly: Summary email on Monday 8 AM")).

(** [sheet.getRange(row, 1, 1, HEADER_ROW.length).setValues([values])] on the
    Tracking sheet. *)
Definition setRowValues (row : nat) (values : Row) (sheet : Sheet) : Sheet :=
  match row with
  | O => sheet
  | S i => <[i := values]> (sheet ++ replicate (S i - length sheet) emptyRow)
  end.

Section Workbook.

(** A parameter: the text a template literal gives for a number
    ([Number::toString] of the language, not code of the script). *)
Variable numberToString : float -> string.

Declare Scope action_scope.
Notation "x <~ c ;; k" := (bindA c (fun x => k))
  (at level 100, c at next level, right associativity) : action_scope.
Notation "c ;;> k" := (bindA c (fun _ => k))
  (at level 100, right associativity) : action_scope.
Local Open Scope action_scope.

(** [sheet.getRange(a1).setValue(v)] on the Dashboard sheet. *)
Definition setDash (row col : nat) (v : string) : Action unit :=
  fun b => (Ok tt, setDashboard (<[(row, col) := CStr v]> <$> dashboard b) b).

Definition setDashValues (row col : nat) (values : list (list string)) : Action unit :=
  fun b => (Ok tt, setDashboard (writeRows row col values <$> dashboard b) b).

Definition days (n : nat) : string := decimal (Z.of_nat n) +:+ " days".

(** [buildDashboard_(sheet)]; [sheet] is the Dashboard sheet at both call
    sites. *)
Definition buildDashboard_ (now : Z) : Action unit :=
  _data <~ liftScript getTrackingData_ ;;
  setDash 1 1 "Habit Tracker Dashboard" ;;>
  let lastUpdated := formatDateTime now in
  setDash 2 1 ("Last updated: " +:+ lastUpdated) ;;>
  setDash 4 1 "Current Streaks" ;;>
  exerciseStreak <~ liftScript calculateExerciseStreak ;;
  noAlcoholStreak <~ liftScript calculateNoAlcoholStreak ;;
  longestExercise <~ liftScript calculateLongestExerciseStreak ;;
  let streakData :=
    [ ["Exercise Streak"; days exerciseStreak];
      ["No-Alcohol Streak"; days noAlcoholStreak];
      ["Longest Exercise Streak"; days longestExercise] ] in
  setDashValues 5 1 streakData ;;>
  setDash 9 1 "This Week" ;;>
  weekStats <~ liftScript (getWeekStats_ now) ;;
  let weekData :=
    [ ["Exercise Days"; decimal (Z.of_nat (WeekStats.exerciseDays weekStats)) +:+ " / 7"];
      ["Total Exercise Time"; numberToString (WeekStats.totalMinutes weekStats) +:+ " min"];
      ["Total Beers"; numberToString (WeekStats.totalBeers weekStats)];
      ["Avg Weight";
       match WeekStats.avgWeight weekStats with
       | Some avgWeight =>
           if truthy (CNum avgWeight)
           then toFixed numberToString 1 avgWeight +:+ " kg"
           else "No data"
       | None => "No data"
       end] ] in
  setDashValues 10 1 weekData ;;>
  setDash 15 1 "Last 30 Days" ;;>
  monthStats <~ liftScript (getMonthStats_ numberToString now) ;;
  let monthData :=
    [ ["Exercise Days"; decimal (Z.of_nat (MonthStats.exerciseDays monthStats)) +:+ " / 30"];
      ["No-Alcohol Days"; decimal (Z.of_nat (MonthStats.noAlcoholDays monthStats)) +:+ " / 30"];
      ["Beer-Free Rate"; MonthStats.beerFreeRate monthStats +:+ "%"] ] in
  setDashValues 16 1 monthData.

(** [ss.getSheetByName(SHEET_NAME_DASHBOARD)], inserted when missing. *)
Definition ensureDashboard : Action unit :=
  fun b => (Ok tt, match dashboard b with
                   | Some _ => b
                   | None => setDashboard (Some ∅) b
                   end).

(** [dashboard.clear()] *)
Definition clearDashboard : Action unit :=
  fun b => (Ok tt, setDashboard ((fun _ => ∅) <$> dashboard b) b).

(** [updateDashboard()] *)
Definition updateDashboard (now : Z) : Action unit :=
  ensureDashboard ;;> clearDashboard ;;> buildDashboard_ now.

Definition weeklyMail (run : Run) (weekStats : WeekStats.t)
           (exerciseStreak noAlcoholStreak longestStreak : nat) : Email :=
  let subject := "Habit Tracker: Weekly Summary" in
  let body := joinLines [
    "=== Weekly Summary ===";
    "";
    "Exercise Days: " +:+ decimal (Z.of_nat (WeekStats.exerciseDays weekStats)) +:+ " / 7";
    "Total Exercise: " +:+ numberToString (WeekStats.totalMinutes weekStats) +:+ " min";
    "Total Beers: " +:+ numberToString (WeekStats.totalBeers weekStats);
    match WeekStats.avgWeight weekStats with
    | Some avgWeight =>
        if truthy (CNum avgWeight)
        then "Average Weight: " +:+ toFixed numberToString 1 avgWeight +:+ " kg"
        else "Weight: No data"
    | None => "Weight: No data"
    end;
    "";
    "--- Streaks ---";
    "Current Exercise Streak: " +:+ days exerciseStreak;
    "Current No-Alcohol Streak: " +:+ days noAlcoholStreak;
    "All-Time Best Exercise Streak: " +:+ days longestStreak;
    "";
    "View details: " +:+ ssUrl run;
    "";
    "Have a great week!" ] in
  mkEmail (userEmail run) subject body.

(** [sendWeeklySummary()] *)
Definition sendWeeklySummary (run : Run) : Action unit :=
  locked <~ liftScript tryLock ;;
  if negb locked then retA tt
  else
    finallyRelease
      (weekStats <~ liftScript (getWeekStats_ (now run)) ;;
       exerciseStreak <~ liftScript calculateExerciseStreak ;;
       noAlcoholStreak <~ liftScript calculateNoAlcoholStreak ;;
       longestStreak <~ liftScript calculateLongestExerciseStreak ;;
       (liftScript (sendEmail run (weeklyMail run weekStats exerciseStreak
                                              noAlcoholStreak longestStreak)) ;;>
        updateDashboard (now run))).

(** The Tracking sheet, inserted empty when missing, with the header row
    written. *)
Definition prepareTracking : Action unit :=
  fun b =>
    let tracking := match tracking (world b) with
                    | Some sheet => sheet
                    | None => []
                    end in
    (Ok tt, setWorld (setTracking (setRowValues 1 HEADER_ROW tracking) (world b)) b).

(** Remove the default "Sheet1" if it exists. *)
Definition removeDefaultSheet : Action unit :=
  fun b =>
    (Ok tt, if defaultSheet b && (1 <? countSheets b)%nat
            then mkBook (world b) (dashboard b) false (otherSheets b)
                        (triggers b) (alerts b)
            else b).

(** [initializeSheet()]; data validation, number formats and column widths
    are not modelled. *)
Definition initializeSheet (now : Z) : Action unit :=
  prepareTracking ;;>
  ensureDashboard ;;>
  buildDashboard_ now ;;>
  removeDefaultSheet ;;>
  liftScript (addTodayRow now) ;;>
  alert ("Initialization complete!" +:+ LF +:+ LF
         +:+ "- Tracking sheet created" +:+ LF
         +:+ "- Dashboard sheet created" +:+ LF
         +:+ "- Today's row added" +:+ LF +:+ LF
         +:+ "Run " +:+ DQ +:+ "Setup Triggers" +:+ DQ
         +:+ " to enable daily reminders.").

(** The cells [buildDashboard_] writes, from the records of the sheet. *)
Definition paintDashboard (now : Z) (records : list Row) (d : Dashboard) : Dashboard :=
  let weekStats := weekStatsOf now records in
  let monthStats := monthStatsOf numberToString now records in
  writeRows 16 1
    [ ["Exercise Days"; decimal (Z.of_nat (MonthStats.exerciseDays monthStats)) +:+ " / 30"];
      ["No-Alcohol Days"; decimal (Z.of_nat (MonthStats.noAlcoholDays monthStats)) +:+ " / 30"];
      ["Beer-Free Rate"; MonthStats.beerFreeRate monthStats +:+ "%"] ]
    (<[(15%nat, 1%nat) := CStr "Last 30 Days"]>
       (writeRows 10 1
          [ ["Exercise Days"; decimal (Z.of_nat (WeekStats.exerciseDays weekStats)) +:+ " / 7"];
            ["Total Exercise Time"; numberToString (WeekStats.totalMinutes weekStats) +:+ " min"];
            ["Total Beers"; numberToString (WeekStats.totalBeers weekStats)];
            ["Avg Weight";
             match WeekStats.avgWeight weekStats with
             | Some avgWeight =>
                 if truthy (CNum avgWeight)
                 then toFixed numberToString 1 avgWeight +:+ " kg"
                 else "No data"
             | None => "No data"
             end] ]
          (<[(9%nat, 1%nat) := CStr "This Week"]>
             (writeRows 5 1
                [ ["Exercise Streak"; days (exerciseStreakOf records)];
                  ["No-Alcohol Streak"; days (noAlcoholStreakOf records)];
                  ["Longest Exercise Streak"; days (longestExerciseStreakOf records)] ]
                (<[(4%nat, 1%nat) := CStr "Current Streaks"]>
                   (<[(2%nat, 1%nat) := CStr ("Last updated: " +:+ formatDateTime now)]>
                      (<[(1%nat, 1%nat) := CStr "Habit Tracker Dashboard"]> d))))))).

End Workbook.

(** The Tracking sheet [initializeSheet] leaves: the header written, then
    today's row added unless a record for today is there. *)
Definition initializedTracking (now : Z) (b : Book) : Sheet :=
  let s0 := setRowValues 1 HEADER_ROW (default [] (tracking (world b))) in
  if (0 <? countToday now s0)%nat then s0
  else setValue (S (getLastRow s0)) DATE (CDate now) s0.

(** A rendering of numbers that prints whole numbers as numerals, for
    running the functions on samples. *)
Definition wholeNumberToString (x : float) : string :=
  match Prim2SF x with
  | S754_nan => "NaN"
  | S754_infinity s => if s then "-Infinity" else "Infinity"
  | S754_zero _ => "0"
  | S754_finite s m e => (if s then "-" else "") +:+ decimal (Z.shiftl (Z.pos m) e)
  end.

Definition bookOf (w : World) : Book := mkBook w None true O [] [].

(** ** The beer-free rate over a range of counts

    The rate is a function of two counts, so what binary64 makes of it can
    be checked count by count. *)

(** The number of rows [initializeSheet] prepares with validation and date
    format ([getRange(2, col, 500)]). *)
Definition preparedRows : nat := 500.

(** The largest window in which no exact half is rounded down. *)
Definition exactRows : nat := 39.

(** What [toFixed(0)] makes of the rate for the counts [n] and [t]: the
    integer it prints, when it prints one without a sign. *)
Definition ratePrinted (n t : Z) : option Z :=
  match Prim2SF (rateOf (numOfZ n) (numOfZ t)) with
  | S754_zero _ => Some 0
  | S754_finite false m e =>
      if atLeast1e21 m e then None else Some (nearestScaled 0 m e)
  | _ => None
  end.

Definition rateChecked (test : Z -> Z -> Z -> bool) (n t : Z) : bool :=
  match ratePrinted n t with
  | Some p => test n t p
  | None => false
  end.

(** The counts [n], [n + 1], ... ([fuel] of them) against [t]. *)
Fixpoint checkRow (test : Z -> Z -> Z -> bool) (fuel : nat) (n t : Z) : bool :=
  match fuel with
  | O => true
  | S fuel' => rateChecked test n t && checkRow test fuel' (n + 1) t
  end.

(** Every [n] from 0 to [t], for [t], [t + 1], ... ([fuel] of them). *)
Fixpoint checkAll (test : Z -> Z -> Z -> bool) (fuel : nat) (t : Z) : bool :=
  match fuel with
  | O => true
  | S fuel' => checkRow test (Z.to_nat (t + 1)) 0 t && checkAll test fuel' (t + 1)
  end.

(** * Properties *)

(** ** The model on concrete inputs *)

Example formatDate_epoch : formatDate 0 = "1970-01-01".
Proof. reflexivity. Qed.

Example formatDate_leap_day : formatDate 1709251199999 = "2024-02-29".
Proof. vm_compute. reflexivity. Qed.

Example formatDate_jan1 : formatDate jan1 = "2024-01-01" /\ getDay jan1 = 1.
Proof. vm_compute. split; reflexivity. Qed.

(** [toFixed] rounds the binary value, not the decimal numeral it was
    written as: 1.005 lies below 1.005, 60.05 below 60.05. *)
Example toFixed_samples :
  toFixed wholeNumberToString 0 12.5 = "13"
  /\ toFixed wholeNumberToString 2 1.005 = "1.00"
  /\ toFixed wholeNumberToString 1 60.05 = "60.0"
  /\ toFixed wholeNumberToString 1 0.04 = "0.0"
  /\ toFixed wholeNumberToString 0 (-0.4) = "-0"
  /\ toFixed wholeNumberToString 1 (0 / 0) = "NaN".
Proof. vm_compute. repeat split; reflexivity. Qed.

(** The scenario of the specification: Gym, Rest Day, Running, Running. *)
Example streak_scenario :
  let data := [record (jan 1) "Gym"; record (jan 2) "Rest Day";
               record (jan 3) "Running"; record (jan 4) "Running"] in
  exerciseStreakOf data = 2%nat
  /\ longestExerciseStreakOf data = 2%nat
  /\ noAlcoholStreakOf data = 4%nat.
Proof. vm_compute. repeat split; reflexivity. Qed.

(** ** Reading the records *)

Lemma getLastRow_le_length (sheet : Sheet) :
  (getLastRow sheet <= length sheet)%nat.
Proof.
  induction sheet as [|r rest IH]; simpl; [lia|].
  destruct (getLastRow rest); [destruct (rowBlank r)|]; simpl; lia.
Qed.

Lemma getRangeValues_inside (row numRows : nat) (sheet : Sheet) :
  (row - 1 + numRows <= length sheet)%nat ->
  getRangeValues row numRows sheet = take numRows (drop (row - 1) sheet).
Proof.
  intros Hlen. unfold getRangeValues.
  rewrite take_app_le; [reflexivity|].
  rewrite length_drop. lia.
Qed.

Lemma getTrackingData_found (w : World) (sheet : Sheet) :
  tracking w = Some sheet ->
  getTrackingData_ w = (Ok (recordsOf sheet), w).
Proof.
  intros Hsheet. unfold getTrackingData_, bind, getTrackingSheet_, recordsOf.
  rewrite Hsheet.
  pose proof (getLastRow_le_length sheet) as Hle.
  destruct (getLastRow sheet <=? 1)%nat eqn:Hlast; unfold ret.
  - apply Nat.leb_le in Hlast.
    destruct (getLastRow sheet) as [|[|n]]; [| |lia].
    + rewrite take_0. reflexivity.
    + destruct sheet as [|r rest]; reflexivity.
  - apply Nat.leb_gt in Hlast.
    rewrite getRangeValues_inside by lia.
    rewrite take_drop_commute.
    replace (2 - 1 + (getLastRow sheet - 1))%nat with (getLastRow sheet) by lia.
    reflexivity.
Qed.

Lemma getTrackingData_missing (w : World) :
  tracking w = None ->
  getTrackingData_ w = (Throw SheetNotFound, w).
Proof.
  intros Hsheet. unfold getTrackingData_, bind, getTrackingSheet_.
  rewrite Hsheet. reflexivity.
Qed.

(** ** Streaks *)

Section CountWhile.
Variable test : Row -> bool.

(** The counted rows are a prefix of rows passing the test, and the row
    after it, when there is one, fails the test. *)
Lemma countWhile_prefix (rows : list Row) :
  exists run rest,
    rows = run ++ rest
    /\ Forall (fun r => test r = true) run
    /\ (rest = [] \/ exists r rest', rest = r :: rest' /\ test r = false)
    /\ countWhile test rows = length run.
Proof.
  induction rows as [|r rows IH].
  - exists [], []. repeat split; auto.
  - simpl. destruct (test r) eqn:Hr.
    + destruct IH as (run & rest & -> & Hall & Hstop & Hcount).
      exists (r :: run), rest. repeat split; auto.
      simpl. now rewrite Hcount.
    + exists [], (r :: rows). repeat split; eauto.
Qed.

Lemma countWhile_ext (test' : Row -> bool) (f : Row -> Row) (rows : list Row) :
  (forall r, test' (f r) = test r) ->
  countWhile test' (map f rows) = countWhile test rows.
Proof.
  intros Hf. induction rows as [|r rows IH]; simpl; [reflexivity|].
  rewrite Hf, IH. reflexivity.
Qed.
End CountWhile.

Lemma streakOf_suffix (test : Row -> bool) (data : list Row) :
  exists older counted,
    data = older ++ counted
    /\ Forall (fun r => test r = true) counted
    /\ (older = [] \/ exists older' r, older = older' ++ [r] /\ test r = false)
    /\ countWhile test (rev data) = length counted.
Proof.
  destruct (countWhile_prefix test (rev data))
    as (run & rest & Hsplit & Hall & Hstop & Hcount).
  exists (rev rest), (rev run).
  assert (Hdata : data = rev rest ++ rev run).
  { rewrite <- rev_app_distr, <- Hsplit, rev_involutive. reflexivity. }
  repeat split.
  - exact Hdata.
  - apply List.Forall_rev. exact Hall.
  - destruct Hstop as [-> | (r & rest' & -> & Hr)]; [left; reflexivity|].
    right. exists (rev rest'), r. simpl. auto.
  - rewrite Hcount. symmetry. apply length_rev.
Qed.

Lemma isExerciseDay_setDate (r : Row) (v : Cell) :
  isExerciseDay (setCell r DATE v) = isExerciseDay r.
Proof. reflexivity. Qed.

Lemma fold_longestStep_snoc (data : list Row) (r : Row) (acc : nat * nat) :
  fold_left longestStep (data ++ [r]) acc
  = longestStep (fold_left longestStep data acc) r.
Proof. apply fold_left_app. Qed.

(** The forward pass keeps the length of the trailing run in [current] and
    never lets it exceed [longest]. *)
Lemma longest_invariant (data : list Row) :
  snd (fold_left longestStep data (O, O)) = exerciseStreakOf data
  /\ (snd (fold_left longestStep data (O, O))
      <= fst (fold_left longestStep data (O, O)))%nat.
Proof.
  induction data as [|r data IH] using rev_ind.
  - split; [reflexivity | simpl; lia].
  - rewrite fold_longestStep_snoc.
    unfold exerciseStreakOf in *. rewrite rev_app_distr. simpl.
    destruct (fold_left longestStep data (O, O)) as [longest current].
    simpl in IH. destruct IH as [Hcur Hle].
    unfold longestStep. destruct (isExerciseDay r); simpl.
    + split; [congruence | lia].
    + split; [reflexivity | lia].
Qed.

Lemma exerciseStreak_le_longest (data : list Row) :
  (exerciseStreakOf data <= longestExerciseStreakOf data)%nat.
Proof.
  destruct (longest_invariant data) as [Hcur Hle].
  unfold longestExerciseStreakOf. lia.
Qed.

(** C9: on every record sequence the longest exercise streak is at least the
    current exercise streak; on every world both functions either return
    values ordered that way or both throw for the missing sheet. *)
Theorem longest_streak_bounds_current :
  (forall data : list Row,
      (exerciseStreakOf data <= longestExerciseStreakOf data)%nat)
  /\ (forall w : World,
        match fst (calculateExerciseStreak w),
              fst (calculateLongestExerciseStreak w) with
        | Ok current, Ok longest => (current <= longest)%nat
        | Throw e, Throw e' => e = SheetNotFound /\ e' = SheetNotFound
        | _, _ => False
        end).
Proof.
  split; [exact exerciseStreak_le_longest|].
  intros w. unfold calculateExerciseStreak, calculateLongestExerciseStreak, bind.
  destruct (tracking w) as [sheet|] eqn:Hsheet.
  - rewrite (getTrackingData_found w sheet Hsheet). simpl.
    apply exerciseStreak_le_longest.
  - rewrite (getTrackingData_missing w Hsheet). simpl. auto.
Qed.

Lemma calculateExerciseStreak_reads (w : World) (data : list Row) :
  fst (getTrackingData_ w) = Ok data ->
  calculateExerciseStreak w = (Ok (exerciseStreakOf data), w).
Proof.
  intros Hdata. unfold calculateExerciseStreak, bind.
  destruct (tracking w) as [sheet|] eqn:Hsheet.
  - rewrite (getTrackingData_found w sheet Hsheet) in *.
    simpl in Hdata. injection Hdata as <-. reflexivity.
  - rewrite (getTrackingData_missing w Hsheet) in Hdata. discriminate.
Qed.

(** C1 (as stated) fails: two gym rows four calendar days apart still count
    as a streak of two, where the walk of the specification stops at the gap
    and counts one. *)
Lemma exercise_streak_ignores_gap :
  fst (getTrackingData_ (worldOf gapRows)) = Ok gapRows
  /\ fst (calculateExerciseStreak (worldOf gapRows)) = Ok 2%nat
  /\ currentExerciseStreak_spec gapRows = 1%nat.
Proof. vm_compute. repeat split; reflexivity. Qed.

(** C1 (amended): calculateExerciseStreak walks the stored rows from the last
    one backward, counts the rows that are exercise days and stops at the
    first row that is not; it never reads a date, so neither a calendar gap
    between adjacent rows nor a missing row for today ends the streak. *)
Theorem exercise_streak_counts_trailing_rows (data : list Row) :
  (exists older counted,
      data = older ++ counted
      /\ Forall (fun r => isExerciseDay r = true) counted
      /\ (older = [] \/ exists older' r, older = older' ++ [r] /\ isExerciseDay r = false)
      /\ exerciseStreakOf data = length counted)
  /\ (forall dates : Row -> Cell,
        exerciseStreakOf (map (fun r => setCell r DATE (dates r)) data)
        = exerciseStreakOf data)
  /\ (forall w : World,
        fst (getTrackingData_ w) = Ok data ->
        calculateExerciseStreak w = (Ok (exerciseStreakOf data), w)).
Proof.
  split; [apply streakOf_suffix|]. split.
  - intros dates. unfold exerciseStreakOf.
    rewrite <- map_rev.
    apply countWhile_ext. intros r. apply isExerciseDay_setDate.
  - intros w. apply calculateExerciseStreak_reads.
Qed.

Lemma exercise_streak_counts_trailing_rows_witness :
  calculateExerciseStreak (worldOf gapRows) = (Ok 2%nat, worldOf gapRows).
Proof.
  exact (proj2 (proj2 (exercise_streak_counts_trailing_rows gapRows))
               (worldOf gapRows) eq_refl).
Defined.

(** ** Storage order and date order *)

Lemma insertByDate_perm (r : Row) (rows : list Row) :
  Permutation (insertByDate r rows) (r :: rows).
Proof.
  induction rows as [|r' rows IH]; simpl; [reflexivity|].
  destruct (keyLe (dateKey r) (dateKey r')); [reflexivity|].
  rewrite IH. apply perm_swap.
Qed.

Lemma sortByDate_perm (rows : list Row) : Permutation (sortByDate rows) rows.
Proof.
  induction rows as [|r rows IH]; simpl; [reflexivity|].
  rewrite insertByDate_perm. now apply perm_skip.
Qed.

Lemma keyLe_total (a b : option Z) : keyLe a b = false -> keyLe b a = true.
Proof.
  destruct a as [x|], b as [y|]; simpl; try congruence.
  intros H. apply Z.leb_gt in H. apply Z.leb_le. lia.
Qed.

Lemma insertByDate_sorted (r : Row) (rows : list Row) :
  Sorted dateLe rows -> Sorted dateLe (insertByDate r rows).
Proof.
  induction rows as [|r' rows IH]; intros Hs; simpl.
  - repeat constructor.
  - destruct (keyLe (dateKey r) (dateKey r')) eqn:Hle.
    + constructor; [exact Hs | constructor; exact Hle].
    + apply Sorted_inv in Hs as [Hs Hhd].
      constructor; [auto|].
      destruct rows as [|r'' rows]; simpl.
      * constructor. apply keyLe_total, Hle.
      * destruct (keyLe (dateKey r) (dateKey r'')).
        -- constructor. apply keyLe_total, Hle.
        -- constructor. now inversion Hhd.
Qed.

Lemma sortByDate_sorted (rows : list Row) : Sorted dateLe (sortByDate rows).
Proof.
  induction rows as [|r rows IH]; simpl; [constructor|].
  now apply insertByDate_sorted.
Qed.

Lemma sortByDate_ascending (rows : list Row) :
  ascendingByDate rows -> sortByDate rows = rows.
Proof.
  unfold ascendingByDate.
  induction rows as [|r rows IH]; intros Hs; simpl; [reflexivity|].
  apply Sorted_inv in Hs as [Hs Hhd].
  rewrite IH by exact Hs.
  destruct rows as [|r' rows]; simpl; [reflexivity|].
  inversion Hhd as [|? ? Hle]; subst.
  unfold dateLe in Hle. rewrite Hle. reflexivity.
Qed.

(** ** Windowed statistics *)

Lemma fold_left_guard {A B : Type} (p : B -> bool) (f g : A -> B -> A)
      (l : list B) (a : A) :
  (forall a b, g a b = if p b then f a b else a) ->
  fold_left g l a = fold_left f (List.filter p l) a.
Proof.
  intros Hg. revert a.
  induction l as [|b l IH]; intros a; simpl; [reflexivity|].
  rewrite Hg. destruct (p b); simpl; apply IH.
Qed.

Lemma fold_left_map_same {A B : Type} (f : A -> B -> A) (h : B -> B)
      (l : list B) (a : A) :
  (forall a b, f a (h b) = f a b) ->
  fold_left f (map h l) a = fold_left f l a.
Proof.
  intros Hf. revert a.
  induction l as [|b l IH]; intros a; simpl; [reflexivity|].
  rewrite Hf. apply IH.
Qed.

Lemma weekStep_guard (monday : Z) (acc : WeekAcc) (row : Row) :
  weekStep monday acc row
  = if onOrAfter monday row then weekCount acc row else acc.
Proof.
  unfold weekStep, onOrAfter.
  destruct (cell row DATE); try reflexivity.
  destruct (normalizeDate_ t <? monday); reflexivity.
Qed.

Lemma monthStep_guard (start : Z) (acc : MonthAcc) (row : Row) :
  monthStep start acc row
  = if onOrAfter start row then monthCount acc row else acc.
Proof.
  unfold monthStep, onOrAfter.
  destruct (cell row DATE); try reflexivity.
  destruct (normalizeDate_ t <? start); reflexivity.
Qed.

Lemma weekCount_fields (acc : WeekAcc) (r : Row) :
  accExerciseDays (weekCount acc r)
  = (accExerciseDays acc + (if isExerciseDay r then 1 else 0))%nat
  /\ accTotalMinutes (weekCount acc r)
     = fold_left PrimFloat.add (minutesOf r) (accTotalMinutes acc)
  /\ accTotalBeers (weekCount acc r)
     = fold_left PrimFloat.add (beersOf r) (accTotalBeers acc)
  /\ accWeights (weekCount acc r) = accWeights acc ++ weightsOf r.
Proof.
  unfold weekCount, minutesOf, beersOf, weightsOf.
  destruct r as [d e m b wt n]. simpl.
  repeat split.
  - destruct (isExerciseDay _); lia.
  - destruct m; reflexivity.
  - destruct b; reflexivity.
  - destruct wt; try (symmetry; apply app_nil_r).
    destruct (0 <? x)%float; [reflexivity | symmetry; apply app_nil_r].
Qed.

(** The loop of [getWeekStats_] in closed form: a count, two sums taken in
    stored order, the weights in stored order. *)
Lemma fold_weekCount_fields (rows : list Row) (acc : WeekAcc) :
  accExerciseDays (fold_left weekCount rows acc)
  = (accExerciseDays acc + length (List.filter isExerciseDay rows))%nat
  /\ accTotalMinutes (fold_left weekCount rows acc)
     = fold_left PrimFloat.add (flat_map minutesOf rows) (accTotalMinutes acc)
  /\ accTotalBeers (fold_left weekCount rows acc)
     = fold_left PrimFloat.add (flat_map beersOf rows) (accTotalBeers acc)
  /\ accWeights (fold_left weekCount rows acc)
     = accWeights acc ++ flat_map weightsOf rows.
Proof.
  revert acc. induction rows as [|r rows IH]; intros acc; simpl.
  - repeat split; try lia. symmetry. apply app_nil_r.
  - destruct (IH (weekCount acc r)) as (Hd & Hm & Hb & Hw).
    destruct (weekCount_fields acc r) as (Hd' & Hm' & Hb' & Hw').
    rewrite Hd, Hm, Hb, Hw, Hd', Hm', Hb', Hw'.
    repeat split.
    + destruct (isExerciseDay r); simpl; lia.
    + rewrite fold_left_app. reflexivity.
    + rewrite fold_left_app. reflexivity.
    + rewrite <- app_assoc. reflexivity.
Qed.

Lemma weekStatsOf_window (now : Z) (data : list Row) :
  weekStatsOf now data
  = weekResult (fold_left weekCount (List.filter (onOrAfter (mondayOf now)) data) weekAcc0).
Proof.
  unfold weekStatsOf. f_equal.
  apply fold_left_guard. intros a b. apply weekStep_guard.
Qed.

Lemma weekResult_summary (rows : list Row) :
  weekResult (fold_left weekCount rows weekAcc0) = summaryOf rows.
Proof.
  destruct (fold_weekCount_fields rows weekAcc0) as (Hd & Hm & Hb & Hw).
  unfold weekResult, summaryOf, sumOf. rewrite Hd, Hm, Hb, Hw. reflexivity.
Qed.

Lemma weekStatsOf_summary (now : Z) (data : list Row) :
  weekStatsOf now data = summaryOf (List.filter (onOrAfter (mondayOf now)) data).
Proof. rewrite weekStatsOf_window. apply weekResult_summary. Qed.

Lemma fold_monthCount_fields (rows : list Row) (acc : MonthAcc) :
  fold_left monthCount rows acc
  = mkMonthAcc
      (accMExerciseDays acc + length (List.filter isExerciseDay rows))
      (accNoAlcoholDays acc + length (List.filter isNoAlcoholDay rows))
      (accTotalDays acc + length rows).
Proof.
  revert acc. induction rows as [|r rows IH]; intros [e n t]; simpl.
  - f_equal; lia.
  - rewrite IH. unfold monthCount. simpl.
    destruct (isExerciseDay r), (isNoAlcoholDay r); simpl; f_equal; lia.
Qed.

Lemma monthLoop_window (now : Z) (data : list Row) :
  let window := List.filter (onOrAfter (thirtyDaysAgoOf now)) data in
  monthLoop now data
  = mkMonthAcc (length (List.filter isExerciseDay window))
               (length (List.filter isNoAlcoholDay window))
               (length window).
Proof.
  intros window. unfold monthLoop.
  rewrite (fold_left_guard (onOrAfter (thirtyDaysAgoOf now)) monthCount)
    by (intros; apply monthStep_guard).
  rewrite fold_monthCount_fields. reflexivity.
Qed.

Lemma filter_perm {A : Type} (p : A -> bool) (l l' : list A) :
  Permutation l l' -> Permutation (List.filter p l) (List.filter p l').
Proof.
  induction 1 as [|x l l' _ IH|x y l|l l' l'' _ IH1 _ IH2]; simpl.
  - constructor.
  - destruct (p x); [now constructor | exact IH].
  - destruct (p x), (p y); try reflexivity. apply perm_swap.
  - now transitivity (List.filter p l').
Qed.

(** A backward count sees the rows only through the test. *)
Lemma countWhile_flags (test : Row -> bool) (rows rows' : list Row) :
  map test rows = map test rows' -> countWhile test rows = countWhile test rows'.
Proof.
  revert rows'. induction rows as [|r rows IH]; intros [|r' rows'] Hflags;
    try discriminate; [reflexivity|].
  cbn [map] in Hflags. injection Hflags as Hr Hrest.
  cbn [countWhile]. rewrite Hr, (IH rows' Hrest). reflexivity.
Qed.

Lemma streakOf_flags (test : Row -> bool) (data data' : list Row) :
  map test data = map test data' ->
  countWhile test (rev data) = countWhile test (rev data').
Proof.
  intros Hflags. apply countWhile_flags. rewrite !map_rev. now f_equal.
Qed.

Lemma fold_longestStep_flags (data data' : list Row) (acc : nat * nat) :
  map isExerciseDay data = map isExerciseDay data' ->
  fold_left longestStep data acc = fold_left longestStep data' acc.
Proof.
  revert data' acc. induction data as [|r data IH]; intros [|r' data'] acc Hflags;
    try discriminate; [reflexivity|].
  cbn [map] in Hflags. injection Hflags as Hr Hrest.
  cbn [fold_left]. unfold longestStep at 2 4. destruct acc as [longest current].
  rewrite Hr. apply IH, Hrest.
Qed.

Lemma weekExerciseDays_window (now : Z) (data : list Row) :
  WeekStats.exerciseDays (weekStatsOf now data)
  = length (List.filter isExerciseDay (List.filter (onOrAfter (mondayOf now)) data)).
Proof. rewrite weekStatsOf_summary. reflexivity. Qed.

(** C2 (as stated) fails: with Tuesday's gym row stored above Monday's rest
    day the current streak is 0 on the stored rows and 1 on the same rows
    sorted by date; and four weigh-ins stored out of date order average to
    73.45, where the same four added up in date order give the number next
    below it. *)
Lemma streak_and_average_depend_on_storage_order :
  (Permutation unsortedRows (sortByDate unsortedRows)
   /\ fst (calculateExerciseStreak (worldOf unsortedRows)) = Ok O
   /\ exerciseStreakOf unsortedRows = O
   /\ exerciseStreakOf (sortByDate unsortedRows) = 1%nat)
  /\ (Permutation weighInRows (sortByDate weighInRows)
      /\ fst (getWeekStats_ (jan 5) (worldOf weighInRows))
         = Ok (weekStatsOf (jan 5) weighInRows)
      /\ WeekStats.avgWeight (weekStatsOf (jan 5) weighInRows) = Some 73.45%float
      /\ WeekStats.avgWeight (weekStatsOf (jan 5) (sortByDate weighInRows))
         = Some 73.449999999999989%float
      /\ (73.449999999999989 <? 73.45)%float = true).
Proof.
  split; (split; [symmetry; apply sortByDate_perm|]);
    vm_compute; repeat split; reflexivity.
Qed.

Section StorageOrder.

Variable numberToString : float -> string.

Lemma monthStatsOf_perm (now : Z) (l l' : list Row) :
  Permutation l l' ->
  monthStatsOf numberToString now l = monthStatsOf numberToString now l'.
Proof.
  intros Hp. unfold monthStatsOf. f_equal.
  rewrite !monthLoop_window. cbv zeta.
  pose proof (filter_perm (onOrAfter (thirtyDaysAgoOf now)) l l' Hp) as Hw.
  rewrite (Permutation_length Hw).
  rewrite (Permutation_length (filter_perm isExerciseDay _ _ Hw)).
  rewrite (Permutation_length (filter_perm isNoAlcoholDay _ _ Hw)).
  reflexivity.
Qed.

(** C2 (amended): nothing sorts the rows.  What is counted does not depend
    on their order: for any permutation of the records the monthly statistics
    and the week's exercise days are those of the date-sorted records, and
    the week gathers the same minutes, beers and weights.  The week's totals
    and average are sums taken left to right in stored order, in binary64,
    where the order of the additions can change the last digit.  The three
    streak functions work on the stored order and give the result of the
    date-sorted records whenever sorting leaves the sequence of day
    classifications as it is, as for rows stored in ascending date order. *)
Theorem statistics_ignore_order_streaks_follow_storage (now : Z) (data : list Row) :
  let window := List.filter (onOrAfter (mondayOf now)) in
  (forall data' : list Row,
      Permutation data data' ->
      monthStatsOf numberToString now data'
      = monthStatsOf numberToString now (sortByDate data)
      /\ WeekStats.exerciseDays (weekStatsOf now data')
         = WeekStats.exerciseDays (weekStatsOf now (sortByDate data))
      /\ Permutation (flat_map minutesOf (window data'))
                     (flat_map minutesOf (window (sortByDate data)))
      /\ Permutation (flat_map beersOf (window data'))
                     (flat_map beersOf (window (sortByDate data)))
      /\ Permutation (flat_map weightsOf (window data'))
                     (flat_map weightsOf (window (sortByDate data))))
  /\ weekStatsOf now data
     = WeekStats.mk (length (List.filter isExerciseDay (window data)))
                    (fold_left PrimFloat.add (flat_map minutesOf (window data)) 0%float)
                    (fold_left PrimFloat.add (flat_map beersOf (window data)) 0%float)
                    (average (flat_map weightsOf (window data)))
  /\ (map isExerciseDay (sortByDate data) = map isExerciseDay data ->
      exerciseStreakOf data = exerciseStreakOf (sortByDate data)
      /\ longestExerciseStreakOf data = longestExerciseStreakOf (sortByDate data))
  /\ (map isNoAlcoholDay (sortByDate data) = map isNoAlcoholDay data ->
      noAlcoholStreakOf data = noAlcoholStreakOf (sortByDate data))
  /\ (ascendingByDate data -> sortByDate data = data).
Proof.
  intros window. split; [|split; [|split; [|split]]]; [| | | |apply sortByDate_ascending].
  - intros data' Hp.
    assert (Hs : Permutation data' (sortByDate data)).
    { transitivity data; [now symmetry | symmetry; apply sortByDate_perm]. }
    pose proof (filter_perm (onOrAfter (mondayOf now)) _ _ Hs) as Hw.
    split; [now apply monthStatsOf_perm|]. split.
    + rewrite !weekExerciseDays_window.
      apply Permutation_length, filter_perm, Hw.
    + subst window. cbv beta.
      repeat split; apply Permutation_flat_map, Hw.
  - apply weekStatsOf_summary.
  - intros Hflags. split.
    + unfold exerciseStreakOf. symmetry. now apply streakOf_flags.
    + unfold longestExerciseStreakOf. f_equal. symmetry.
      now apply fold_longestStep_flags.
  - intros Hflags. unfold noAlcoholStreakOf. symmetry. now apply streakOf_flags.
Qed.

End StorageOrder.

Lemma statistics_ignore_order_streaks_follow_storage_witness :
  exerciseStreakOf gapRows = exerciseStreakOf (sortByDate gapRows)
  /\ monthStatsOf wholeNumberToString (jan 5) (rev gapRows)
     = monthStatsOf wholeNumberToString (jan 5) (sortByDate gapRows).
Proof.
  destruct (statistics_ignore_order_streaks_follow_storage
              wholeNumberToString (jan 5) gapRows) as (Hperm & _ & Hstreak & _).
  split.
  - apply Hstreak. reflexivity.
  - apply Hperm. apply Permutation_rev.
Defined.

(** ** The week window *)

Lemma setHours0_dayNumber (t : Z) : setHours0 t = msPerDay * dayNumber t.
Proof.
  unfold setHours0, dayNumber, msPerDay.
  pose proof (Z.div_mod t 86400000). lia.
Qed.

Lemma dayNumber_setDateBack (t k : Z) :
  dayNumber (setDateBack t k) = dayNumber t - k.
Proof.
  unfold dayNumber, setDateBack, msPerDay.
  replace (t - k * 86400000) with (t + (- k) * 86400000) by lia.
  rewrite Z.div_add by lia. lia.
Qed.

Lemma dayNumber_setHours0 (t : Z) : dayNumber (setHours0 t) = dayNumber t.
Proof.
  rewrite setHours0_dayNumber. unfold dayNumber, msPerDay.
  rewrite Z.mul_comm, Z.div_mul by lia. reflexivity.
Qed.

Lemma mondayOf_dayNumber (now : Z) :
  mondayOf now
  = msPerDay * (dayNumber now - (if getDay now =? 0 then 6 else getDay now - 1)).
Proof.
  unfold mondayOf. rewrite setHours0_dayNumber, dayNumber_setDateBack.
  reflexivity.
Qed.

(** [mondayOf now] is a Monday at 00:00, not after [now] and less than a week
    before it. *)
Lemma mondayOf_most_recent (now : Z) :
  getDay (mondayOf now) = 1
  /\ mondayOf now mod msPerDay = 0
  /\ mondayOf now <= now < mondayOf now + 7 * msPerDay.
Proof.
  rewrite mondayOf_dayNumber.
  set (k := if getDay now =? 0 then 6 else getDay now - 1).
  assert (Hk : 0 <= k <= 6 /\ (dayNumber now - k + 4) mod 7 = 1).
  { subst k. unfold getDay.
    destruct ((dayNumber now + 4) mod 7 =? 0) eqn:H0.
    - apply Z.eqb_eq in H0. split; [lia|].
      pose proof (Z.div_mod (dayNumber now + 4) 7).
      pose proof (Z.div_mod (dayNumber now - 6 + 4) 7).
      pose proof (Z.mod_pos_bound (dayNumber now - 6 + 4) 7). lia.
    - apply Z.eqb_neq in H0.
      pose proof (Z.mod_pos_bound (dayNumber now + 4) 7).
      split; [lia|].
      pose proof (Z.div_mod (dayNumber now + 4) 7).
      set (g := (dayNumber now + 4) mod 7) in *.
      pose proof (Z.div_mod (dayNumber now - (g - 1) + 4) 7).
      pose proof (Z.mod_pos_bound (dayNumber now - (g - 1) + 4) 7). lia. }
  destruct Hk as [Hk Hmon].
  repeat split.
  - unfold getDay, dayNumber at 1.
    rewrite Z.mul_comm, Z.div_mul by (unfold msPerDay; lia). exact Hmon.
  - rewrite Z.mul_comm. apply Z.mod_mul. unfold msPerDay; lia.
  - unfold dayNumber, msPerDay.
    pose proof (Z.div_mod now 86400000).
    pose proof (Z.mod_pos_bound now 86400000). lia.
  - unfold dayNumber, msPerDay.
    pose proof (Z.div_mod now 86400000).
    pose proof (Z.mod_pos_bound now 86400000). lia.
Qed.

(** Against a boundary at 00:00, comparing the normalized date is comparing
    the date. *)
Lemma normalizeDate_lt_midnight (d start : Z) :
  start mod msPerDay = 0 ->
  (normalizeDate_ d <? start) = (d <? start).
Proof.
  intros Hstart. unfold normalizeDate_, setHours0, msPerDay in *.
  pose proof (Z.div_mod d 86400000).
  pose proof (Z.mod_pos_bound d 86400000).
  pose proof (Z.div_mod start 86400000).
  destruct (Z.ltb_spec (d - d mod 86400000) start);
    destruct (Z.ltb_spec d start); try reflexivity; lia.
Qed.

Lemma onOrAfter_monday_iff (now : Z) (r : Row) :
  onOrAfter (mondayOf now) r = true
  <-> exists d, cell r DATE = CDate d /\ mondayOf now <= d.
Proof.
  destruct (mondayOf_most_recent now) as (_ & Hmid & _).
  unfold onOrAfter. destruct (cell r DATE) as [d| | | |].
  - rewrite normalizeDate_lt_midnight by exact Hmid.
    rewrite negb_true_iff, Z.ltb_ge. split.
    + intros Hle. eauto.
    + intros (d' & [= <-] & Hle). exact Hle.
  - split; [discriminate | intros (d' & Hd & _); discriminate].
  - split; [discriminate | intros (d' & Hd & _); discriminate].
  - split; [discriminate | intros (d' & Hd & _); discriminate].
  - split; [discriminate | intros (d' & Hd & _); discriminate].
Qed.

Lemma filter_same_on {A : Type} (p q : A -> bool) (l : list A) :
  Forall (fun x => p x = q x) l -> List.filter p l = List.filter q l.
Proof.
  induction 1 as [|x l Hx _ IH]; simpl; [reflexivity|].
  rewrite Hx, IH. reflexivity.
Qed.

Lemma weekStatsOf_spec_window (now : Z) (data : list Row) :
  noneAfter now data -> weekStatsOf now data = weekSummary_spec now data.
Proof.
  intros Hnone. rewrite weekStatsOf_window. unfold weekSummary_spec.
  do 2 f_equal. apply filter_same_on.
  unfold noneAfter in Hnone.
  induction Hnone as [|r rows Hr _ IH]; constructor; [|exact IH].
  unfold onOrAfter, inWeekWindow_spec.
  destruct (cell r DATE) as [d| | | |]; try reflexivity.
  specialize (Hr d eq_refl).
  destruct (Z.ltb_spec (normalizeDate_ d) (mondayOf now));
    destruct (Z.leb_spec (mondayOf now) (normalizeDate_ d));
    destruct (Z.leb_spec (normalizeDate_ d) now); simpl; try reflexivity; lia.
Qed.

(** C6 (as stated) fails: on Wednesday 2024-01-10 at noon a row dated Monday
    of the following week lies after [now], outside the window Monday through
    [now], and is still counted. *)
Lemma week_counts_row_after_now :
  let now := jan 10 + hours 12 in
  fst (getTrackingData_ (worldOf nextWeekRows)) = Ok nextWeekRows
  /\ Forall (fun r => inWeekWindow_spec now r = false) nextWeekRows
  /\ WeekStats.exerciseDays (weekStatsOf now nextWeekRows) = 1%nat
  /\ WeekStats.exerciseDays (weekSummary_spec now nextWeekRows) = O.
Proof.
  intros now. split; [reflexivity|]. split.
  - repeat constructor.
  - split; vm_compute; reflexivity.
Qed.

(** C6 (amended): getWeekStats_ aggregates exactly the rows whose date cell
    holds a date on or after the most recent Monday at 00:00; it has no upper
    bound at [now], and gives the summary of the window Monday through [now]
    when no row is dated later than [now].  A row dated exactly Monday 00:00
    is in, a row dated the Sunday before at 23:59 is out. *)
Theorem week_window_starts_monday (now : Z) (data : list Row) :
  (getDay (mondayOf now) = 1
   /\ mondayOf now mod msPerDay = 0
   /\ mondayOf now <= now < mondayOf now + 7 * msPerDay)
  /\ weekStatsOf now data
     = weekResult (fold_left weekCount
                     (List.filter (onOrAfter (mondayOf now)) data) weekAcc0)
  /\ (forall r : Row,
        onOrAfter (mondayOf now) r = true
        <-> exists d, cell r DATE = CDate d /\ mondayOf now <= d)
  /\ (forall r : Row,
        cell r DATE = CDate (mondayOf now) -> onOrAfter (mondayOf now) r = true)
  /\ (forall r : Row,
        cell r DATE = CDate (mondayOf now - 60000) ->
        onOrAfter (mondayOf now) r = false)
  /\ (noneAfter now data -> weekStatsOf now data = weekSummary_spec now data)
  /\ (forall w : World,
        fst (getTrackingData_ w) = Ok data ->
        getWeekStats_ now w = (Ok (weekStatsOf now data), w)).
Proof.
  split; [apply mondayOf_most_recent|].
  split; [apply weekStatsOf_window|].
  split; [apply onOrAfter_monday_iff|].
  split; [|split; [|split]].
  - intros r Hr. apply onOrAfter_monday_iff. exists (mondayOf now). split; [exact Hr | lia].
  - intros r Hr.
    destruct (onOrAfter (mondayOf now) r) eqn:Hin; [|reflexivity].
    apply onOrAfter_monday_iff in Hin as (d & Hd & Hle).
    rewrite Hr in Hd. injection Hd as <-. lia.
  - apply weekStatsOf_spec_window.
  - intros w Hdata. unfold getWeekStats_, bind.
    destruct (getTrackingData_ w) as [[data'|e] w'] eqn:Hget; simpl in Hdata.
    + injection Hdata as ->.
      destruct (tracking w) as [sheet|] eqn:Hsheet.
      * rewrite (getTrackingData_found w sheet Hsheet) in Hget.
        injection Hget as _ <-. reflexivity.
      * rewrite (getTrackingData_missing w Hsheet) in Hget. discriminate.
    + discriminate.
Qed.

Lemma week_window_starts_monday_witness :
  let now := jan 5 + hours 12 in
  weekStatsOf now gapRows = weekSummary_spec now gapRows
  /\ getWeekStats_ now (worldOf gapRows) = (Ok (weekStatsOf now gapRows), worldOf gapRows).
Proof.
  intros now.
  destruct (week_window_starts_monday now gapRows)
    as (_ & _ & _ & _ & _ & Hspec & Hreads).
  split.
  - apply Hspec. unfold noneAfter, gapRows.
    repeat constructor; intros d [= <-]; vm_compute; discriminate.
  - apply Hreads. reflexivity.
Defined.

(** ** Facts of binary64 arithmetic *)

Lemma digits2_pos_iter_xO (k p : positive) :
  digits2_pos (Pos.iter xO p k) = (digits2_pos p + k)%positive.
Proof.
  revert p. induction k as [|k IH] using Pos.peano_ind; intros p.
  - simpl. lia.
  - rewrite Pos.iter_succ. simpl. rewrite IH. lia.
Qed.

Lemma digits2_pos_bounds (p : positive) :
  2 ^ (Z.pos (digits2_pos p) - 1) <= Z.pos p < 2 ^ Z.pos (digits2_pos p).
Proof.
  induction p as [p IH|p IH|]; cbn [digits2_pos].
  - rewrite Pos2Z.inj_succ.
    replace (Z.succ (Z.pos (digits2_pos p)) - 1)
      with (Z.succ (Z.pos (digits2_pos p) - 1)) by lia.
    rewrite !Z.pow_succ_r by lia. lia.
  - rewrite Pos2Z.inj_succ.
    replace (Z.succ (Z.pos (digits2_pos p)) - 1)
      with (Z.succ (Z.pos (digits2_pos p) - 1)) by lia.
    rewrite !Z.pow_succ_r by lia. lia.
  - simpl. lia.
Qed.

(** A mantissa of 53 digits with an exponent in range is left as it is by
    rounding. *)
Lemma binary_round_aux_canonical (s : bool) (m : positive) (e : Z) :
  Z.pos (digits2_pos m) = 53 ->
  -1074 <= e <= 971 ->
  binary_round_aux prec emax s (Z.pos m) e loc_Exact = S754_finite s m e.
Proof.
  intros Hd He.
  unfold binary_round_aux, shr_fexp, fexp, Zdigits2, shr_record_of_loc.
  rewrite Hd.
  replace (Z.max (53 + e - prec) (SpecFloat.emin prec emax) - e) with 0
    by (unfold prec, SpecFloat.emin, emax; lia).
  cbn [shr shr_m loc_of_shr_record round_nearest_even].
  rewrite Hd.
  replace (Z.max (53 + e - prec) (SpecFloat.emin prec emax) - e) with 0
    by (unfold prec, SpecFloat.emin, emax; lia).
  cbn [shr shr_m].
  replace (e <=? emax - prec) with true
    by (symmetry; apply Z.leb_le; unfold prec, emax; lia).
  reflexivity.
Qed.

(** An integer from 1 to 2^53 converts to a finite number above 0. *)
Lemma binary_normalize_integer (p : positive) :
  Z.pos p <= 9007199254740992 ->
  exists m e, binary_normalize prec emax (Z.pos p) 0 false = S754_finite false m e.
Proof.
  intros Hp. cbn [binary_normalize]. unfold binary_round.
  pose proof (digits2_pos_bounds p) as Hd.
  set (d := Z.pos (digits2_pos p)) in *.
  assert (Hd54 : 1 <= d <= 54).
  { split; [subst d; lia|].
    destruct (Z.le_gt_cases d 54) as [H|H]; [exact H|exfalso].
    assert (2 ^ 54 <= 2 ^ (d - 1)) by (apply Z.pow_le_mono_r; lia).
    change (2 ^ 54) with 18014398509481984 in *. lia. }
  destruct (Z.eq_dec d 54) as [H54|Hne].
  - assert (Hp53 : p = 9007199254740992%positive).
    { rewrite H54 in Hd. change (2 ^ (54 - 1)) with 9007199254740992 in Hd. lia. }
    subst p. vm_compute. eauto.
  - unfold fexp, shl_align.
    replace (Z.max (d + 0 - prec) (SpecFloat.emin prec emax) - 0) with (d - 53)
      by (unfold prec, SpecFloat.emin, emax; lia).
    replace (Z.max (d + 0 - prec) (SpecFloat.emin prec emax)) with (d - 53)
      by (unfold prec, SpecFloat.emin, emax; lia).
    destruct (d - 53) as [|k|k] eqn:Hk; [| lia |].
    + eexists _, _. apply binary_round_aux_canonical; [fold d; lia | lia].
    + eexists _, _. apply binary_round_aux_canonical.
      * rewrite digits2_pos_iter_xO, Pos2Z.inj_add. fold d. lia.
      * lia.
Qed.

(** A count above 0 is a finite number above 0. *)
Lemma numOfNat_finite (n : nat) :
  (0 < n)%nat ->
  exists m e, Prim2SF (numOfNat n) = S754_finite false m e.
Proof.
  intros Hn. unfold numOfNat, numOfZ.
  rewrite of_uint63_spec, Uint63.of_Z_spec.
  set (z := Z.min (Z.of_nat n) 9007199254740992).
  assert (Hz : 1 <= z <= 9007199254740992) by (subst z; lia).
  rewrite Z.mod_small by (change Uint63.wB with 9223372036854775808; lia).
  destruct z as [|p|p]; [lia | | lia].
  apply binary_normalize_integer. lia.
Qed.

Lemma Z_div_eucl_mul (a b : Z) : 0 < b -> Z.div_eucl (b * a) b = (a, 0).
Proof.
  intros Hb.
  pose proof (Z.div_eucl_eq (b * a) b ltac:(lia)) as Heq.
  pose proof (Z.mod_pos_bound (b * a) b Hb) as Hmod.
  unfold Z.modulo in Hmod.
  destruct (Z.div_eucl (b * a) b) as [q r]. simpl in Hmod.
  assert (r = 0).
  { assert (b * (a - q) = r) by lia.
    destruct (Z.eq_dec a q) as [->|Hne]; [lia|].
    assert (a - q <= -1 \/ 1 <= a - q) as [H1|H1] by lia; nia. }
  subst r. f_equal. nia.
Qed.

(** A finite number other than 0 divided by itself is exactly 1. *)
Lemma div_self_finite (x : float) (s : bool) (m : positive) (e : Z) :
  Prim2SF x = S754_finite s m e -> (x / x)%float = 1%float.
Proof.
  intros Hx. apply Prim2SF_inj. rewrite FloatAxioms.div_spec, Hx.
  unfold SF64div, SFdiv, SFdiv_core_binary.
  rewrite !Z.sub_diag.
  change (fexp prec emax 0) with (-53).
  change (Z.min (-53) 0) with (-53).
  change (0 - -53) with 53.
  cbv iota beta.
  rewrite Z.shiftl_mul_pow2 by lia.
  rewrite Z_div_eucl_mul by lia.
  assert (Hloc : new_location (Z.pos m) 0 = loc_Exact).
  { unfold new_location. destruct (Z.even (Z.pos m)); reflexivity. }
  rewrite Hloc. destruct s; vm_compute; reflexivity.
Qed.

(** Zero divided by a finite number above 0 is zero. *)
Lemma zero_div_finite (x : float) (m : positive) (e : Z) :
  Prim2SF x = S754_finite false m e -> (0 / x)%float = 0%float.
Proof.
  intros Hx. apply Prim2SF_inj. rewrite FloatAxioms.div_spec, Hx. reflexivity.
Qed.

(** The numbers equal to 0 are 0 and -0. *)
Lemma eqb_zero (x : float) :
  (x =? 0)%float = true <-> x = 0%float \/ x = (-0)%float.
Proof.
  split.
  - rewrite FloatAxioms.eqb_spec. intros H.
    assert (Hx : exists s, Prim2SF x = S754_zero s).
    { destruct (Prim2SF x) as [s|s| |s m e]; try (eexists; reflexivity);
        try discriminate H.
      - destruct s; discriminate H.
      - destruct s; discriminate H. }
    destruct Hx as [[|] Hx].
    + right. apply Prim2SF_inj. rewrite Hx. reflexivity.
    + left. apply Prim2SF_inj. rewrite Hx. reflexivity.
  - intros [->| ->]; reflexivity.
Qed.

(** ** The beer-free rate *)

Lemma reads_tracking_data {A : Type} (f : list Row -> A) (w : World) :
  (data <- getTrackingData_ ;; ret (f data)) w
  = match tracking w with
    | Some sheet => (Ok (f (recordsOf sheet)), w)
    | None => (Throw SheetNotFound, w)
    end.
Proof.
  unfold bind. destruct (tracking w) as [sheet|] eqn:Hsheet.
  - rewrite (getTrackingData_found w sheet Hsheet). reflexivity.
  - rewrite (getTrackingData_missing w Hsheet). reflexivity.
Qed.

Lemma filter_length_le {A : Type} (p : A -> bool) (l : list A) :
  (length (List.filter p l) <= length l)%nat.
Proof.
  induction l as [|x l IH]; simpl; [lia|].
  destruct (p x); simpl; lia.
Qed.

(** The checks: every pair of counts of the range passes. *)
Lemma checkRow_sound (test : Z -> Z -> Z -> bool) (fuel : nat) (n t : Z) :
  checkRow test fuel n t = true ->
  forall k : nat, (k < fuel)%nat -> rateChecked test (n + Z.of_nat k) t = true.
Proof.
  revert n. induction fuel as [|fuel IH]; intros n Hcheck k Hk; [lia|].
  cbn [checkRow] in Hcheck. apply andb_true_iff in Hcheck as [Hn Hrest].
  destruct k as [|k].
  - rewrite Z.add_0_r. exact Hn.
  - replace (n + Z.of_nat (S k)) with (n + 1 + Z.of_nat k) by lia.
    apply IH; [exact Hrest | lia].
Qed.

Lemma checkAll_sound (test : Z -> Z -> Z -> bool) (fuel : nat) (t0 : Z) :
  checkAll test fuel t0 = true ->
  0 <= t0 ->
  forall n t : Z,
    t0 <= t < t0 + Z.of_nat fuel -> 0 <= n <= t ->
    rateChecked test n t = true.
Proof.
  revert t0. induction fuel as [|fuel IH]; intros t0 Hcheck Ht0 n t Ht Hn; [lia|].
  cbn [checkAll] in Hcheck. apply andb_true_iff in Hcheck as [Hrow Hrest].
  destruct (Z.eq_dec t t0) as [->|Hne].
  - replace n with (0 + Z.of_nat (Z.to_nat n)) by lia.
    apply (checkRow_sound test _ 0 t0 Hrow). lia.
  - apply (IH (t0 + 1) Hrest); lia.
Qed.

Lemma rates_rounded : checkAll roundedPercentage exactRows 1 = true.
Proof. vm_compute. reflexivity. Qed.

Lemma rates_nearest : checkAll nearestPercentage preparedRows 1 = true.
Proof. vm_compute. reflexivity. Qed.

(** The specification's rounded percentage as a quotient of integers. *)
Lemma roundedPercentage_spec_quotient (n : nat) (t : positive) :
  roundedPercentage_spec n (Pos.to_nat t)
  = (200 * Z.of_nat n + Z.pos t) / (2 * Z.pos t).
Proof.
  unfold roundedPercentage_spec.
  destruct (Nat.ltb_spec 0 (Pos.to_nat t)) as [_|]; [|lia].
  rewrite positive_nat_Z.
  assert (Hfrac : (inject_Z (Z.of_nat n) / inject_Z (Z.pos t) * inject_Z 100 + (1 # 2)
                   == (200 * Z.of_nat n + Z.pos t) # (2 * t))%Q).
  { unfold Qeq, Qplus, Qmult, Qdiv, Qinv, inject_Z. simpl.
    rewrite !Pos.mul_1_r. rewrite !Pos2Z.inj_mul. ring. }
  rewrite Hfrac. reflexivity.
Qed.

Lemma roundedPercentage_unique (n t : nat) (p : Z) :
  (0 < t)%nat ->
  roundedPercentage (Z.of_nat n) (Z.of_nat t) p = true ->
  p = roundedPercentage_spec n t.
Proof.
  intros Ht Hp.
  replace t with (Pos.to_nat (Pos.of_nat t)) in * by (apply Nat2Pos.id; lia).
  rewrite roundedPercentage_spec_quotient.
  revert Hp. rewrite positive_nat_Z. generalize (Pos.of_nat t) as tp. intros tp Hp.
  unfold roundedPercentage in Hp.
  rewrite !andb_true_iff, !Z.leb_le, Z.ltb_lt in Hp.
  destruct Hp as [[[Hp0 Hp100] Hlo] Hhi].
  apply Z.div_unique with (r := 200 * Z.of_nat n + Z.pos tp - 2 * Z.pos tp * p); lia.
Qed.

Section BeerFreeRate.

Variable numberToString : float -> string.

(** What [getMonthStats_] returns for two counts that pass a check. *)
Lemma beerFreeRateOf_checked (test : Z -> Z -> Z -> bool) (n t : nat) :
  (0 < t)%nat ->
  rateChecked test (Z.of_nat n) (Z.of_nat t) = true ->
  exists p : Z,
    beerFreeRateOf numberToString n t = decimal p
    /\ test (Z.of_nat n) (Z.of_nat t) p = true.
Proof.
  intros Ht. unfold rateChecked, ratePrinted, beerFreeRateOf, toFixed, numOfNat.
  destruct (Nat.ltb_spec 0 t) as [_|]; [|lia].
  destruct (Prim2SF (rateOf (numOfZ (Z.of_nat n)) (numOfZ (Z.of_nat t))))
    as [s|s| |s m e]; try discriminate.
  - intros Htest. exists 0. split; [reflexivity | exact Htest].
  - destruct s; [discriminate|].
    destruct (atLeast1e21 m e); [discriminate|].
    intros Htest. exists (nearestScaled 0 m e). split; [reflexivity | exact Htest].
Qed.

Lemma beerFreeRateOf_rounded (n t : nat) :
  (n <= t)%nat -> (0 < t <= exactRows)%nat ->
  beerFreeRateOf numberToString n t = decimal (roundedPercentage_spec n t).
Proof.
  intros Hn Ht.
  destruct (beerFreeRateOf_checked roundedPercentage n t) as (p & -> & Hp); [lia| |].
  - apply (checkAll_sound _ _ 1 rates_rounded); unfold exactRows in *; lia.
  - f_equal. apply roundedPercentage_unique; [lia | exact Hp].
Qed.

Lemma beerFreeRateOf_nearest (n t : nat) :
  (n <= t)%nat -> (0 < t <= preparedRows)%nat ->
  exists p : Z,
    beerFreeRateOf numberToString n t = decimal p
    /\ 0 <= p <= 100
    /\ (2 * p - 1) * Z.of_nat t <= 200 * Z.of_nat n <= (2 * p + 1) * Z.of_nat t.
Proof.
  intros Hn Ht.
  destruct (beerFreeRateOf_checked nearestPercentage n t) as (p & Hrate & Hp); [lia| |].
  - apply (checkAll_sound _ _ 1 rates_nearest); unfold preparedRows in *; lia.
  - exists p. split; [exact Hrate|].
    unfold nearestPercentage in Hp.
    rewrite !andb_true_iff, !Z.leb_le in Hp. lia.
Qed.

(** C7 (amended): getMonthStats_ returns as beerFreeRate the decimal numeral
    of noAlcoholDays / totalDays * 100 rounded to the nearest integer, a
    half upward, for every window of up to 39 rows, and "0" when totalDays
    = 0.  The quotient and the product are rounded to binary64 before
    toFixed(0) rounds the result, so from 40 rows on an exact half can come
    out rounded down; up to 500 rows the numeral still is an integer nearest
    to the exact percentage.  The function returns for every sheet and
    throws only when the Tracking sheet is missing. *)
Theorem beer_free_rate_is_rounded_percentage (now : Z) (data : list Row) :
  let window := List.filter (onOrAfter (thirtyDaysAgoOf now)) data in
  let totalDays := length window in
  let stats := monthStatsOf numberToString now data in
  accTotalDays (monthLoop now data) = totalDays
  /\ MonthStats.noAlcoholDays stats = length (List.filter isNoAlcoholDay window)
  /\ (totalDays = O -> MonthStats.beerFreeRate stats = "0")
  /\ ((0 < totalDays <= 39)%nat ->
      MonthStats.beerFreeRate stats
      = decimal (roundedPercentage_spec (MonthStats.noAlcoholDays stats) totalDays))
  /\ ((0 < totalDays <= 500)%nat ->
      exists p : Z,
        MonthStats.beerFreeRate stats = decimal p
        /\ 0 <= p <= 100
        /\ (2 * p - 1) * Z.of_nat totalDays
           <= 200 * Z.of_nat (MonthStats.noAlcoholDays stats)
           <= (2 * p + 1) * Z.of_nat totalDays)
  /\ (forall w : World,
        getMonthStats_ numberToString now w
        = match tracking w with
          | Some sheet => (Ok (monthStatsOf numberToString now (recordsOf sheet)), w)
          | None => (Throw SheetNotFound, w)
          end).
Proof.
  intros window totalDays stats.
  subst stats. unfold monthStatsOf.
  pose proof (monthLoop_window now data) as Hloop. cbv zeta in Hloop.
  fold window in Hloop. rewrite Hloop. simpl.
  split; [reflexivity|]. split; [reflexivity|]. split; [|split; [|split]].
  - intros Hzero. fold totalDays. rewrite Hzero. reflexivity.
  - intros Hpos. apply beerFreeRateOf_rounded; [apply filter_length_le | exact Hpos].
  - intros Hpos. apply beerFreeRateOf_nearest; [apply filter_length_le | exact Hpos].
  - intros w. apply (reads_tracking_data (monthStatsOf numberToString now)).
Qed.

End BeerFreeRate.

Lemma beer_free_rate_is_rounded_percentage_witness :
  MonthStats.beerFreeRate (monthStatsOf wholeNumberToString (jan 31) []) = "0"
  /\ MonthStats.beerFreeRate (monthStatsOf wholeNumberToString (jan 31) monthRows)
     = decimal (roundedPercentage_spec 2 3).
Proof.
  split.
  - destruct (beer_free_rate_is_rounded_percentage wholeNumberToString (jan 31) [])
      as (_ & _ & Hzero & _).
    apply Hzero. reflexivity.
  - destruct (beer_free_rate_is_rounded_percentage wholeNumberToString (jan 31) monthRows)
      as (_ & _ & _ & Hexact & _).
    apply Hexact. vm_compute. lia.
Defined.

(** C7 (as stated) fails: of forty days in the window 23 are without beer,
    which is 57.5 percent and rounds to 58; the script computes 23 / 40 * 100
    as the number just below 57.5 and reports "57". *)
Lemma beer_free_rate_rounds_half_down :
  fst (getTrackingData_ (worldOf fortyRows)) = Ok fortyRows
  /\ length (List.filter (onOrAfter (thirtyDaysAgoOf (jan 31))) fortyRows) = 40%nat
  /\ fst (getMonthStats_ wholeNumberToString (jan 31) (worldOf fortyRows))
     = Ok (MonthStats.mk 0 23 "57")
  /\ roundedPercentage_spec 23 40 = 58
  /\ rateOf 23 40 = 57.499999999999993%float.
Proof. vm_compute. repeat split; reflexivity. Qed.

Example beer_free_rate_two_of_three :
  MonthStats.beerFreeRate
    (monthStatsOf wholeNumberToString (jan 31) monthRows)
  = "67".
Proof. vm_compute. reflexivity. Qed.

(** ** Fields that are not numbers, and numbers out of range *)

Lemma weekStep_dropNonNumeric (monday : Z) (acc : WeekAcc) (r : Row) :
  weekStep monday acc (dropNonNumeric r) = weekStep monday acc r.
Proof.
  destruct r as [d e m b wt n].
  destruct m, b, wt; reflexivity.
Qed.

Lemma weekStep_dropUnusedWeight (monday : Z) (acc : WeekAcc) (r : Row) :
  weekStep monday acc (dropUnusedWeight r) = weekStep monday acc r.
Proof.
  destruct r as [d e m b wt n]. unfold dropUnusedWeight.
  cbn [cell colWeight]. destruct wt as [t|x|s|c|]; try reflexivity.
  destruct (0 <? x)%float eqn:Hx; [reflexivity|].
  unfold weekStep, weekCount. cbn [cell setCell colDate colExerciseType colExerciseMin
                                    colBeerCount colWeight colNotes].
  rewrite Hx. reflexivity.
Qed.

Lemma monthStep_same_cells (start : Z) (acc : MonthAcc) (r r' : Row) :
  cell r' DATE = cell r DATE ->
  cell r' EXERCISE_TYPE = cell r EXERCISE_TYPE ->
  cell r' BEER_COUNT = cell r BEER_COUNT ->
  monthStep start acc r' = monthStep start acc r.
Proof.
  intros Hd He Hb. unfold monthStep, monthCount, isExerciseDay, isNoAlcoholDay.
  rewrite Hd, He, Hb. reflexivity.
Qed.

(** A day is a no-alcohol day exactly when the beer cell is the number 0
    (of either sign), empty, or null. *)
Lemma isNoAlcoholDay_iff (r : Row) :
  isNoAlcoholDay r = true
  <-> cell r BEER_COUNT = CNum 0
      \/ cell r BEER_COUNT = CNum (-0)
      \/ cell r BEER_COUNT = CStr ""
      \/ cell r BEER_COUNT = CNull.
Proof.
  unfold isNoAlcoholDay.
  destruct (cell r BEER_COUNT) as [d|x|s|b|];
    unfold strictEqNum, strictEqStr, strictEqNull;
    rewrite ?orb_false_r, ?orb_false_l, ?orb_true_r.
  - split; [discriminate | intros [H|[H|[H|H]]]; discriminate].
  - rewrite eqb_zero. split.
    + intros [->| ->]; auto.
    + intros [H|[H|[H|H]]]; try discriminate; injection H as ->; auto.
  - rewrite String.eqb_eq. split.
    + intros ->. auto.
    + intros [H|[H|[H|H]]]; try discriminate. now injection H.
  - split; [discriminate | intros [H|[H|[H|H]]]; discriminate].
  - split; auto.
Qed.

(** C8 (as stated) fails, twice.  A beer count typed as text is not read as
    absent: the day stops being a no-alcohol day, which the same row with
    the cell empty is.  And numbers are taken as they are: minus 30 minutes
    and 25 beers go into the week's totals, where the same row with the two
    cells empty adds nothing. *)
Lemma text_and_out_of_range_values_are_not_absent :
  (typeofNumber (cell textBeerRow BEER_COUNT) = false
   /\ fst (calculateNoAlcoholStreak (worldOf [textBeerRow])) = Ok O
   /\ fst (calculateNoAlcoholStreak (worldOf [dropNonNumeric textBeerRow])) = Ok 1%nat
   /\ MonthStats.noAlcoholDays
        (monthStatsOf wholeNumberToString (jan 31) [textBeerRow]) = O
   /\ MonthStats.noAlcoholDays
        (monthStatsOf wholeNumberToString (jan 31) [dropNonNumeric textBeerRow]) = 1%nat)
  /\ (fst (getWeekStats_ (jan 5) (worldOf [outOfRangeRow]))
      = Ok (WeekStats.mk 1 (-30) 25 None)
      /\ fst (getWeekStats_ (jan 5)
                (worldOf [setCell (setCell outOfRangeRow EXERCISE_MIN emptyCell)
                                  BEER_COUNT emptyCell]))
         = Ok (WeekStats.mk 1 0 0 None)).
Proof. repeat split; vm_compute; reflexivity. Qed.

Section FieldsRead.

Variable numberToString : float -> string.

(** C8 (amended): minutes, beers and weight that are not numbers are left out
    of the sums and the average of getWeekStats_ like empty cells, and so is
    a weight that is not above 0; a number in the minutes or the beers cell
    is added to its total whatever its value, there being no range test.
    The day classifications read the exercise type and the beer cell only,
    so minutes and weight play no part in them, and no aggregation throws on
    any sheet.  The beer count decides the no-alcohol day by what it is: the
    number 0, an empty cell or null make one, every other value, text
    included, does not. *)
Theorem non_numeric_fields_are_skipped (now : Z) (data : list Row) :
  weekStatsOf now (map dropNonNumeric data) = weekStatsOf now data
  /\ weekStatsOf now (map dropUnusedWeight data) = weekStatsOf now data
  /\ (forall (acc : WeekAcc) (r : Row) (x : float),
        (cell r EXERCISE_MIN = CNum x ->
         accTotalMinutes (weekCount acc r) = (accTotalMinutes acc + x)%float)
        /\ (cell r BEER_COUNT = CNum x ->
            accTotalBeers (weekCount acc r) = (accTotalBeers acc + x)%float)
        /\ (cell r WEIGHT = CNum x -> (0 <? x)%float = true ->
            accWeights (weekCount acc r) = accWeights acc ++ [x]))
  /\ (forall f : Row -> Row,
        (forall r, cell (f r) EXERCISE_TYPE = cell r EXERCISE_TYPE) ->
        exerciseStreakOf (map f data) = exerciseStreakOf data
        /\ longestExerciseStreakOf (map f data) = longestExerciseStreakOf data)
  /\ (forall f : Row -> Row,
        (forall r, cell (f r) BEER_COUNT = cell r BEER_COUNT) ->
        noAlcoholStreakOf (map f data) = noAlcoholStreakOf data)
  /\ (forall f : Row -> Row,
        (forall r, cell (f r) DATE = cell r DATE
                   /\ cell (f r) EXERCISE_TYPE = cell r EXERCISE_TYPE
                   /\ cell (f r) BEER_COUNT = cell r BEER_COUNT) ->
        monthStatsOf numberToString now (map f data)
        = monthStatsOf numberToString now data)
  /\ (forall r : Row,
        isNoAlcoholDay r = true
        <-> cell r BEER_COUNT = CNum 0
            \/ cell r BEER_COUNT = CNum (-0)
            \/ cell r BEER_COUNT = CStr ""
            \/ cell r BEER_COUNT = CNull)
  /\ (forall (w : World) (sheet : Sheet),
        tracking w = Some sheet ->
        let records := recordsOf sheet in
        calculateExerciseStreak w = (Ok (exerciseStreakOf records), w)
        /\ calculateNoAlcoholStreak w = (Ok (noAlcoholStreakOf records), w)
        /\ calculateLongestExerciseStreak w = (Ok (longestExerciseStreakOf records), w)
        /\ getWeekStats_ now w = (Ok (weekStatsOf now records), w)
        /\ getMonthStats_ numberToString now w
           = (Ok (monthStatsOf numberToString now records), w)).
Proof.
  split; [|split; [|split; [|split; [|split; [|split; [|split]]]]]].
  - unfold weekStatsOf. f_equal.
    apply fold_left_map_same. intros. apply weekStep_dropNonNumeric.
  - unfold weekStatsOf. f_equal.
    apply fold_left_map_same. intros. apply weekStep_dropUnusedWeight.
  - intros acc r x. unfold weekCount.
    cbn [accTotalMinutes accTotalBeers accWeights].
    split; [|split].
    + intros Hx. rewrite Hx. reflexivity.
    + intros Hx. rewrite Hx. reflexivity.
    + intros Hx Hpos. rewrite Hx, Hpos. reflexivity.
  - intros f Hf. split.
    + unfold exerciseStreakOf. rewrite <- map_rev.
      apply countWhile_ext. intros r. unfold isExerciseDay. now rewrite Hf.
    + unfold longestExerciseStreakOf. f_equal.
      apply fold_longestStep_flags. rewrite map_map. apply map_ext.
      intros r. unfold isExerciseDay. now rewrite Hf.
  - intros f Hf. unfold noAlcoholStreakOf. rewrite <- map_rev.
    apply countWhile_ext. intros r. unfold isNoAlcoholDay. now rewrite Hf.
  - intros f Hf. unfold monthStatsOf, monthLoop. f_equal.
    generalize monthAcc0. induction data as [|r rows IH]; intros acc; [reflexivity|].
    cbn [map fold_left]. destruct (Hf r) as (Hd & He & Hb).
    rewrite (monthStep_same_cells _ acc r (f r) Hd He Hb). apply IH.
  - apply isNoAlcoholDay_iff.
  - intros w sheet Hsheet records.
    unfold calculateExerciseStreak, calculateNoAlcoholStreak,
      calculateLongestExerciseStreak, getWeekStats_, getMonthStats_.
    rewrite !reads_tracking_data, Hsheet. auto.
Qed.

End FieldsRead.

Lemma non_numeric_fields_are_skipped_witness :
  let w := worldOf [textBeerRow] in
  calculateNoAlcoholStreak w = (Ok (noAlcoholStreakOf [textBeerRow]), w)
  /\ exerciseStreakOf (map (fun r => setCell r WEIGHT (CStr "heavy")) [textBeerRow])
     = exerciseStreakOf [textBeerRow].
Proof.
  intros w.
  destruct (non_numeric_fields_are_skipped wholeNumberToString (jan 5) [textBeerRow])
    as (_ & _ & _ & Hexercise & _ & _ & _ & Htotal).
  destruct (Htotal w (headerRow :: [textBeerRow]) eq_refl) as (_ & Hn & _).
  split; [exact Hn|].
  apply Hexercise. intros r. destruct r. reflexivity.
Defined.

(** ** The sheet as a grid: last row, reading and writing cells *)

Lemma cellBlank_emptyCell (v : Cell) : cellBlank v = true -> v = emptyCell.
Proof.
  destruct v; simpl; try discriminate.
  intros H. apply String.eqb_eq in H. now subst.
Qed.

Lemma rowBlank_emptyRow (r : Row) : rowBlank r = true -> r = emptyRow.
Proof.
  destruct r as [d e m b wt n]. unfold rowBlank. simpl.
  rewrite !andb_true_iff. intros [[[[[Hd He] Hm] Hb] Hw] Hn].
  apply cellBlank_emptyCell in Hd, He, Hm, Hb, Hw, Hn. subst. reflexivity.
Qed.

Lemma getLastRow_blanks (k : nat) : getLastRow (replicate k emptyRow) = O.
Proof. induction k as [|k IH]; simpl; [reflexivity | now rewrite IH]. Qed.

Lemma getLastRow_app_blanks (rows : Sheet) (k : nat) :
  getLastRow (rows ++ replicate k emptyRow) = getLastRow rows.
Proof.
  induction rows as [|r rows IH]; simpl.
  - apply getLastRow_blanks.
  - rewrite IH. reflexivity.
Qed.

Lemma getLastRow_snoc (rows : Sheet) (r : Row) :
  rowBlank r = false -> getLastRow (rows ++ [r]) = S (length rows).
Proof.
  intros Hr. induction rows as [|r' rows IH]; simpl.
  - rewrite Hr. reflexivity.
  - rewrite IH. reflexivity.
Qed.

(** Below its last row a sheet holds empty rows only. *)
Lemma sheet_last_row_split (sheet : Sheet) :
  sheet = take (getLastRow sheet) sheet
          ++ replicate (length sheet - getLastRow sheet) emptyRow.
Proof.
  induction sheet as [|r rest IH]; simpl; [reflexivity|].
  destruct (getLastRow rest) as [|n] eqn:Hlast.
  - simpl in IH. rewrite Nat.sub_0_r in IH.
    destruct (rowBlank r) eqn:Hr; simpl.
    + rewrite (rowBlank_emptyRow r Hr). f_equal. exact IH.
    + f_equal. rewrite Nat.sub_0_r. exact IH.
  - simpl. f_equal. exact IH.
Qed.

Lemma length_take_last_row (sheet : Sheet) :
  length (take (getLastRow sheet) sheet) = getLastRow sheet.
Proof.
  rewrite length_take. pose proof (getLastRow_le_length sheet). lia.
Qed.

Lemma alter_after_body (f : Row -> Row) (body : Sheet) (k : nat) :
  alter f (length body)
        ((body ++ replicate k emptyRow)
           ++ replicate (S (length body) - length (body ++ replicate k emptyRow)) emptyRow)
  = body ++ f emptyRow :: replicate (k - 1) emptyRow.
Proof.
  rewrite <- app_assoc, <- replicate_add.
  rewrite length_app, length_replicate.
  replace (k + (S (length body) - (length body + k)))%nat with (S (k - 1)) by lia.
  replace (length body) with (length body + 0)%nat at 1 by lia.
  rewrite alter_app_r. reflexivity.
Qed.

(** Writing a cell in the row after the last one. *)
Lemma setValue_after_last (c : COL) (v : Cell) (sheet : Sheet) :
  exists k : nat,
    setValue (S (getLastRow sheet)) c v sheet
    = take (getLastRow sheet) sheet
      ++ setCell emptyRow c v :: replicate k emptyRow.
Proof.
  pose proof (length_take_last_row sheet) as Hbody.
  pose proof (sheet_last_row_split sheet) as Hsplit.
  exists (length sheet - getLastRow sheet - 1)%nat.
  unfold setValue.
  rewrite <- (alter_after_body (fun r => setCell r c v)
                (take (getLastRow sheet) sheet) (length sheet - getLastRow sheet)).
  rewrite <- Hsplit, Hbody. reflexivity.
Qed.

Lemma getValue_rowAt (i : nat) (c : COL) (sheet : Sheet) :
  getValue (S i) c sheet = cell (rowAt sheet i) c.
Proof.
  unfold getValue, rowAt. destruct (sheet !! i); [reflexivity|].
  destruct c; reflexivity.
Qed.

Lemma rowAt_app_blanks (sheet : Sheet) (k i : nat) :
  rowAt (sheet ++ replicate k emptyRow) i = rowAt sheet i.
Proof.
  unfold rowAt. destruct (Nat.lt_ge_cases i (length sheet)) as [Hlt|Hge].
  - rewrite lookup_app_l by exact Hlt. reflexivity.
  - rewrite lookup_app_r by exact Hge.
    rewrite (lookup_ge_None_2 _ _ Hge).
    destruct (replicate k emptyRow !! (i - length sheet)%nat) as [r|] eqn:Hr;
      [|reflexivity].
    apply lookup_replicate in Hr as [-> _]. reflexivity.
Qed.

Lemma rowAt_below_last (sheet : Sheet) (i : nat) :
  (getLastRow sheet <= i)%nat -> rowAt sheet i = emptyRow.
Proof.
  intros Hi.
  pose proof (length_take_last_row sheet) as Hbody.
  rewrite (sheet_last_row_split sheet).
  rewrite rowAt_app_blanks. unfold rowAt.
  rewrite lookup_ge_None_2 by lia. reflexivity.
Qed.

Lemma cell_setCell (r : Row) (c c' : COL) (v : Cell) :
  cell (setCell r c v) c' = if decide (c' = c) then v else cell r c'.
Proof. destruct c, c'; reflexivity. Qed.

(** [setValue] changes the addressed cell and no other. *)
Lemma getValue_setValue (i : nat) (c : COL) (v : Cell) (sheet : Sheet)
      (row : nat) (c' : COL) :
  getValue row c' (setValue (S i) c v sheet)
  = if decide (row = S i /\ c' = c) then v else getValue row c' sheet.
Proof.
  destruct row as [|j].
  - rewrite decide_False by (intros [? _]; discriminate). reflexivity.
  - rewrite !getValue_rowAt. unfold setValue.
    set (padded := sheet ++ replicate (S i - length sheet) emptyRow).
    assert (Hpad : forall n, rowAt padded n = rowAt sheet n)
      by (intros; apply rowAt_app_blanks).
    destruct (decide (j = i)) as [->|Hne].
    + assert (Hlen : (i < length padded)%nat).
      { subst padded. rewrite length_app, length_replicate. lia. }
      destruct (lookup_lt_is_Some_2 padded i Hlen) as [r Hr].
      unfold rowAt at 1. rewrite list_lookup_alter, Hr. simpl.
      destruct (decide (i = i)) as [_|]; [|congruence]. simpl.
      rewrite cell_setCell.
      assert (Hrow : cell r c' = cell (rowAt sheet i) c').
      { rewrite <- Hpad. unfold rowAt. rewrite Hr. reflexivity. }
      destruct (decide (c' = c)) as [->|Hc].
      * rewrite decide_True by auto. reflexivity.
      * rewrite decide_False by (intros [_ ?]; contradiction). exact Hrow.
    + rewrite decide_False by (intros [[= ?] _]; contradiction).
      unfold rowAt at 1. rewrite list_lookup_alter_ne by auto.
      fold (rowAt padded j). rewrite Hpad. reflexivity.
Qed.

(** ** Adding today's row *)

(** Below the header the data range holds the records, each cut to the
    width of the range. *)
Lemma drop_header_dataRange (sheet : Sheet) :
  drop 1 (getDataRangeValues sheet)
  = map (fun r => take (Nat.max 1 (getLastColumn sheet)) (cells r)) (recordsOf sheet).
Proof.
  unfold getDataRangeValues. cbv zeta. rewrite skipn_map. f_equal.
  unfold getRangeValues, recordsOf.
  pose proof (getLastRow_le_length sheet) as Hle.
  change (1 - 1)%nat with O. rewrite drop_0.
  destruct (getLastRow sheet) as [|n].
  - simpl Nat.max. rewrite take_0.
    destruct sheet as [|r rest]; reflexivity.
  - replace (Nat.max 1 (S n)) with (S n) by lia.
    rewrite take_app_le by lia. reflexivity.
Qed.

(** The first element of a row of the data range is the date cell. *)
Lemma dataRow_date (width : nat) (r : Row) :
  take (Nat.max 1 width) (cells r) !! colIndex DATE = Some (cell r DATE).
Proof. destruct width; reflexivity. Qed.

(** The second element is the exercise cell when the range has a second
    column, and is missing otherwise. *)
Lemma dataRow_exercise (width : nat) (r : Row) :
  take (Nat.max 1 width) (cells r) !! colIndex EXERCISE_TYPE
  = if (2 <=? width)%nat then Some (cell r EXERCISE_TYPE) else None.
Proof. destruct width as [|[|width]]; reflexivity. Qed.

Lemma todayRowExists_existsb (today : string) (width : nat) (rows : list Row) :
  todayRowExists today (map (fun r => take (Nat.max 1 width) (cells r)) rows)
  = existsb (isRecordOf today) rows.
Proof.
  induction rows as [|r rows IH]; [reflexivity|].
  cbn [map todayRowExists existsb]. rewrite dataRow_date. unfold isRecordOf at 1.
  destruct (cell r DATE) as [d| | | |]; try exact IH.
  destruct (String.eqb (formatDate d) today); [reflexivity | exact IH].
Qed.

Lemma existsb_filter_length {A : Type} (p : A -> bool) (l : list A) :
  existsb p l = (0 <? length (List.filter p l))%nat.
Proof.
  induction l as [|x l IH]; simpl; [reflexivity|].
  destruct (p x); simpl; [reflexivity | exact IH].
Qed.

Lemma todayRowExists_count (now : Z) (sheet : Sheet) :
  todayRowExists (formatDate now) (drop 1 (getDataRangeValues sheet))
  = (0 <? countToday now sheet)%nat.
Proof.
  rewrite drop_header_dataRange, todayRowExists_existsb.
  apply existsb_filter_length.
Qed.

Lemma addTodayRow_found (now : Z) (w : World) (sheet : Sheet) :
  tracking w = Some sheet ->
  addTodayRow now w
  = if (0 <? countToday now sheet)%nat then (Ok tt, w)
    else (Ok tt, setTracking (setValue (S (getLastRow sheet)) DATE (CDate now) sheet) w).
Proof.
  intros Hsheet. unfold addTodayRow, bind, getTrackingSheet_.
  rewrite Hsheet, todayRowExists_count.
  destruct (0 <? countToday now sheet)%nat; [reflexivity|].
  unfold writeTracking. rewrite Nat.add_1_r. reflexivity.
Qed.

(** The sheet after the date is written below the last row. *)
Lemma appended_sheet (now : Z) (sheet : Sheet) :
  let sheet' := setValue (S (getLastRow sheet)) DATE (CDate now) sheet in
  getLastRow sheet' = S (getLastRow sheet)
  /\ take (S (getLastRow sheet)) sheet'
     = take (getLastRow sheet) sheet ++ [dateOnlyRow now].
Proof.
  intros sheet'. subst sheet'.
  destruct (setValue_after_last DATE (CDate now) sheet) as [k ->].
  fold (dateOnlyRow now).
  pose proof (length_take_last_row sheet) as Hbody.
  set (body := take (getLastRow sheet) sheet) in *.
  change (body ++ dateOnlyRow now :: replicate k emptyRow)
    with (body ++ [dateOnlyRow now] ++ replicate k emptyRow).
  rewrite app_assoc. split.
  - rewrite getLastRow_app_blanks, getLastRow_snoc by reflexivity.
    now rewrite Hbody.
  - apply take_app_length'. rewrite length_app, Hbody. simpl. lia.
Qed.

Lemma appended_records (now : Z) (sheet : Sheet) :
  (1 <= getLastRow sheet)%nat ->
  recordsOf (setValue (S (getLastRow sheet)) DATE (CDate now) sheet)
  = recordsOf sheet ++ [dateOnlyRow now].
Proof.
  intros Hinit. unfold recordsOf.
  destruct (appended_sheet now sheet) as [-> ->].
  pose proof (length_take_last_row sheet) as Hbody.
  destruct (take (getLastRow sheet) sheet) as [|r body]; simpl in *; [lia|].
  reflexivity.
Qed.

Lemma isRecordOf_dateOnlyRow (now : Z) :
  isRecordOf (formatDate now) (dateOnlyRow now) = true.
Proof.
  unfold isRecordOf.
  change (cell (dateOnlyRow now) DATE) with (CDate now).
  apply String.eqb_refl.
Qed.

Lemma countToday_appended (now : Z) (sheet : Sheet) :
  (1 <= getLastRow sheet)%nat ->
  countToday now (setValue (S (getLastRow sheet)) DATE (CDate now) sheet)
  = S (countToday now sheet).
Proof.
  intros Hinit. unfold countToday.
  rewrite appended_records by exact Hinit.
  rewrite List.filter_app, length_app. cbn [List.filter].
  rewrite isRecordOf_dateOnlyRow. cbn [length]. lia.
Qed.

(** C10: when addTodayRow appends, it writes the date cell of the row just
    below the last row with content and nothing else: that row becomes the
    last row, its other cells stay empty, every other row reads as before,
    and properties, lock and mail are untouched; when a record for today
    exists the world is left as it is. *)
Theorem addTodayRow_writes_one_date_cell (now : Z) (w : World) (sheet : Sheet) :
  tracking w = Some sheet ->
  let newRow := S (getLastRow sheet) in
  ((0 < countToday now sheet)%nat -> addTodayRow now w = (Ok tt, w))
  /\ (countToday now sheet = O ->
      exists sheet' : Sheet,
        addTodayRow now w = (Ok tt, setTracking sheet' w)
        /\ getLastRow sheet' = newRow
        /\ getValue newRow DATE sheet' = CDate now
        /\ (forall c : COL, c <> DATE -> getValue newRow c sheet' = emptyCell)
        /\ (forall (row : nat) (c : COL),
              row <> newRow -> getValue row c sheet' = getValue row c sheet)
        /\ scriptProperties (setTracking sheet' w) = scriptProperties w
        /\ scriptLock (setTracking sheet' w) = scriptLock w
        /\ sentMail (setTracking sheet' w) = sentMail w).
Proof.
  intros Hsheet newRow. rewrite (addTodayRow_found now w sheet Hsheet). split.
  - intros Hcount. destruct (Nat.ltb_spec 0 (countToday now sheet)); [reflexivity | lia].
  - intros Hcount. rewrite Hcount. change (0 <? 0)%nat with false. cbv iota.
    exists (setValue newRow DATE (CDate now) sheet). subst newRow.
    split; [reflexivity|].
    split; [apply appended_sheet|].
    split; [|split; [|split]].
    + rewrite getValue_setValue. rewrite decide_True by auto. reflexivity.
    + intros c Hc. rewrite getValue_setValue.
      rewrite decide_False by (intros [_ ?]; contradiction).
      rewrite getValue_rowAt, rowAt_below_last by lia.
      destruct c; reflexivity.
    + intros row c Hrow. rewrite getValue_setValue.
      rewrite decide_False by (intros [? _]; contradiction). reflexivity.
    + auto.
Qed.

Lemma addTodayRow_writes_one_date_cell_witness :
  let now := jan 2 + hours 9 in
  let w := worldOf [record (jan 1) "Gym"] in
  exists sheet' : Sheet,
    addTodayRow now w = (Ok tt, setTracking sheet' w)
    /\ getLastRow sheet' = 3%nat
    /\ getValue 3 DATE sheet' = CDate now.
Proof.
  intros now w.
  destruct (addTodayRow_writes_one_date_cell now w
              [headerRow; record (jan 1) "Gym"] eq_refl) as [_ Happend].
  destruct Happend as (sheet' & Hrun & Hlast & Hdate & _).
  - vm_compute. reflexivity.
  - exists sheet'. split; [exact Hrun|]. split; [exact Hlast | exact Hdate].
Defined.

(** C4 (as stated) fails on a Tracking sheet with no content: the first
    call writes the date into row 1, where the scan does not look, so the
    second call is not a no-op and appends a second row dated today. *)
Lemma addTodayRow_twice_on_blank_sheet :
  (tracking (snd (addTodayRow (jan 2 + hours 9) (mkWorld (Some []) ∅ false [])))
   = Some [dateOnlyRow (jan 2 + hours 9)])
  /\ (tracking (snd ((addTodayRow (jan 2 + hours 9) ;;; addTodayRow (jan 2 + hours 9))
                       (mkWorld (Some []) ∅ false [])))
      = Some [dateOnlyRow (jan 2 + hours 9); dateOnlyRow (jan 2 + hours 9)])
  /\ (addTodayRow (jan 2 + hours 9)
        (snd (addTodayRow (jan 2 + hours 9) (mkWorld (Some []) ∅ false [])))
      <> (Ok tt, snd (addTodayRow (jan 2 + hours 9) (mkWorld (Some []) ∅ false [])))).
Proof.
  split; [vm_compute; reflexivity|]. split; [vm_compute; reflexivity|].
  intros Hsame. apply (f_equal (fun out => tracking (snd out))) in Hsame.
  vm_compute in Hsame. discriminate Hsame.
Qed.

(** C4: on a Tracking sheet that has content (its header row), two calls of
    addTodayRow in succession with the same [now] leave as many records
    dated today as there were, and one when there was none: the first call
    appends a record with only the date when there is none, and the second
    call changes nothing.  On a sheet with no content the first call writes
    the date into row 1 and the second appends another row dated today. *)
Theorem addTodayRow_twice_one_record (now : Z) (w : World) (sheet : Sheet) :
  tracking w = Some sheet ->
  ((1 <= getLastRow sheet)%nat ->
   exists (w1 : World) (sheet1 : Sheet),
     addTodayRow now w = (Ok tt, w1)
     /\ tracking w1 = Some sheet1
     /\ addTodayRow now w1 = (Ok tt, w1)
     /\ (addTodayRow now ;;; addTodayRow now) w = (Ok tt, w1)
     /\ countToday now sheet1 = Nat.max 1 (countToday now sheet)
     /\ (countToday now sheet = O ->
         recordsOf sheet1 = recordsOf sheet ++ [dateOnlyRow now])
     /\ ((0 < countToday now sheet)%nat -> w1 = w))
  /\ (getLastRow sheet = O ->
      exists sheet1 sheet2 : Sheet,
        addTodayRow now w = (Ok tt, setTracking sheet1 w)
        /\ addTodayRow now (setTracking sheet1 w) = (Ok tt, setTracking sheet2 w)
        /\ take (getLastRow sheet1) sheet1 = [dateOnlyRow now]
        /\ take (getLastRow sheet2) sheet2 = [dateOnlyRow now; dateOnlyRow now]).
Proof.
  intros Hsheet.
  pose proof (addTodayRow_found now w sheet Hsheet) as Hfirst.
  split.
  - intros Hinit.
    destruct (countToday now sheet) as [|n] eqn:Htoday.
    + change (0 <? 0)%nat with false in Hfirst. cbv iota in Hfirst.
      set (sheet1 := setValue (S (getLastRow sheet)) DATE (CDate now) sheet) in *.
      assert (Hone : countToday now sheet1 = 1%nat).
      { subst sheet1. rewrite countToday_appended by exact Hinit.
        now rewrite Htoday. }
      assert (Hsecond : addTodayRow now (setTracking sheet1 w)
                        = (Ok tt, setTracking sheet1 w)).
      { rewrite (addTodayRow_found now (setTracking sheet1 w) sheet1)
          by reflexivity.
        rewrite Hone. reflexivity. }
      exists (setTracking sheet1 w), sheet1.
      split; [exact Hfirst|]. split; [reflexivity|]. split; [exact Hsecond|].
      split; [unfold bind; rewrite Hfirst; exact Hsecond|].
      split; [exact Hone|]. split.
      * intros _. subst sheet1. now apply appended_records.
      * intros Hpos. lia.
    + change (0 <? S n)%nat with true in Hfirst. cbv iota in Hfirst.
      exists w, sheet.
      split; [exact Hfirst|]. split; [exact Hsheet|]. split; [exact Hfirst|].
      split; [unfold bind; rewrite Hfirst; exact Hfirst|].
      split; [rewrite Htoday; lia|]. split; [discriminate | reflexivity].
  - intros Hblank.
    assert (Hnone : countToday now sheet = O)
      by (unfold countToday, recordsOf; rewrite Hblank; reflexivity).
    rewrite Hnone, Hblank in Hfirst.
    change (0 <? 0)%nat with false in Hfirst. cbv iota in Hfirst.
    destruct (appended_sheet now sheet) as [Hlast1 Htake1].
    rewrite Hblank in Hlast1, Htake1. cbn [take app] in Htake1.
    set (sheet1 := setValue 1 DATE (CDate now) sheet) in *.
    assert (Hnone1 : countToday now sheet1 = O)
      by (unfold countToday, recordsOf; rewrite Hlast1, Htake1; reflexivity).
    pose proof (addTodayRow_found now (setTracking sheet1 w) sheet1 eq_refl)
      as Hsecond.
    rewrite Hnone1, Hlast1 in Hsecond.
    change (0 <? 0)%nat with false in Hsecond. cbv iota in Hsecond.
    destruct (appended_sheet now sheet1) as [Hlast2 Htake2].
    rewrite Hlast1 in Hlast2, Htake2. rewrite Htake1 in Htake2.
    exists sheet1, (setValue 2 DATE (CDate now) sheet1).
    split; [exact Hfirst|]. split; [exact Hsecond|].
    split; [rewrite Hlast1; exact Htake1|].
    rewrite Hlast2. exact Htake2.
Qed.

Lemma addTodayRow_twice_one_record_witness :
  let now := jan 2 + hours 9 in
  let w := worldOf [record (jan 1) "Gym"] in
  exists (w1 : World) (sheet1 : Sheet),
    (addTodayRow now ;;; addTodayRow now) w = (Ok tt, w1)
    /\ tracking w1 = Some sheet1
    /\ countToday now sheet1 = 1%nat.
Proof.
  intros now w.
  destruct (addTodayRow_twice_one_record now w
              [headerRow; record (jan 1) "Gym"] eq_refl) as [Hcontent _].
  destruct Hcontent as (w1 & sheet1 & _ & Hsheet1 & _ & Htwice & Hone & _).
  - vm_compute. lia.
  - exists w1, sheet1. split; [exact Htwice|]. split; [exact Hsheet1 | exact Hone].
Defined.

(** ** The daily reminder *)

Lemma todayFilledScan_records (today : string) (width : nat) (rows : list Row) :
  todayFilledScan today (map (fun r => take (Nat.max 1 width) (cells r)) rows)
  = todayFilledIn width today rows.
Proof.
  induction rows as [|r rows IH]; [reflexivity|].
  cbn [map todayFilledScan todayFilledIn].
  rewrite dataRow_date, dataRow_exercise. unfold isRecordOf.
  destruct (cell r DATE) as [d| | | |]; try exact IH.
  destruct (String.eqb (formatDate d) today); [|exact IH].
  destruct (2 <=? width)%nat; reflexivity.
Qed.

Lemma todayFilledScan_sheet (today : string) (sheet : Sheet) :
  todayFilledScan today (drop 1 (getDataRangeValues sheet))
  = todayFilledIn (getLastColumn sheet) today (recordsOf sheet).
Proof. rewrite drop_header_dataRange. apply todayFilledScan_records. Qed.

(** What one call of [sendDailyReminder] does, branch by branch. *)
Lemma sendDailyReminder_runs (run : Run) (w : World) :
  sendDailyReminder run w
  = if scriptLock w then (Ok tt, w)
    else if bool_decide (scriptProperties w !! lastReminderDate
                         = Some (formatDate (now run)))
    then (Ok tt, w)
    else match tracking w with
         | None => (Throw SheetNotFound, w)
         | Some sheet =>
             if todayFilledIn (getLastColumn sheet) (formatDate (now run))
                              (recordsOf sheet)
             then (Ok tt, w)
             else if mailDelivers run
                  then (Ok tt, afterReminder run w sheet)
                  else (Throw MailFailure, w)
         end.
Proof.
  destruct w as [tr props lock mail].
  unfold sendDailyReminder, bind at 1, tryLock. cbn [scriptLock].
  destruct lock; [reflexivity|].
  cbn [negb]. unfold finally, bind at 1, getProperty, setLock.
  cbn [scriptProperties tracking sentMail scriptLock].
  destruct (bool_decide (props !! lastReminderDate = Some (formatDate (now run)))).
  { reflexivity. }
  unfold bind at 1, getTrackingSheet_. cbn [tracking].
  destruct tr as [sheet|]; [|reflexivity].
  rewrite todayFilledScan_sheet.
  destruct (todayFilledIn (getLastColumn sheet) (formatDate (now run)) (recordsOf sheet)).
  { reflexivity. }
  unfold calculateExerciseStreak, calculateNoAlcoholStreak.
  unfold bind at 1. rewrite reads_tracking_data. cbn [tracking].
  unfold bind at 1. rewrite reads_tracking_data. cbn [tracking].
  unfold bind, sendEmail, setProperty, afterReminder, releaseLock, setLock.
  destruct (mailDelivers run); reflexivity.
Qed.

(** In a data range of two columns or more the scan finds today recorded
    exactly when the first record dated today has something in its exercise
    cell. *)
Lemma todayFilledIn_iff (width : nat) (today : string) (records : list Row) :
  (2 <= width)%nat ->
  todayFilledIn width today records = true <-> todayRecorded today records.
Proof.
  intros Hwide. unfold todayRecorded. induction records as [|r rows IH].
  - split; [discriminate|].
    intros (earlier & x & later & Heq & _). destruct earlier; discriminate.
  - cbn [todayFilledIn].
    destruct (Nat.leb_spec 2 width) as [_|]; [|lia].
    destruct (isRecordOf today r) eqn:Hr.
    + split.
      * intros Hex. exists [], r, rows. repeat split; auto.
        intros Heq. rewrite Heq in Hex. discriminate.
      * intros (earlier & x & later & Heq & Hearlier & Hx & Hcell).
        destruct earlier as [|e earlier].
        -- injection Heq as <- <-.
           destruct (cell r EXERCISE_TYPE) as [| |s| |]; try reflexivity.
           simpl. destruct (String.eqb_spec s ""); [subst; contradiction | reflexivity].
        -- injection Heq as <- _. inversion Hearlier; congruence.
    + rewrite IH. split.
      * intros (earlier & x & later & -> & Hearlier & Hx & Hcell).
        exists (r :: earlier), x, later. repeat split; auto.
      * intros (earlier & x & later & Heq & Hearlier & Hx & Hcell).
        destruct earlier as [|e earlier].
        -- injection Heq as <- _. congruence.
        -- injection Heq as <- ->. inversion Hearlier; subst.
           exists earlier, x, later. repeat split; auto.
Qed.

(** In a data range of one column the scan finds today recorded as soon as
    a record is dated today. *)
Lemma todayFilledIn_narrow (width : nat) (today : string) (records : list Row) :
  (width <= 1)%nat ->
  todayFilledIn width today records = existsb (isRecordOf today) records.
Proof.
  intros Hnarrow. induction records as [|r rows IH]; [reflexivity|].
  cbn [todayFilledIn existsb].
  destruct (Nat.leb_spec 2 width) as [|_]; [lia|].
  destruct (isRecordOf today r); [reflexivity | exact IH].
Qed.

(** Without a record dated today the scan finds nothing. *)
Lemma todayFilledIn_none (width : nat) (today : string) (records : list Row) :
  Forall (fun r => isRecordOf today r = false) records ->
  todayFilledIn width today records = false.
Proof.
  induction 1 as [|r rows Hr _ IH]; [reflexivity|].
  cbn [todayFilledIn]. rewrite Hr. exact IH.
Qed.

Lemma lastColumnOfRow_exercise (r : Row) :
  cell r EXERCISE_TYPE <> CStr "" -> (2 <= lastColumnOfRow r)%nat.
Proof.
  intros Hcell. unfold lastColumnOfRow.
  assert (Hblank : cellBlank (colExerciseType r) = false).
  { cbn [cell] in Hcell. destruct (colExerciseType r) as [| |s| |]; try reflexivity.
    simpl. destruct (String.eqb_spec s ""); [subst; contradiction | reflexivity]. }
  rewrite Hblank. cbn [negb].
  destruct (cellBlank (colNotes r)), (cellBlank (colWeight r)),
    (cellBlank (colBeerCount r)), (cellBlank (colExerciseMin r)); cbn [negb]; lia.
Qed.

Lemma getLastColumn_In (sheet : Sheet) (r : Row) :
  In r sheet -> (lastColumnOfRow r <= getLastColumn sheet)%nat.
Proof.
  induction sheet as [|r' rest IH]; intros Hin; [destruct Hin|].
  cbn [getLastColumn]. destruct Hin as [->|Hin]; [lia|].
  specialize (IH Hin). lia.
Qed.

Lemma recordsOf_In (sheet : Sheet) (r : Row) :
  In r (recordsOf sheet) -> In r sheet.
Proof.
  unfold recordsOf. intros Hin.
  rewrite <- (take_drop (getLastRow sheet) sheet). apply in_or_app. left.
  rewrite <- (take_drop 1 (take (getLastRow sheet) sheet)). apply in_or_app. now right.
Qed.

(** A record with something in its exercise cell makes the data range at
    least two columns wide. *)
Lemma todayRecorded_wide (today : string) (sheet : Sheet) :
  todayRecorded today (recordsOf sheet) -> (2 <= getLastColumn sheet)%nat.
Proof.
  intros (earlier & r & later & Heq & _ & _ & Hcell).
  assert (Hin : In r sheet).
  { apply recordsOf_In. rewrite Heq. apply in_or_app. right. now left. }
  pose proof (getLastColumn_In sheet r Hin).
  pose proof (lastColumnOfRow_exercise r Hcell). lia.
Qed.

Lemma todayRecorded_filled (today : string) (sheet : Sheet) :
  todayRecorded today (recordsOf sheet) ->
  todayFilledIn (getLastColumn sheet) today (recordsOf sheet) = true.
Proof.
  intros Hrec. apply todayFilledIn_iff; [|exact Hrec].
  now apply (todayRecorded_wide today).
Qed.

Lemma reminder_skips_when_marked (run : Run) (w : World) :
  scriptProperties w !! lastReminderDate = Some (formatDate (now run)) ->
  sendDailyReminder run w = (Ok tt, w).
Proof.
  intros Hmark. rewrite sendDailyReminder_runs.
  rewrite bool_decide_eq_true_2 by exact Hmark.
  destruct (scriptLock w); reflexivity.
Qed.

(** A call either leaves the world as it is, or delivers one reminder and
    writes the marker. *)
Lemma reminder_outcomes (run : Run) (w : World) :
  (snd (sendDailyReminder run w) = w
   /\ (fst (sendDailyReminder run w) = Throw MailFailure ->
       mailDelivers run = false
       /\ scriptLock w = false
       /\ scriptProperties w !! lastReminderDate <> Some (formatDate (now run))))
  \/ (exists sheet : Sheet,
        tracking w = Some sheet
        /\ mailDelivers run = true
        /\ sendDailyReminder run w = (Ok tt, afterReminder run w sheet)).
Proof.
  rewrite sendDailyReminder_runs.
  destruct (scriptLock w); [left; split; [reflexivity | discriminate]|].
  destruct (bool_decide (scriptProperties w !! lastReminderDate
                         = Some (formatDate (now run)))) eqn:Hmark;
    [left; split; [reflexivity | discriminate]|].
  apply bool_decide_eq_false in Hmark.
  destruct (tracking w) as [sheet|];
    [|left; split; [reflexivity | discriminate]].
  destruct (todayFilledIn _ _ _); [left; split; [reflexivity | discriminate]|].
  destruct (mailDelivers run) eqn:Hmail.
  - right. exists sheet. auto.
  - left. split; [reflexivity | auto].
Qed.

Lemma afterReminder_marker (run : Run) (w : World) (sheet : Sheet) :
  scriptProperties (afterReminder run w sheet) !! lastReminderDate
  = Some (formatDate (now run)).
Proof. unfold afterReminder. cbn [scriptProperties]. apply lookup_insert_eq. Qed.

(** C3: two calls of sendDailyReminder on the same day deliver at most one
    reminder.  A call returns without sending when the marker
    lastReminderDate equals today, and when today's record already shows a
    non-empty exercise type; a delivered reminder sets the marker to today,
    so the second call skips. *)
Theorem reminder_sent_at_most_once (run1 run2 : Run) (w : World) :
  formatDate (now run1) = formatDate (now run2) ->
  let today := formatDate (now run1) in
  let w1 := snd (sendDailyReminder run1 w) in
  let w2 := snd (sendDailyReminder run2 w1) in
  (exists sent : list Email,
      sentMail w2 = sentMail w ++ sent /\ (length sent <= 1)%nat)
  /\ (scriptProperties w !! lastReminderDate = Some today ->
      sendDailyReminder run1 w = (Ok tt, w))
  /\ (forall sheet : Sheet,
        tracking w = Some sheet ->
        todayRecorded today (recordsOf sheet) ->
        sendDailyReminder run1 w = (Ok tt, w))
  /\ (sentMail w1 <> sentMail w ->
      scriptProperties w1 !! lastReminderDate = Some today
      /\ sendDailyReminder run2 w1 = (Ok tt, w1)).
Proof.
  intros Hday today w1 w2.
  assert (Hfirst : w1 = w
                   \/ exists sheet, w1 = afterReminder run1 w sheet).
  { subst w1. destruct (reminder_outcomes run1 w) as [[Hsame _]|(sheet & _ & _ & Hrun)].
    - left. exact Hsame.
    - right. exists sheet. now rewrite Hrun. }
  assert (Hskip : forall sheet,
             sendDailyReminder run2 (afterReminder run1 w sheet)
             = (Ok tt, afterReminder run1 w sheet)).
  { intros sheet. apply reminder_skips_when_marked.
    rewrite afterReminder_marker. now f_equal. }
  split; [|split; [|split]].
  - destruct Hfirst as [Hw1|[sheet Hw1]].
    + subst w2. rewrite Hw1.
      destruct (reminder_outcomes run2 w) as [[Hsame _]|(sheet & _ & _ & Hrun)].
      * exists []. rewrite Hsame, app_nil_r. split; [reflexivity | simpl; lia].
      * rewrite Hrun. cbn [snd afterReminder sentMail].
        eexists. split; [reflexivity | simpl; lia].
    + subst w2. rewrite Hw1, Hskip. cbn [snd afterReminder sentMail].
      eexists. split; [reflexivity | simpl; lia].
  - apply reminder_skips_when_marked.
  - intros sheet Hsheet Hrec. apply todayRecorded_filled in Hrec.
    rewrite sendDailyReminder_runs, Hsheet. fold today. rewrite Hrec.
    destruct (scriptLock w); [reflexivity|].
    destruct (bool_decide _); reflexivity.
  - intros Hsent. destruct Hfirst as [Hw1|[sheet Hw1]].
    + rewrite Hw1 in Hsent. contradiction.
    + rewrite Hw1. split; [apply afterReminder_marker | apply Hskip].
Qed.

Lemma reminder_sent_at_most_once_witness :
  let w := worldOf [record (jan 2) ""] in
  let run1 := sampleRun (jan 2 + hours 21) true in
  let run2 := sampleRun (jan 2 + hours 22) true in
  exists sent : list Email,
    sentMail (snd (sendDailyReminder run2 (snd (sendDailyReminder run1 w))))
    = sentMail w ++ sent
    /\ (length sent <= 1)%nat.
Proof.
  intros w run1 run2.
  apply (reminder_sent_at_most_once run1 run2 w).
  vm_compute. reflexivity.
Defined.

Example reminder_sent_once_on_sample :
  let w := worldOf [record (jan 2) ""] in
  let run1 := sampleRun (jan 2 + hours 21) true in
  let run2 := sampleRun (jan 2 + hours 22) true in
  length (sentMail (snd (sendDailyReminder run2 (snd (sendDailyReminder run1 w))))) = 1%nat.
Proof. vm_compute. reflexivity. Qed.

(** C5: sendDailyReminder writes the marker lastReminderDate only after the
    mail was delivered; when the transport fails the error reaches the
    caller, the world keeps its state, marker included, and the next call on
    that day with a working transport sends the reminder.  The mail is
    attempted, with the lock free and the marker not at today, whenever no
    record is dated today, and on a sheet with content beyond column A (the
    header row is such content) whenever today's first record has an empty
    exercise cell. *)
Theorem marker_written_only_after_delivery (run : Run) (w : World) :
  let today := formatDate (now run) in
  let r := fst (sendDailyReminder run w) in
  let w' := snd (sendDailyReminder run w) in
  (scriptProperties w' !! lastReminderDate <> scriptProperties w !! lastReminderDate ->
   r = Ok tt
   /\ mailDelivers run = true
   /\ scriptProperties w' !! lastReminderDate = Some today
   /\ exists mail : Email, sentMail w' = sentMail w ++ [mail])
  /\ (forall sheet : Sheet,
        scriptLock w = false ->
        scriptProperties w !! lastReminderDate <> Some today ->
        tracking w = Some sheet ->
        mailDelivers run = false ->
        (Forall (fun x => isRecordOf today x = false) (recordsOf sheet) ->
         r = Throw MailFailure /\ w' = w)
        /\ ((2 <= getLastColumn sheet)%nat ->
            ~ todayRecorded today (recordsOf sheet) ->
            r = Throw MailFailure /\ w' = w))
  /\ (r = Throw MailFailure ->
      w' = w
      /\ forall run' : Run,
          formatDate (now run') = today ->
          mailDelivers run' = true ->
          exists mail : Email,
            fst (sendDailyReminder run' w') = Ok tt
            /\ sentMail (snd (sendDailyReminder run' w')) = sentMail w ++ [mail]
            /\ scriptProperties (snd (sendDailyReminder run' w')) !! lastReminderDate
               = Some today).
Proof.
  intros today r w'. split; [|split].
  - intros Hchanged.
    destruct (reminder_outcomes run w) as [[Hsame _]|(sheet & _ & Hmail & Hrun)].
    + subst w'. rewrite Hsame in Hchanged. contradiction.
    + subst r w'. rewrite Hrun. cbn [fst snd].
      split; [reflexivity|]. split; [exact Hmail|].
      split; [apply afterReminder_marker|].
      eexists. reflexivity.
  - intros sheet Hlock Hmark Hsheet Hmail.
    assert (Hfail : todayFilledIn (getLastColumn sheet) today (recordsOf sheet) = false ->
                    r = Throw MailFailure /\ w' = w).
    { intros Hscan. subst r w' today.
      rewrite sendDailyReminder_runs, Hlock, Hsheet, Hmail, Hscan.
      rewrite bool_decide_eq_false_2 by exact Hmark. split; reflexivity. }
    split.
    + intros Hnone. apply Hfail. now apply todayFilledIn_none.
    + intros Hwide Hrec. apply Hfail.
      destruct (todayFilledIn (getLastColumn sheet) today (recordsOf sheet)) eqn:Hscan;
        [|reflexivity].
      exfalso. apply Hrec. now apply (todayFilledIn_iff (getLastColumn sheet)).
  - subst r w'. rewrite sendDailyReminder_runs.
    destruct (scriptLock w) eqn:Hlock; [discriminate|].
    destruct (bool_decide (scriptProperties w !! lastReminderDate
                           = Some (formatDate (now run)))) eqn:Hmark;
      [discriminate|].
    destruct (tracking w) as [sheet|] eqn:Hsheet; [|discriminate].
    destruct (todayFilledIn (getLastColumn sheet) (formatDate (now run))
                            (recordsOf sheet)) eqn:Hscan;
      [discriminate|].
    destruct (mailDelivers run); [discriminate|].
    intros _. cbn [snd]. split; [reflexivity|].
    intros run' Hday Hmail. subst today.
    rewrite sendDailyReminder_runs, Hlock, Hday, Hmark, Hsheet, Hscan, Hmail.
    cbn [fst snd afterReminder sentMail scriptProperties].
    eexists. split; [reflexivity|]. split; [reflexivity|].
    rewrite Hday. apply lookup_insert_eq.
Qed.

Lemma marker_written_only_after_delivery_witness :
  let w := worldOf [record (jan 2) ""] in
  let run := sampleRun (jan 2 + hours 21) false in
  fst (sendDailyReminder run w) = Throw MailFailure
  /\ snd (sendDailyReminder run w) = w.
Proof.
  intros w run.
  destruct (marker_written_only_after_delivery run w) as (_ & Hfail & _).
  destruct (Hfail [headerRow; record (jan 2) ""]) as [_ Hwide].
  - reflexivity.
  - vm_compute. discriminate.
  - reflexivity.
  - reflexivity.
  - apply Hwide.
    + vm_compute. lia.
    + intros Hrec. apply (todayFilledIn_iff 6) in Hrec; [|lia].
      vm_compute in Hrec. discriminate.
Defined.

Example failed_send_then_retry :
  let w := worldOf [record (jan 2) ""] in
  let failing := sampleRun (jan 2 + hours 21) false in
  let working := sampleRun (jan 2 + hours 22) true in
  let w1 := snd (sendDailyReminder failing w) in
  let w2 := snd (sendDailyReminder working w1) in
  fst (sendDailyReminder failing w) = Throw MailFailure
  /\ scriptProperties w1 !! lastReminderDate = None
  /\ length (sentMail w1) = O
  /\ scriptProperties w2 !! lastReminderDate = Some "2024-01-02"
  /\ length (sentMail w2) = 1%nat.
Proof. vm_compute. repeat split; reflexivity. Qed.

(** Rows of one calendar day render alike, so a row dated on [now]'s day is
    a record of today whatever its time of day. *)
Lemma same_day_isRecordOf (now d : Z) (r : Row) :
  cell r DATE = CDate d ->
  normalizeDate_ d = normalizeDate_ now ->
  isRecordOf (formatDate now) r = true.
Proof.
  intros Hcell Hday. unfold isRecordOf. rewrite Hcell.
  apply String.eqb_eq. unfold formatDate.
  replace (dayNumber d) with (dayNumber now); [reflexivity|].
  unfold normalizeDate_ in Hday. rewrite !setHours0_dayNumber in Hday.
  unfold msPerDay in Hday. lia.
Qed.

(** * Further properties of the script *)

(** ** Streaks, row by row *)

Lemma countWhile_app_all (test : Row -> bool) (passing rest : list Row) :
  Forall (fun r => test r = true) passing ->
  countWhile test (passing ++ rest) = (length passing + countWhile test rest)%nat.
Proof.
  induction 1 as [|r passing Hr _ IH]; simpl; [reflexivity|].
  rewrite Hr, IH. reflexivity.
Qed.

Lemma streakOf_snoc (test : Row -> bool) (data : list Row) (r : Row) :
  countWhile test (rev (data ++ [r]))
  = if test r then S (countWhile test (rev data)) else O.
Proof. rewrite rev_app_distr. reflexivity. Qed.

Lemma longest_snoc (data : list Row) (r : Row) :
  longestExerciseStreakOf (data ++ [r])
  = if isExerciseDay r
    then Nat.max (longestExerciseStreakOf data) (S (exerciseStreakOf data))
    else longestExerciseStreakOf data.
Proof.
  unfold longestExerciseStreakOf. rewrite fold_longestStep_snoc.
  destruct (longest_invariant data) as [Hcur _]. rewrite <- Hcur.
  destruct (fold_left longestStep data (O, O)) as [longest current].
  unfold longestStep. destruct (isExerciseDay r); reflexivity.
Qed.

(** X1: appending one row r to the records: an exercise day raises the
    current exercise streak by one and lifts the longest streak to at least
    that value, any other row resets the current streak to 0 and keeps the
    longest; the no-alcohol streak moves the same way on the beer cell. *)
Theorem streaks_after_append (data : list Row) (r : Row) :
  exerciseStreakOf (data ++ [r])
  = (if isExerciseDay r then S (exerciseStreakOf data) else O)
  /\ noAlcoholStreakOf (data ++ [r])
     = (if isNoAlcoholDay r then S (noAlcoholStreakOf data) else O)
  /\ longestExerciseStreakOf (data ++ [r])
     = (if isExerciseDay r
        then Nat.max (longestExerciseStreakOf data) (S (exerciseStreakOf data))
        else longestExerciseStreakOf data).
Proof.
  split; [apply streakOf_snoc|]. split; [apply streakOf_snoc | apply longest_snoc].
Qed.

Lemma longest_le_app (data more : list Row) :
  (longestExerciseStreakOf data <= longestExerciseStreakOf (data ++ more))%nat.
Proof.
  induction more as [|r more IH] using rev_ind.
  - rewrite app_nil_r. lia.
  - rewrite app_assoc, longest_snoc.
    destruct (isExerciseDay r); lia.
Qed.

Lemma exerciseStreak_le_exerciseDays (data : list Row) :
  (exerciseStreakOf data <= length (List.filter isExerciseDay data))%nat.
Proof.
  induction data as [|r data IH] using rev_ind; [cbv; lia|].
  unfold exerciseStreakOf in *. rewrite streakOf_snoc.
  rewrite List.filter_app, length_app. simpl.
  destruct (isExerciseDay r); simpl; lia.
Qed.

Lemma longest_le_exerciseDays (data : list Row) :
  (longestExerciseStreakOf data <= length (List.filter isExerciseDay data))%nat.
Proof.
  induction data as [|r data IH] using rev_ind; [cbv; lia|].
  rewrite longest_snoc, List.filter_app, length_app. simpl.
  pose proof (exerciseStreak_le_exerciseDays data).
  destruct (isExerciseDay r); simpl; lia.
Qed.

(** X2: the longest exercise streak never decreases when rows are appended,
    and it never exceeds the number of exercise days recorded. *)
Theorem longest_streak_grows_with_log (data more : list Row) :
  (longestExerciseStreakOf data <= longestExerciseStreakOf (data ++ more))%nat
  /\ (longestExerciseStreakOf data <= length (List.filter isExerciseDay data))%nat.
Proof. split; [apply longest_le_app | apply longest_le_exerciseDays]. Qed.

Lemma longest_block_exists (data : list Row) :
  exists before block after,
    data = before ++ block ++ after
    /\ Forall (fun r => isExerciseDay r = true) block
    /\ length block = longestExerciseStreakOf data.
Proof.
  induction data as [|r data IH] using rev_ind.
  - exists [], [], []. repeat split; constructor.
  - destruct IH as (before & block & after & Hdata & Hblock & Hlen).
    assert (Hkeep : longestExerciseStreakOf (data ++ [r]) = longestExerciseStreakOf data ->
                    exists before block after,
                      data ++ [r] = before ++ block ++ after
                      /\ Forall (fun r => isExerciseDay r = true) block
                      /\ length block = longestExerciseStreakOf (data ++ [r])).
    { intros Hsame. exists before, block, (after ++ [r]).
      split; [rewrite Hdata, <- !app_assoc; reflexivity|].
      split; [exact Hblock | congruence]. }
    rewrite longest_snoc in *.
    destruct (isExerciseDay r) eqn:Hr; [|now apply Hkeep].
    destruct (Nat.max_spec (longestExerciseStreakOf data) (S (exerciseStreakOf data)))
      as [[_ Hmax]|[_ Hmax]]; rewrite Hmax in *; [|now apply Hkeep].
    destruct (streakOf_suffix isExerciseDay data)
      as (older & counted & Hsplit & Hall & _ & Hcount).
    exists older, (counted ++ [r]), [].
    repeat split.
    + rewrite app_nil_r, Hsplit, <- app_assoc. reflexivity.
    + apply Forall_app. split; [exact Hall | constructor; [exact Hr | constructor]].
    + rewrite length_app. simpl. unfold exerciseStreakOf. lia.
Qed.

Lemma block_le_longest (before block after : list Row) :
  Forall (fun r => isExerciseDay r = true) block ->
  (length block <= longestExerciseStreakOf (before ++ block ++ after))%nat.
Proof.
  intros Hblock.
  rewrite app_assoc.
  pose proof (longest_le_app (before ++ block) after) as Hmono.
  pose proof (exerciseStreak_le_longest (before ++ block)) as Hcur.
  assert (Hrun : (length block <= exerciseStreakOf (before ++ block))%nat).
  { unfold exerciseStreakOf. rewrite rev_app_distr.
    rewrite countWhile_app_all by (apply List.Forall_rev; exact Hblock).
    rewrite length_rev. lia. }
  lia.
Qed.

(** X3: calculateLongestExerciseStreak returns the length of the longest
    block of consecutive stored rows that are all exercise days: some block
    has that length and no block is longer. *)
Theorem longest_streak_is_longest_block (data : list Row) :
  (exists before block after,
      data = before ++ block ++ after
      /\ Forall (fun r => isExerciseDay r = true) block
      /\ length block = longestExerciseStreakOf data)
  /\ (forall before block after : list Row,
        data = before ++ block ++ after ->
        Forall (fun r => isExerciseDay r = true) block ->
        (length block <= longestExerciseStreakOf data)%nat).
Proof.
  split; [apply longest_block_exists|].
  intros before block after -> Hblock. now apply block_le_longest.
Qed.

Lemma longest_streak_is_longest_block_witness :
  (2 <= longestExerciseStreakOf
          [record (jan 1) "Gym"; record (jan 2) "Rest Day";
           record (jan 3) "Running"; record (jan 4) "Yoga"; record (jan 5) ""])%nat.
Proof.
  apply (proj2 (longest_streak_is_longest_block _)
               [record (jan 1) "Gym"; record (jan 2) "Rest Day"]
               [record (jan 3) "Running"; record (jan 4) "Yoga"]
               [record (jan 5) ""]).
  - reflexivity.
  - repeat constructor.
Defined.

Lemma reads_records (w : World) (data : list Row) :
  fst (getTrackingData_ w) = Ok data ->
  exists sheet, tracking w = Some sheet /\ recordsOf sheet = data.
Proof.
  intros Hdata. destruct (tracking w) as [sheet|] eqn:Hsheet.
  - rewrite (getTrackingData_found w sheet Hsheet) in Hdata.
    injection Hdata as <-. eauto.
  - rewrite (getTrackingData_missing w Hsheet) in Hdata. discriminate.
Qed.

(** X4: calculateNoAlcoholStreak counts the trailing stored rows whose beer
    cell is the number 0 (of either sign), empty or null, and stops at the
    first row with any other value; a row with nothing entered therefore
    counts as a no-alcohol day. *)
Theorem no_alcohol_streak_counts_trailing_rows (data : list Row) :
  let noBeer := fun r : Row =>
    cell r BEER_COUNT = CNum 0
    \/ cell r BEER_COUNT = CNum (-0)
    \/ cell r BEER_COUNT = CStr ""
    \/ cell r BEER_COUNT = CNull in
  (exists older counted,
      data = older ++ counted
      /\ Forall noBeer counted
      /\ (older = [] \/ exists older' r, older = older' ++ [r] /\ ~ noBeer r)
      /\ noAlcoholStreakOf data = length counted)
  /\ (forall now : Z, noAlcoholStreakOf (data ++ [dateOnlyRow now])
                      = S (noAlcoholStreakOf data))
  /\ (forall w : World,
        fst (getTrackingData_ w) = Ok data ->
        calculateNoAlcoholStreak w = (Ok (noAlcoholStreakOf data), w)).
Proof.
  intros noBeer. split; [|split].
  - destruct (streakOf_suffix isNoAlcoholDay data)
      as (older & counted & Hsplit & Hall & Hstop & Hcount).
    exists older, counted. repeat split; auto.
    + eapply List.Forall_impl; [|exact Hall].
      intros r Hr. now apply isNoAlcoholDay_iff.
    + destruct Hstop as [->|(older' & r & -> & Hr)]; [left; reflexivity|].
      right. exists older', r. split; [reflexivity|].
      intros Hno. apply isNoAlcoholDay_iff in Hno. congruence.
  - intros now. unfold noAlcoholStreakOf. rewrite streakOf_snoc. reflexivity.
  - intros w Hdata. destruct (reads_records w data Hdata) as (sheet & Hsheet & <-).
    unfold calculateNoAlcoholStreak. rewrite reads_tracking_data, Hsheet. reflexivity.
Qed.

Lemma no_alcohol_streak_counts_trailing_rows_witness :
  calculateNoAlcoholStreak (worldOf monthRows)
  = (Ok (noAlcoholStreakOf monthRows), worldOf monthRows).
Proof.
  apply (proj2 (proj2 (no_alcohol_streak_counts_trailing_rows monthRows))).
  reflexivity.
Defined.

(** X5: when addTodayRow appends today's row to an initialized sheet, the
    new row has no exercise type and no beer count: the current exercise
    streak reads 0 until the row is filled in, the no-alcohol streak grows by
    one, and the longest exercise streak is unchanged. *)
Theorem fresh_row_resets_exercise_streak (now : Z) (w : World) (sheet : Sheet) :
  tracking w = Some sheet ->
  (1 <= getLastRow sheet)%nat ->
  countToday now sheet = O ->
  let w1 := snd (addTodayRow now w) in
  calculateExerciseStreak w1 = (Ok O, w1)
  /\ calculateNoAlcoholStreak w1
     = (Ok (S (noAlcoholStreakOf (recordsOf sheet))), w1)
  /\ calculateLongestExerciseStreak w1
     = (Ok (longestExerciseStreakOf (recordsOf sheet)), w1).
Proof.
  intros Hsheet Hinit Hcount w1. subst w1.
  rewrite (addTodayRow_found now w sheet Hsheet), Hcount.
  change (0 <? 0)%nat with false. cbv iota. cbn [snd].
  unfold calculateExerciseStreak, calculateNoAlcoholStreak,
    calculateLongestExerciseStreak.
  rewrite !reads_tracking_data. cbn [tracking setTracking].
  rewrite appended_records by exact Hinit.
  unfold exerciseStreakOf, noAlcoholStreakOf.
  rewrite !streakOf_snoc, longest_snoc.
  auto.
Qed.

Lemma fresh_row_resets_exercise_streak_witness :
  let now := jan 6 + hours 1 in
  let w1 := snd (addTodayRow now (worldOf gapRows)) in
  calculateExerciseStreak w1 = (Ok O, w1)
  /\ calculateLongestExerciseStreak w1 = (Ok 2%nat, w1).
Proof.
  intros now w1.
  destruct (fresh_row_resets_exercise_streak now (worldOf gapRows)
              (headerRow :: gapRows) eq_refl) as (Hcur & _ & Hlong).
  - vm_compute. lia.
  - vm_compute. reflexivity.
  - split; [exact Hcur | exact Hlong].
Defined.

Lemma recordsOf_no_rows (sheet : Sheet) :
  (getLastRow sheet <= 1)%nat -> recordsOf sheet = [].
Proof.
  intros Hlast. unfold recordsOf.
  destruct (getLastRow sheet) as [|[|n]]; [| |lia].
  - reflexivity.
  - destruct sheet; reflexivity.
Qed.

Section EmptySheet.

Variable numberToString : float -> string.

(** X6: on a sheet with nothing below the header row every streak is 0, the
    weekly summary is all zero with no average weight, and the monthly
    summary is all zero with a beer-free rate of "0". *)
Theorem no_records_zero_statistics (now : Z) (w : World) (sheet : Sheet) :
  tracking w = Some sheet ->
  (getLastRow sheet <= 1)%nat ->
  calculateExerciseStreak w = (Ok O, w)
  /\ calculateNoAlcoholStreak w = (Ok O, w)
  /\ calculateLongestExerciseStreak w = (Ok O, w)
  /\ getWeekStats_ now w = (Ok (WeekStats.mk O 0 0 None), w)
  /\ getMonthStats_ numberToString now w = (Ok (MonthStats.mk O O "0"), w).
Proof.
  intros Hsheet Hlast.
  unfold calculateExerciseStreak, calculateNoAlcoholStreak,
    calculateLongestExerciseStreak, getWeekStats_, getMonthStats_.
  rewrite !reads_tracking_data, Hsheet, (recordsOf_no_rows sheet Hlast).
  repeat split.
Qed.

End EmptySheet.

Lemma no_records_zero_statistics_witness :
  getMonthStats_ wholeNumberToString (jan 9) (worldOf [])
  = (Ok (MonthStats.mk O O "0"), worldOf []).
Proof.
  destruct (no_records_zero_statistics wholeNumberToString (jan 9) (worldOf [])
              [headerRow] eq_refl)
    as (_ & _ & _ & _ & Hmonth).
  - vm_compute. lia.
  - exact Hmonth.
Defined.

(** ** Windows and averages *)

Lemma normalizeDate_dayNumber (d : Z) : normalizeDate_ d = msPerDay * dayNumber d.
Proof. apply setHours0_dayNumber. Qed.

Lemma thirtyDaysAgoOf_dayNumber (now : Z) :
  thirtyDaysAgoOf now = msPerDay * (dayNumber now - 30).
Proof.
  unfold thirtyDaysAgoOf. rewrite setHours0_dayNumber, dayNumber_setDateBack.
  reflexivity.
Qed.

(** Against a window starting at midnight of day [k], a row is counted when
    its date cell holds a date of day [k] or later. *)
Lemma onOrAfter_day_iff (k : Z) (r : Row) :
  onOrAfter (msPerDay * k) r = true
  <-> exists d, cell r DATE = CDate d /\ k <= dayNumber d.
Proof.
  unfold onOrAfter. destruct (cell r DATE) as [d| | | |].
  - rewrite normalizeDate_dayNumber, negb_true_iff, Z.ltb_ge.
    unfold msPerDay. split.
    + intros Hle. exists d. split; [reflexivity | lia].
    + intros (d' & [= <-] & Hle). lia.
  - split; [discriminate | intros (d' & Hd & _); discriminate].
  - split; [discriminate | intros (d' & Hd & _); discriminate].
  - split; [discriminate | intros (d' & Hd & _); discriminate].
  - split; [discriminate | intros (d' & Hd & _); discriminate].
Qed.

Section MonthWindow.

Variable numberToString : float -> string.

(** X7: getMonthStats_ counts exactly the rows whose date cell holds a date
    falling on the calendar day 30 days before today or on any later day, so
    the window spans 31 calendar days up to today and has no upper bound;
    rows whose date cell is not a date are never counted. *)
Theorem month_window_reaches_back_thirty_days (now : Z) (data : list Row) :
  let window := List.filter (onOrAfter (thirtyDaysAgoOf now)) data in
  (forall r : Row,
      onOrAfter (thirtyDaysAgoOf now) r = true
      <-> exists d, cell r DATE = CDate d /\ dayNumber now - 30 <= dayNumber d)
  /\ monthStatsOf numberToString now data
     = MonthStats.mk (length (List.filter isExerciseDay window))
                     (length (List.filter isNoAlcoholDay window))
                     (beerFreeRateOf numberToString
                                     (length (List.filter isNoAlcoholDay window))
                                     (length window)).
Proof.
  intros window. split.
  - intros r. rewrite thirtyDaysAgoOf_dayNumber. apply onOrAfter_day_iff.
  - unfold monthStatsOf. rewrite monthLoop_window. reflexivity.
Qed.

Lemma filter_length_le_implied {A : Type} (p q : A -> bool) (l : list A) :
  (forall x, p x = true -> q x = true) ->
  (length (List.filter p l) <= length (List.filter q l))%nat.
Proof.
  intros Himp. induction l as [|x l IH]; simpl; [lia|].
  destruct (p x) eqn:Hp.
  - rewrite (Himp x Hp). simpl. lia.
  - destruct (q x); simpl; lia.
Qed.

Lemma filter_filter_swap {A : Type} (p q : A -> bool) (l : list A) :
  List.filter p (List.filter q l) = List.filter q (List.filter p l).
Proof.
  induction l as [|x l IH]; simpl; [reflexivity|].
  destruct (p x) eqn:Hp, (q x) eqn:Hq; simpl; rewrite ?Hp, ?Hq, IH; reflexivity.
Qed.

Lemma week_row_is_month_row (now : Z) (r : Row) :
  onOrAfter (mondayOf now) r = true -> onOrAfter (thirtyDaysAgoOf now) r = true.
Proof.
  rewrite mondayOf_dayNumber, thirtyDaysAgoOf_dayNumber, !onOrAfter_day_iff.
  intros (d & Hd & Hle). exists d. split; [exact Hd|].
  assert (0 <= getDay now < 7) by (unfold getDay; apply Z.mod_pos_bound; lia).
  destruct (getDay now =? 0); lia.
Qed.

(** X8: every row that getWeekStats_ aggregates is aggregated by
    getMonthStats_ too, so on the same sheet and the same day the week never
    shows more exercise days than the last 30 days. *)
Theorem week_lies_within_month (now : Z) (data : list Row) :
  (forall r : Row,
      onOrAfter (mondayOf now) r = true ->
      onOrAfter (thirtyDaysAgoOf now) r = true)
  /\ (WeekStats.exerciseDays (weekStatsOf now data)
      <= MonthStats.exerciseDays (monthStatsOf numberToString now data))%nat.
Proof.
  split; [apply week_row_is_month_row|].
  rewrite weekExerciseDays_window.
  unfold monthStatsOf. rewrite monthLoop_window.
  cbn [monthResult MonthStats.exerciseDays accMExerciseDays].
  rewrite (filter_filter_swap isExerciseDay (onOrAfter (mondayOf now))).
  rewrite (filter_filter_swap isExerciseDay (onOrAfter (thirtyDaysAgoOf now))).
  apply filter_length_le_implied, week_row_is_month_row.
Qed.


(** X9: getMonthStats_ never reports more exercise days or no-alcohol days
    than rows in its window; when every row of a non-empty window is a
    no-alcohol day the beer-free rate is "100", and when none is it is
    "0". *)
Theorem month_counts_within_window (now : Z) (data : list Row) :
  let totalDays := accTotalDays (monthLoop now data) in
  let stats := monthStatsOf numberToString now data in
  (MonthStats.exerciseDays stats <= totalDays)%nat
  /\ (MonthStats.noAlcoholDays stats <= totalDays)%nat
  /\ ((0 < totalDays)%nat -> MonthStats.noAlcoholDays stats = totalDays ->
      MonthStats.beerFreeRate stats = "100")
  /\ (MonthStats.noAlcoholDays stats = O -> MonthStats.beerFreeRate stats = "0").
Proof.
  intros totalDays stats. subst totalDays stats.
  unfold monthStatsOf. rewrite monthLoop_window. cbv zeta.
  set (window := List.filter (onOrAfter (thirtyDaysAgoOf now)) data).
  cbn [monthResult MonthStats.exerciseDays MonthStats.noAlcoholDays
       MonthStats.beerFreeRate accMExerciseDays accNoAlcoholDays accTotalDays].
  split; [apply filter_length_le|]. split; [apply filter_length_le|]. split.
  - intros Hpos Hall. rewrite Hall. unfold beerFreeRateOf, rateOf.
    destruct (Nat.ltb_spec 0 (length window)) as [_|]; [|lia].
    destruct (numOfNat_finite (length window) Hpos) as (m & e & Hfin).
    rewrite (div_self_finite _ _ _ _ Hfin). reflexivity.
  - intros Hnone. rewrite Hnone. unfold beerFreeRateOf, rateOf.
    destruct (Nat.ltb_spec 0 (length window)) as [Hpos|]; [|reflexivity].
    destruct (numOfNat_finite (length window) Hpos) as (m & e & Hfin).
    change (numOfNat 0) with 0%float.
    rewrite (zero_div_finite _ _ _ Hfin). reflexivity.
Qed.

End MonthWindow.

Lemma week_lies_within_month_witness :
  onOrAfter (thirtyDaysAgoOf (jan 10)) (record (jan 9) "Gym") = true.
Proof.
  apply (proj1 (week_lies_within_month wholeNumberToString (jan 10) [])).
  reflexivity.
Defined.

Lemma month_counts_within_window_witness :
  MonthStats.beerFreeRate
    (monthStatsOf wholeNumberToString (jan 31)
       [record (jan 4) "Gym"; record (jan 5) ""]) = "100".
Proof.
  destruct (month_counts_within_window wholeNumberToString (jan 31)
              [record (jan 4) "Gym"; record (jan 5) ""]) as (_ & _ & Hall & _).
  apply Hall.
  - vm_compute. lia.
  - reflexivity.
Defined.

Lemma weightsOf_In (r : Row) (x : float) :
  In x (weightsOf r) <-> cell r WEIGHT = CNum x /\ (0 <? x)%float = true.
Proof.
  unfold weightsOf. destruct (cell r WEIGHT) as [d|q|s|b|].
  - split; [intros [] | intros [H _]; discriminate].
  - destruct (0 <? q)%float eqn:Hq.
    + split.
      * intros [<-|[]]. split; [reflexivity | exact Hq].
      * intros [[= ->] _]. left. reflexivity.
    + split; [intros []|]. intros [[= ->] Hpos]. congruence.
  - split; [intros [] | intros [H _]; discriminate].
  - split; [intros [] | intros [H _]; discriminate].
  - split; [intros [] | intros [H _]; discriminate].
Qed.

Lemma collected_weight_iff (start : Z) (data : list Row) (x : float) :
  In x (flat_map weightsOf (List.filter (onOrAfter start) data))
  <-> exists r, In r data /\ onOrAfter start r = true
                /\ cell r WEIGHT = CNum x /\ (0 <? x)%float = true.
Proof.
  rewrite in_flat_map. split.
  - intros (r & Hin & Hx). apply List.filter_In in Hin as [Hin Hwin].
    apply weightsOf_In in Hx. exists r. tauto.
  - intros (r & Hin & Hwin & Hx). exists r. split.
    + apply List.filter_In. tauto.
    + apply weightsOf_In. exact Hx.
Qed.

(** X10: getWeekStats_ averages exactly the weights that are numbers above 0
    in rows of the week window, taken in stored order.  The average is null
    exactly when there is no such row; otherwise it is the sum of these
    weights, added up from 0 in stored order, divided by their count. *)
Theorem average_weight_of_week (now : Z) (data : list Row) :
  let weights :=
    flat_map weightsOf (List.filter (onOrAfter (mondayOf now)) data) in
  (forall x : float,
      In x weights
      <-> exists r, In r data /\ onOrAfter (mondayOf now) r = true
                    /\ cell r WEIGHT = CNum x /\ (0 <? x)%float = true)
  /\ (WeekStats.avgWeight (weekStatsOf now data) = None
      <-> forall r, In r data -> ~ weighsIn (mondayOf now) r)
  /\ (WeekStats.avgWeight (weekStatsOf now data) = None <-> weights = [])
  /\ (forall avg : float,
        WeekStats.avgWeight (weekStatsOf now data) = Some avg ->
        (0 < length weights)%nat
        /\ avg = (fold_left PrimFloat.add weights 0
                  / numOfNat (length weights))%float).
Proof.
  intros weights.
  assert (Hws : forall x, In x weights <->
                  exists r, In r data /\ onOrAfter (mondayOf now) r = true
                            /\ cell r WEIGHT = CNum x /\ (0 <? x)%float = true)
    by (intros; apply collected_weight_iff).
  assert (Havg : WeekStats.avgWeight (weekStatsOf now data) = average weights)
    by (rewrite weekStatsOf_summary; reflexivity).
  rewrite Havg. unfold average.
  split; [exact Hws|]. split; [|split].
  - destruct weights as [|x ws'] eqn:Hlist.
    + split; [|reflexivity]. intros _ r Hin (Hwin & weight & Hcell & Hpos).
      apply (proj2 (Hws weight)). eauto.
    + split; [discriminate|]. intros Hnone. exfalso.
      destruct (proj1 (Hws x) (or_introl eq_refl)) as (r & Hin & Hwin & Hcell & Hpos).
      apply (Hnone r Hin). split; [exact Hwin | eauto].
  - destruct weights; [tauto|]. split; discriminate.
  - intros avg. destruct (Nat.ltb_spec 0 (length weights)) as [Hn|]; [|discriminate].
    intros [= <-]. split; [exact Hn | reflexivity].
Qed.

Lemma average_weight_of_week_witness :
  WeekStats.avgWeight (weekStatsOf (jan 5) weighInRows) = Some 73.45%float
  /\ 73.45%float = ((0 + 82.5 + 68.3 + 65.6 + 77.4) / 4)%float.
Proof.
  destruct (average_weight_of_week (jan 5) weighInRows) as (_ & _ & _ & Hsome).
  destruct (Hsome 73.45%float eq_refl) as [_ Havg].
  split; [reflexivity | exact Havg].
Defined.

(** ** Handlers, the lock and the marker *)

Lemma addTodayRow_under_lock (now : Z) (w : World) :
  addTodayRow now (setLock true w)
  = (fst (addTodayRow now w), setLock true (snd (addTodayRow now w))).
Proof.
  destruct w as [tr props lock mail].
  unfold addTodayRow, bind, getTrackingSheet_, setLock. cbn [tracking].
  destruct tr as [sheet|]; [|reflexivity].
  destruct (todayRowExists _ _); reflexivity.
Qed.

Lemma addTodayRow_keeps_lock (now : Z) (w : World) :
  scriptLock (snd (addTodayRow now w)) = scriptLock w.
Proof.
  unfold addTodayRow, bind, getTrackingSheet_.
  destruct (tracking w) as [sheet|]; [|reflexivity].
  destruct (todayRowExists _ _); reflexivity.
Qed.

Lemma dailyAutoAddRow_runs (now : Z) (w : World) :
  dailyAutoAddRow now w
  = if scriptLock w then (Ok tt, w) else addTodayRow now w.
Proof.
  unfold dailyAutoAddRow, bind at 1, tryLock.
  destruct (scriptLock w) eqn:Hlock; [reflexivity|].
  cbn [negb]. unfold finally. rewrite addTodayRow_under_lock.
  pose proof (addTodayRow_keeps_lock now w) as Hkeep.
  destruct (addTodayRow now w) as [r w1]. cbn [fst snd] in *.
  f_equal. destruct w1 as [tr props lock mail]. cbn in Hkeep.
  unfold releaseLock, setLock. cbn. congruence.
Qed.

(** X11: the two trigger handlers that take the script lock never leave it
    taken: after dailyAutoAddRow or sendDailyReminder, whether they return
    or throw, the lock is as it was found.  When another execution holds the
    lock both return without any effect; with the lock free dailyAutoAddRow
    does what addTodayRow does. *)
Theorem handlers_leave_lock_as_found (now : Z) (run : Run) (w : World) :
  scriptLock (snd (dailyAutoAddRow now w)) = scriptLock w
  /\ scriptLock (snd (sendDailyReminder run w)) = scriptLock w
  /\ (scriptLock w = true ->
      dailyAutoAddRow now w = (Ok tt, w) /\ sendDailyReminder run w = (Ok tt, w))
  /\ (scriptLock w = false -> dailyAutoAddRow now w = addTodayRow now w).
Proof.
  rewrite dailyAutoAddRow_runs, sendDailyReminder_runs.
  destruct (scriptLock w) eqn:Hlock.
  - repeat split; auto. discriminate.
  - split; [rewrite addTodayRow_keeps_lock; exact Hlock|].
    split; [|split; [discriminate | reflexivity]].
    destruct (bool_decide _); [exact Hlock|].
    destruct (tracking w); [|exact Hlock].
    destruct (todayFilledIn _ _ _); [exact Hlock|].
    destruct (mailDelivers run); [reflexivity | exact Hlock].
Qed.

Lemma handlers_leave_lock_as_found_witness :
  let w := mkWorld None ∅ false [] in
  dailyAutoAddRow (jan 3) w = (Throw SheetNotFound, w)
  /\ scriptLock (snd (dailyAutoAddRow (jan 3) w)) = false.
Proof.
  intros w.
  destruct (handlers_leave_lock_as_found (jan 3) (sampleRun (jan 3) true) w)
    as (Hlock & _ & _ & Hfree).
  split; [rewrite Hfree; reflexivity | exact Hlock].
Defined.

(** X12: sendDailyReminder never writes to the Tracking sheet and leaves
    every script property other than lastReminderDate as it was; the mail it
    adds, if any, is the one reminder addressed to the effective user with
    the two current streaks of the sheet. *)
Theorem reminder_touches_only_marker_and_mail (run : Run) (w : World) :
  let w' := snd (sendDailyReminder run w) in
  tracking w' = tracking w
  /\ (forall key : string,
        key <> lastReminderDate ->
        scriptProperties w' !! key = scriptProperties w !! key)
  /\ (sentMail w' = sentMail w
      \/ exists sheet : Sheet,
           tracking w = Some sheet
           /\ sentMail w'
              = sentMail w
                ++ [mkEmail (userEmail run) "Habit Tracker: Record Today's Habits"
                            (mailBody (reminderMail run
                                         (exerciseStreakOf (recordsOf sheet))
                                         (noAlcoholStreakOf (recordsOf sheet))))]).
Proof.
  intros w'. subst w'.
  destruct (reminder_outcomes run w) as [[Hsame _]|(sheet & Hsheet & _ & Hrun)].
  - rewrite Hsame. auto.
  - rewrite Hrun. cbn [snd afterReminder tracking scriptProperties sentMail].
    split; [reflexivity|]. split.
    + intros key Hkey. apply lookup_insert_ne. congruence.
    + right. exists sheet. split; [exact Hsheet | reflexivity].
Qed.

(** X13: a reminder that is due is sent: with the lock free, the marker not
    set to today (unset, or left from another day), the Tracking sheet
    present with content in at least two columns, no first record of today
    with an exercise type, and a working transport, sendDailyReminder
    delivers the mail and sets the marker to today.  On a sheet of any width
    without a record of today the mail is sent too.  On a sheet with content
    in its first column only, a record of today stops the reminder: nothing
    is sent and nothing is written. *)
Theorem reminder_sent_when_due (run : Run) (w : World) (sheet : Sheet) :
  let today := formatDate (now run) in
  scriptLock w = false ->
  scriptProperties w !! lastReminderDate <> Some today ->
  tracking w = Some sheet ->
  mailDelivers run = true ->
  ((2 <= getLastColumn sheet)%nat ->
   ~ todayRecorded today (recordsOf sheet) ->
   sendDailyReminder run w = (Ok tt, afterReminder run w sheet))
  /\ (Forall (fun r => isRecordOf today r = false) (recordsOf sheet) ->
      sendDailyReminder run w = (Ok tt, afterReminder run w sheet))
  /\ ((getLastColumn sheet <= 1)%nat ->
      Exists (fun r => isRecordOf today r = true) (recordsOf sheet) ->
      sendDailyReminder run w = (Ok tt, w)).
Proof.
  intros today Hlock Hmark Hsheet Hmail.
  rewrite sendDailyReminder_runs, Hlock, Hsheet, Hmail.
  rewrite bool_decide_eq_false_2 by exact Hmark.
  split; [|split].
  - intros Hwide Hrec.
    destruct (todayFilledIn _ _ _) eqn:Hscan; [|reflexivity].
    exfalso. apply Hrec. now apply (todayFilledIn_iff (getLastColumn sheet)).
  - intros Hnone. now rewrite todayFilledIn_none.
  - intros Hnarrow Hsome. rewrite todayFilledIn_narrow by exact Hnarrow.
    assert (Hfound : existsb (isRecordOf (formatDate (now run))) (recordsOf sheet)
                     = true).
    { apply existsb_exists. apply List.Exists_exists in Hsome. exact Hsome. }
    rewrite Hfound. reflexivity.
Qed.

Lemma reminder_sent_when_due_witness :
  let w := worldOf [record (jan 2) "Gym"] in
  let run := sampleRun (jan 3 + hours 21) true in
  sendDailyReminder run w
  = (Ok tt, afterReminder run w [headerRow; record (jan 2) "Gym"]).
Proof.
  intros w run.
  destruct (reminder_sent_when_due run w [headerRow; record (jan 2) "Gym"])
    as (_ & Hnone & _).
  - reflexivity.
  - vm_compute. discriminate.
  - reflexivity.
  - reflexivity.
  - apply Hnone. repeat constructor.
Defined.

(** A sheet holding dates in column A and nothing else: the data range is
    one column wide, the exercise cell of today's row reads [undefined], and
    the reminder is held back although nothing was recorded. *)
Example reminder_on_first_column_only :
  let now := jan 2 + hours 21 in
  let w := mkWorld (Some [dateOnlyRow (jan 1); dateOnlyRow (jan 2)]) ∅ false [] in
  getDataRangeValues [dateOnlyRow (jan 1); dateOnlyRow (jan 2)]
  = [[CDate (jan 1)]; [CDate (jan 2)]]
  /\ sendDailyReminder (sampleRun now true) w = (Ok tt, w).
Proof. vm_compute. split; reflexivity. Qed.

Lemma reminder_touches_only_marker_and_mail_witness :
  let w := mkWorld (Some [headerRow]) {[ "owner" := "me" ]} false [] in
  scriptProperties (snd (sendDailyReminder (sampleRun (jan 3) true) w)) !! "owner"
  = Some "me".
Proof.
  intros w.
  destruct (reminder_touches_only_marker_and_mail (sampleRun (jan 3) true) w)
    as (_ & Hprops & _).
  rewrite Hprops; [reflexivity | discriminate].
Defined.

(** ** One record per day *)

Lemma count_by_keys (today : string) (rows : list Row) :
  length (List.filter (isRecordOf today) rows)
  = length (List.filter (fun key => String.eqb key today) (omap dayKeyOf rows)).
Proof.
  induction rows as [|r rows IH]; [reflexivity|].
  cbn [List.filter omap list_omap]. unfold isRecordOf at 1, dayKeyOf at 1.
  destruct (cell r DATE) as [d| | | |]; try exact IH.
  cbn [List.filter]. destruct (String.eqb (formatDate d) today); simpl; lia.
Qed.

Lemma countToday_keys (now : Z) (sheet : Sheet) :
  countToday now sheet
  = length (List.filter (fun key => String.eqb key (formatDate now)) (dayKeys sheet)).
Proof. apply count_by_keys. Qed.

Lemma count_key_absent (key : string) (keys : list string) :
  key ∉ keys ->
  length (List.filter (fun k => String.eqb k key) keys) = O.
Proof.
  induction keys as [|k keys IH]; intros Hnot; [reflexivity|].
  apply not_elem_of_cons in Hnot as [Hne Hnot].
  cbn [List.filter]. destruct (String.eqb_spec k key); [congruence|].
  now apply IH.
Qed.

Lemma count_key_present (key : string) (keys : list string) :
  key ∈ keys ->
  (1 <= length (List.filter (fun k => String.eqb k key) keys))%nat.
Proof.
  induction keys as [|k keys IH]; intros Hin; [now apply elem_of_nil in Hin|].
  cbn [List.filter]. destruct (String.eqb_spec k key); [simpl; lia|].
  apply elem_of_cons in Hin as [->|Hin]; [congruence | now apply IH].
Qed.

Lemma count_key_NoDup (key : string) (keys : list string) :
  NoDup keys -> key ∈ keys ->
  length (List.filter (fun k => String.eqb k key) keys) = 1%nat.
Proof.
  induction 1 as [|k keys Hfresh Hnodup IH]; intros Hin;
    [now apply elem_of_nil in Hin|].
  cbn [List.filter]. destruct (String.eqb_spec k key) as [->|Hne].
  - cbn [length]. now rewrite count_key_absent.
  - apply elem_of_cons in Hin as [->|Hin]; [congruence | now apply IH].
Qed.

Lemma dayKeys_appended (now : Z) (sheet : Sheet) :
  (1 <= getLastRow sheet)%nat ->
  dayKeys (setValue (S (getLastRow sheet)) DATE (CDate now) sheet)
  = dayKeys sheet ++ [formatDate now].
Proof.
  intros Hinit. unfold dayKeys.
  rewrite appended_records by exact Hinit.
  rewrite omap_app. reflexivity.
Qed.

(** One step of the invariant: what [addTodayRow] leaves behind. *)
Lemma addTodayRow_step (now : Z) (w : World) (sheet : Sheet) :
  tracking w = Some sheet ->
  (1 <= getLastRow sheet)%nat ->
  oneRecordPerDay sheet ->
  exists sheet' : Sheet,
    addTodayRow now w = (Ok tt, setTracking sheet' w)
    /\ (1 <= getLastRow sheet')%nat
    /\ oneRecordPerDay sheet'
    /\ formatDate now ∈ dayKeys sheet'
    /\ (forall key, key ∈ dayKeys sheet -> key ∈ dayKeys sheet')
    /\ exists added, recordsOf sheet' = recordsOf sheet ++ added.
Proof.
  intros Hsheet Hinit Hone.
  rewrite (addTodayRow_found now w sheet Hsheet).
  destruct (Nat.ltb_spec 0 (countToday now sheet)) as [Hsome|Hnone].
  - exists sheet. split.
    { destruct w as [tr props lock mail]. cbn in Hsheet. subst tr. reflexivity. }
    split; [exact Hinit|]. split; [exact Hone|]. split; [|split; [auto|]].
    + rewrite countToday_keys in Hsome.
      destruct (decide (formatDate now ∈ dayKeys sheet)) as [Hin|Hnot]; [exact Hin|].
      rewrite count_key_absent in Hsome by exact Hnot. lia.
    + exists []. now rewrite app_nil_r.
  - exists (setValue (S (getLastRow sheet)) DATE (CDate now) sheet).
    split; [reflexivity|].
    split; [destruct (appended_sheet now sheet) as [-> _]; lia|].
    unfold oneRecordPerDay. rewrite dayKeys_appended by exact Hinit.
    split; [|split; [|split]].
    + apply NoDup_app. split; [exact Hone|]. split; [|apply NoDup_singleton].
      intros key Hin Hnew. apply list_elem_of_singleton in Hnew. subst key.
      apply count_key_present in Hin. rewrite <- countToday_keys in Hin. lia.
    + apply elem_of_app. right. apply list_elem_of_singleton. reflexivity.
    + intros key Hin. apply elem_of_app. now left.
    + exists [dateOnlyRow now]. now apply appended_records.
Qed.

(** X14: addTodayRow keeps the store invariant: on an initialized sheet that
    has at most one record per calendar day, the sheet after the call still
    has at most one record per day and exactly one for today, and the
    records that were there are still there, in place, before anything
    added. *)
Theorem addTodayRow_keeps_one_record_per_day (now : Z) (w : World) (sheet : Sheet) :
  tracking w = Some sheet ->
  (1 <= getLastRow sheet)%nat ->
  oneRecordPerDay sheet ->
  exists sheet' : Sheet,
    addTodayRow now w = (Ok tt, setTracking sheet' w)
    /\ (1 <= getLastRow sheet')%nat
    /\ oneRecordPerDay sheet'
    /\ countToday now sheet' = 1%nat
    /\ exists added, recordsOf sheet' = recordsOf sheet ++ added.
Proof.
  intros Hsheet Hinit Hone.
  destruct (addTodayRow_step now w sheet Hsheet Hinit Hone)
    as (sheet' & Hrun & Hinit' & Hone' & Htoday & _ & Hkept).
  exists sheet'. repeat split; auto.
  rewrite countToday_keys. now apply count_key_NoDup.
Qed.

Lemma addTodayRow_keeps_one_record_per_day_witness :
  exists sheet' : Sheet,
    addTodayRow (jan 6) (worldOf gapRows) = (Ok tt, setTracking sheet' (worldOf gapRows))
    /\ oneRecordPerDay sheet'
    /\ countToday (jan 6) sheet' = 1%nat.
Proof.
  destruct (addTodayRow_keeps_one_record_per_day (jan 6) (worldOf gapRows)
              (headerRow :: gapRows) eq_refl)
    as (sheet' & Hrun & _ & Hone & Hcount & _).
  - vm_compute. lia.
  - unfold oneRecordPerDay. vm_compute.
    repeat (apply NoDup_cons_2 || apply NoDup_nil_2);
      rewrite ?elem_of_cons, ?elem_of_nil; intuition discriminate.
  - exists sheet'. auto.
Defined.

Lemma atEach_daily_rows (ticks : list Z) (w : World) (sheet : Sheet) :
  tracking w = Some sheet ->
  scriptLock w = false ->
  (1 <= getLastRow sheet)%nat ->
  oneRecordPerDay sheet ->
  exists sheet' : Sheet,
    atEach dailyAutoAddRow ticks w = (Ok tt, setTracking sheet' w)
    /\ (1 <= getLastRow sheet')%nat
    /\ oneRecordPerDay sheet'
    /\ (forall key, key ∈ dayKeys sheet -> key ∈ dayKeys sheet')
    /\ (forall t, In t ticks -> formatDate t ∈ dayKeys sheet')
    /\ exists added, recordsOf sheet' = recordsOf sheet ++ added.
Proof.
  revert w sheet. induction ticks as [|t ticks IH]; intros w sheet Hsheet Hlock Hinit Hone.
  - exists sheet. split.
    { destruct w as [tr props lock mail]. cbn in Hsheet. subst tr. reflexivity. }
    repeat split; auto.
    + intros t [].
    + exists []. now rewrite app_nil_r.
  - destruct (addTodayRow_step t w sheet Hsheet Hinit Hone)
      as (s1 & Hrun & Hinit1 & Hone1 & Htoday & Hkeys1 & added1 & Hrec1).
    destruct (IH (setTracking s1 w) s1 eq_refl Hlock Hinit1 Hone1)
      as (s2 & Hrest & Hinit2 & Hone2 & Hkeys2 & Hticks & added2 & Hrec2).
    exists s2. split.
    { cbn [atEach]. unfold bind.
      rewrite dailyAutoAddRow_runs, Hlock, Hrun, Hrest. reflexivity. }
    repeat split; auto.
    + intros t' [<-|Hin]; [apply Hkeys2, Htoday | now apply Hticks].
    + exists (added1 ++ added2). rewrite Hrec2, Hrec1, app_assoc. reflexivity.
Qed.

(** X15: the daily trigger builds a log with one row per day.  Running
    dailyAutoAddRow at any sequence of times, with the lock free, on an
    initialized sheet that has at most one record per calendar day, returns
    normally every time, keeps at most one record per day, leaves exactly one
    record for the day of each run, and only adds rows below the existing
    records. *)
Theorem daily_trigger_builds_one_row_per_day (ticks : list Z) (w : World) (sheet : Sheet) :
  tracking w = Some sheet ->
  scriptLock w = false ->
  (1 <= getLastRow sheet)%nat ->
  oneRecordPerDay sheet ->
  exists sheet' : Sheet,
    atEach dailyAutoAddRow ticks w = (Ok tt, setTracking sheet' w)
    /\ oneRecordPerDay sheet'
    /\ (forall t, In t ticks -> countToday t sheet' = 1%nat)
    /\ exists added, recordsOf sheet' = recordsOf sheet ++ added.
Proof.
  intros Hsheet Hlock Hinit Hone.
  destruct (atEach_daily_rows ticks w sheet Hsheet Hlock Hinit Hone)
    as (sheet' & Hrun & _ & Hone' & _ & Hticks & Hkept).
  exists sheet'. repeat split; auto.
  intros t Hin. rewrite countToday_keys.
  apply count_key_NoDup; [exact Hone' | now apply Hticks].
Qed.

Lemma daily_trigger_builds_one_row_per_day_witness :
  let ticks := [jan 6; jan 6 + hours 5; jan 7; jan 8 + hours 1] in
  exists sheet' : Sheet,
    atEach dailyAutoAddRow ticks (worldOf []) = (Ok tt, setTracking sheet' (worldOf []))
    /\ countToday (jan 6) sheet' = 1%nat
    /\ countToday (jan 8) sheet' = 1%nat.
Proof.
  intros ticks.
  destruct (daily_trigger_builds_one_row_per_day ticks (worldOf []) [headerRow]
              eq_refl eq_refl)
    as (sheet' & Hrun & _ & Hcount & _).
  - vm_compute. lia.
  - unfold oneRecordPerDay. vm_compute. apply NoDup_nil_2.
  - exists sheet'. split; [exact Hrun|]. split.
    + apply Hcount. now left.
    + rewrite <- (Hcount (jan 8 + hours 1)) by (right; right; right; now left).
      unfold countToday. f_equal.
Defined.

Example daily_trigger_on_sample :
  recordsOf
    (default [] (tracking (snd (atEach dailyAutoAddRow
                                  [jan 6; jan 6 + hours 5; jan 7] (worldOf [])))))
  = [dateOnlyRow (jan 6); dateOnlyRow (jan 7)].
Proof. vm_compute. reflexivity. Qed.

(** ** Triggers, dashboard, weekly summary, initialization *)

Lemma count_habit_handler_filtered (name : string) (ts : list Trigger) :
  isHabitHandler (mkTrigger name (EveryDaysAtHour 1 0)) = true ->
  List.filter (fun t => String.eqb (handlerFunction t) name)
              (List.filter (fun t => negb (isHabitHandler t)) ts) = [].
Proof.
  intros Hname. induction ts as [|t ts IH]; [reflexivity|].
  cbn [List.filter]. destruct (isHabitHandler t) eqn:Ht; cbn [negb]; [exact IH|].
  cbn [List.filter]. destruct (String.eqb_spec (handlerFunction t) name) as [Heq|_];
    [|exact IH].
  exfalso. unfold isHabitHandler in *. cbn [handlerFunction] in Hname.
  rewrite Heq in Ht. congruence.
Qed.

Lemma filter_idem {A : Type} (p : A -> bool) (l : list A) :
  List.filter p (List.filter p l) = List.filter p l.
Proof.
  induction l as [|x l IH]; [reflexivity|].
  cbn [List.filter]. destruct (p x) eqn:Hp; cbn [List.filter]; rewrite ?Hp, IH; reflexivity.
Qed.

(** X16: after setupTriggers the project has exactly one trigger for each of
    dailyAutoAddRow (every day at hour 0), sendDailyReminder (every day at
    hour 21) and sendWeeklySummary (Mondays at hour 8), whatever triggers of
    these handlers existed before; the triggers of other handlers are kept;
    running it again changes no trigger. *)
Theorem setupTriggers_one_trigger_each (b : Book) :
  let b' := snd (setupTriggers b) in
  fst (setupTriggers b) = Ok tt
  /\ List.filter (fun t => String.eqb (handlerFunction t) "dailyAutoAddRow") (triggers b')
     = [mkTrigger "dailyAutoAddRow" (EveryDaysAtHour 1 0)]
  /\ List.filter (fun t => String.eqb (handlerFunction t) "sendDailyReminder") (triggers b')
     = [mkTrigger "sendDailyReminder" (EveryDaysAtHour 1 21)]
  /\ List.filter (fun t => String.eqb (handlerFunction t) "sendWeeklySummary") (triggers b')
     = [mkTrigger "sendWeeklySummary" (OnWeekDayAtHour MONDAY 8)]
  /\ List.filter (fun t => negb (isHabitHandler t)) (triggers b')
     = List.filter (fun t => negb (isHabitHandler t)) (triggers b)
  /\ triggers (snd (setupTriggers b')) = triggers b'
  /\ world b' = world b
  /\ dashboard b' = dashboard b.
Proof.
  intros b'. subst b'.
  unfold setupTriggers, bindA, alert. cbn [fst snd triggers world dashboard].
  split; [reflexivity|].
  rewrite !List.filter_app.
  rewrite !count_habit_handler_filtered by reflexivity.
  rewrite filter_idem.
  repeat split; try reflexivity.
  - apply app_nil_r.
  - cbn [List.filter newTriggers isHabitHandler handlerFunction String.eqb
         Ascii.eqb Bool.eqb orb negb app].
    rewrite app_nil_r. reflexivity.
Qed.

Section WorkbookProperties.

Variable numberToString : float -> string.

Lemma setWorld_same (b : Book) : setWorld (world b) b = b.
Proof. destruct b. reflexivity. Qed.

Lemma liftScript_reads {A : Type} (f : list Row -> A) (b : Book) :
  liftScript (data <- getTrackingData_ ;; ret (f data)) b
  = match tracking (world b) with
    | Some sheet => (Ok (f (recordsOf sheet)), b)
    | None => (Throw SheetNotFound, b)
    end.
Proof.
  unfold liftScript. rewrite reads_tracking_data.
  destruct (tracking (world b)); rewrite setWorld_same; reflexivity.
Qed.

Lemma liftScript_getTrackingData (b : Book) :
  liftScript getTrackingData_ b
  = match tracking (world b) with
    | Some sheet => (Ok (recordsOf sheet), b)
    | None => (Throw SheetNotFound, b)
    end.
Proof.
  unfold liftScript. destruct (tracking (world b)) as [sheet|] eqn:Hsheet.
  - rewrite (getTrackingData_found _ sheet Hsheet), setWorld_same. reflexivity.
  - rewrite (getTrackingData_missing _ Hsheet), setWorld_same. reflexivity.
Qed.

(** What [buildDashboard_] does: nothing is written when the Tracking sheet
    is missing. *)
Lemma buildDashboard_runs (now : Z) (b : Book) :
  buildDashboard_ numberToString now b
  = match tracking (world b) with
    | Some sheet =>
        (Ok tt, setDashboard
                  (paintDashboard numberToString now (recordsOf sheet) <$> dashboard b) b)
    | None => (Throw SheetNotFound, b)
    end.
Proof.
  unfold buildDashboard_.
  unfold calculateExerciseStreak, calculateNoAlcoholStreak,
    calculateLongestExerciseStreak, getWeekStats_, getMonthStats_.
  unfold bindA at 1. rewrite liftScript_getTrackingData.
  destruct b as [w d s o t a]. cbn [world].
  destruct (tracking w) as [sheet|] eqn:Hsheet; [|reflexivity].
  unfold bindA, setDash, setDashValues, setDashboard.
  cbn [world dashboard defaultSheet otherSheets triggers alerts].
  repeat (rewrite liftScript_reads;
          cbn [world dashboard defaultSheet otherSheets triggers alerts];
          rewrite Hsheet).
  destruct d as [d|]; reflexivity.
Qed.

Lemma updateDashboard_runs (now : Z) (b : Book) :
  updateDashboard numberToString now b
  = match tracking (world b) with
    | Some sheet =>
        (Ok tt, setDashboard
                  (Some (paintDashboard numberToString now (recordsOf sheet) ∅)) b)
    | None => (Throw SheetNotFound, setDashboard (Some ∅) b)
    end.
Proof.
  unfold updateDashboard, bindA, ensureDashboard, clearDashboard.
  rewrite buildDashboard_runs.
  destruct b as [w d s o t a]. destruct d as [d|];
    cbn [world dashboard setDashboard defaultSheet otherSheets triggers alerts];
    destruct (tracking w); reflexivity.
Qed.


(** X17: updateDashboard repaints the Dashboard from the records alone: with
    the Tracking sheet present it returns normally, leaves the world
    untouched, produces the same Dashboard whatever the Dashboard held
    before (or if there was none), shows the three streaks of the sheet in
    B5, B6 and B7, and running it again at the same time changes nothing. *)
Theorem updateDashboard_repaints_from_records (now : Z) (b : Book) (sheet : Sheet) :
  tracking (world b) = Some sheet ->
  let b' := snd (updateDashboard numberToString now b) in
  fst (updateDashboard numberToString now b) = Ok tt
  /\ world b' = world b
  /\ (forall previous : option Dashboard,
        dashboard (snd (updateDashboard numberToString now (setDashboard previous b)))
        = dashboard b')
  /\ updateDashboard numberToString now b' = (Ok tt, b')
  /\ exists cells : Dashboard,
       dashboard b' = Some cells
       /\ cells !! (5%nat, 2%nat) = Some (CStr (days (exerciseStreakOf (recordsOf sheet))))
       /\ cells !! (6%nat, 2%nat) = Some (CStr (days (noAlcoholStreakOf (recordsOf sheet))))
       /\ cells !! (7%nat, 2%nat)
          = Some (CStr (days (longestExerciseStreakOf (recordsOf sheet)))).
Proof.
  intros Hsheet b'.
  assert (Hrun : forall previous,
             updateDashboard numberToString now (setDashboard previous b)
             = (Ok tt, setDashboard
                         (Some (paintDashboard numberToString now (recordsOf sheet) ∅)) b)).
  { intros previous. rewrite updateDashboard_runs. cbn [world setDashboard].
    rewrite Hsheet. reflexivity. }
  assert (Hb : updateDashboard numberToString now b
               = (Ok tt, setDashboard
                           (Some (paintDashboard numberToString now (recordsOf sheet) ∅)) b)).
  { rewrite updateDashboard_runs, Hsheet. reflexivity. }
  subst b'. rewrite Hb. cbn [fst snd].
  split; [reflexivity|]. split; [reflexivity|].
  split; [|split].
  - intros previous. rewrite Hrun. reflexivity.
  - apply Hrun.
  - eexists. split; [reflexivity|].
    unfold paintDashboard. cbn [writeRows writeCells].
    repeat split;
      repeat (rewrite lookup_insert_ne by (intros [= ?]; lia));
      apply lookup_insert_eq.
Qed.

(** X18: with the Tracking sheet missing updateDashboard throws, after it
    has inserted or cleared the Dashboard sheet: the Dashboard is left blank
    and whatever it showed before is gone; the world is untouched. *)
Theorem updateDashboard_without_tracking_blanks (now : Z) (b : Book) :
  tracking (world b) = None ->
  fst (updateDashboard numberToString now b) = Throw SheetNotFound
  /\ dashboard (snd (updateDashboard numberToString now b)) = Some ∅
  /\ world (snd (updateDashboard numberToString now b)) = world b.
Proof.
  intros Hsheet. rewrite updateDashboard_runs, Hsheet. repeat split.
Qed.

Lemma liftScript_tryLock (b : Book) :
  liftScript tryLock b
  = if scriptLock (world b) then (Ok false, b)
    else (Ok true, setWorld (setLock true (world b)) b).
Proof.
  unfold liftScript, tryLock.
  destruct (scriptLock (world b)); [rewrite setWorld_same|]; reflexivity.
Qed.

(** The book after a weekly summary went out. *)
Lemma sendWeeklySummary_runs (run : Run) (b : Book) :
  sendWeeklySummary numberToString run b
  = if scriptLock (world b) then (Ok tt, b)
    else match tracking (world b) with
         | None => (Throw SheetNotFound, b)
         | Some sheet =>
             let records := recordsOf sheet in
             if mailDelivers run
             then (Ok tt,
                   mkBook
                     (mkWorld (tracking (world b)) (scriptProperties (world b)) false
                        (sentMail (world b)
                           ++ [weeklyMail numberToString run
                                 (weekStatsOf (now run) records)
                                 (exerciseStreakOf records)
                                 (noAlcoholStreakOf records)
                                 (longestExerciseStreakOf records)]))
                     (Some (paintDashboard numberToString (now run) records ∅))
                     (defaultSheet b) (otherSheets b) (triggers b) (alerts b))
             else (Throw MailFailure, b)
         end.
Proof.
  unfold sendWeeklySummary. unfold bindA at 1. rewrite liftScript_tryLock.
  destruct b as [w d s o t a]. cbn [world].
  destruct w as [tr props lock mail]. cbn [scriptLock tracking scriptProperties sentMail].
  destruct lock; [reflexivity|].
  cbn [negb]. unfold finallyRelease, setWorld at 1, setLock at 1.
  cbn [world dashboard defaultSheet otherSheets triggers alerts
       scriptLock tracking scriptProperties sentMail].
  unfold calculateExerciseStreak, calculateNoAlcoholStreak,
    calculateLongestExerciseStreak, getWeekStats_.
  unfold bindA.
  destruct tr as [sheet|].
  - repeat (rewrite liftScript_reads; cbn [world tracking]; cbv beta iota).
    unfold liftScript, sendEmail.
    cbn [world tracking scriptProperties scriptLock sentMail].
    destruct (mailDelivers run); [|reflexivity].
    unfold setWorld. cbv beta iota.
    rewrite updateDashboard_runs.
    cbn [world dashboard defaultSheet otherSheets triggers alerts
         scriptLock tracking scriptProperties sentMail].
    reflexivity.
  - rewrite liftScript_reads. reflexivity.
Qed.

(** X19: sendWeeklySummary keeps no marker: every call with the lock free,
    the Tracking sheet present and a working transport sends one summary, so
    two calls send two, also on the same day.  Each call leaves the Tracking
    sheet and the script properties untouched, releases the lock, and
    repaints the Dashboard from the records. *)
Theorem weekly_summary_sent_on_every_call (run1 run2 : Run) (b : Book) (sheet : Sheet) :
  tracking (world b) = Some sheet ->
  scriptLock (world b) = false ->
  mailDelivers run1 = true ->
  mailDelivers run2 = true ->
  let records := recordsOf sheet in
  let summary := fun run =>
    weeklyMail numberToString run (weekStatsOf (now run) records)
               (exerciseStreakOf records) (noAlcoholStreakOf records)
               (longestExerciseStreakOf records) in
  let b1 := snd (sendWeeklySummary numberToString run1 b) in
  let b2 := snd (sendWeeklySummary numberToString run2 b1) in
  fst (sendWeeklySummary numberToString run1 b) = Ok tt
  /\ fst (sendWeeklySummary numberToString run2 b1) = Ok tt
  /\ sentMail (world b1) = sentMail (world b) ++ [summary run1]
  /\ sentMail (world b2) = sentMail (world b) ++ [summary run1; summary run2]
  /\ tracking (world b2) = tracking (world b)
  /\ scriptProperties (world b2) = scriptProperties (world b)
  /\ scriptLock (world b2) = false
  /\ dashboard b2 = Some (paintDashboard numberToString (now run2) records ∅).
Proof.
  intros Hsheet Hlock Hmail1 Hmail2 records summary b1 b2.
  subst b2 b1.
  rewrite (sendWeeklySummary_runs run1 b), Hlock, Hsheet, Hmail1.
  cbv zeta. cbn [fst snd].
  rewrite sendWeeklySummary_runs.
  cbn [world scriptLock tracking scriptProperties sentMail dashboard].
  rewrite ?Hsheet, Hmail2. cbv zeta.
  cbn [fst snd world scriptLock tracking scriptProperties sentMail dashboard].
  repeat split; try reflexivity.
  rewrite <- app_assoc. reflexivity.
Qed.

(** X20: when sendWeeklySummary does not send, nothing changes at all: with
    the lock held elsewhere it returns; with the Tracking sheet missing it
    throws before composing the mail; with a failing transport the error
    reaches the caller.  In each case the book is returned as it was: no
    mail, the Dashboard not repainted, the lock as found. *)
Theorem weekly_summary_failure_changes_nothing (run : Run) (b : Book) :
  (scriptLock (world b) = true ->
   sendWeeklySummary numberToString run b = (Ok tt, b))
  /\ (scriptLock (world b) = false -> tracking (world b) = None ->
      sendWeeklySummary numberToString run b = (Throw SheetNotFound, b))
  /\ (forall sheet : Sheet,
        scriptLock (world b) = false -> tracking (world b) = Some sheet ->
        mailDelivers run = false ->
        sendWeeklySummary numberToString run b = (Throw MailFailure, b))
  /\ scriptLock (world (snd (sendWeeklySummary numberToString run b)))
     = scriptLock (world b).
Proof.
  rewrite sendWeeklySummary_runs.
  destruct (scriptLock (world b)) eqn:Hlock.
  - repeat split; auto; discriminate.
  - split; [discriminate|]. split; [|split].
    + intros _ Hsheet. rewrite Hsheet. reflexivity.
    + intros sheet _ Hsheet Hmail. rewrite Hsheet, Hmail. reflexivity.
    + destruct (tracking (world b)); [|exact Hlock].
      cbv zeta. destruct (mailDelivers run); [reflexivity | exact Hlock].
Qed.

Lemma kg_is_not_no_data (s : string) : s +:+ " kg" <> "No data".
Proof.
  intros H.
  do 7 (destruct s as [|? s]; [discriminate H|];
        cbn [String.append] in H; injection H as _ H).
  destruct s; discriminate H.
Qed.

(** X21: the Dashboard shows in B13 the average weight of the week with one
    decimal, as toFixed(1) gives it, followed by " kg" when getWeekStats_
    returned an average that is truthy; it shows "No data" exactly when no
    weight was collected or the average is a number that is falsy. *)
Theorem dashboard_weight_cell (now : Z) (b : Book) (sheet : Sheet) :
  tracking (world b) = Some sheet ->
  let avgWeight := WeekStats.avgWeight (weekStatsOf now (recordsOf sheet)) in
  exists cells : Dashboard,
    dashboard (snd (updateDashboard numberToString now b)) = Some cells
    /\ (forall avg : float,
          avgWeight = Some avg ->
          truthy (CNum avg) = true ->
          cells !! (13%nat, 2%nat)
          = Some (CStr (toFixed numberToString 1 avg +:+ " kg")))
    /\ (cells !! (13%nat, 2%nat) = Some (CStr "No data")
        <-> avgWeight = None
            \/ exists avg : float,
                 avgWeight = Some avg /\ truthy (CNum avg) = false).
Proof.
  intros Hsheet avgWeight.
  rewrite updateDashboard_runs, Hsheet. cbn [snd dashboard setDashboard].
  eexists. split; [reflexivity|].
  assert (Hcell : forall d : Dashboard,
             paintDashboard numberToString now (recordsOf sheet) d !! (13%nat, 2%nat)
             = Some (CStr match avgWeight with
                          | Some avg =>
                              if truthy (CNum avg)
                              then toFixed numberToString 1 avg +:+ " kg"
                              else "No data"
                          | None => "No data"
                          end)).
  { intros d. unfold paintDashboard. cbn [writeRows writeCells].
    repeat (rewrite lookup_insert_ne by (intros [= ?]; lia)).
    apply lookup_insert_eq. }
  rewrite Hcell. subst avgWeight.
  destruct (WeekStats.avgWeight (weekStatsOf now (recordsOf sheet))) as [avg|] eqn:Havg.
  - destruct (truthy (CNum avg)) eqn:Htruthy.
    + split.
      * intros avg' [= <-] _. reflexivity.
      * split.
        -- intros [= Hno]. now apply kg_is_not_no_data in Hno.
        -- intros [Hnone|(avg' & [= <-] & Hfalse)]; [discriminate | congruence].
    + split.
      * intros avg' [= <-] Htrue. congruence.
      * split; [|reflexivity]. intros _. right. exists avg. auto.
  - split; [discriminate|]. split; [auto | reflexivity].
Qed.

Lemma setRowValues_first (values : Row) (sheet : Sheet) :
  setRowValues 1 values sheet = values :: drop 1 sheet.
Proof.
  unfold setRowValues. destruct sheet as [|r rest]; [reflexivity|].
  cbn [length Nat.sub replicate]. rewrite app_nil_r. reflexivity.
Qed.

Lemma getLastRow_header (r : Row) (rest : Sheet) :
  rowBlank r = false -> (1 <= getLastRow (r :: rest))%nat.
Proof.
  intros Hr. cbn [getLastRow]. rewrite Hr.
  destruct (getLastRow rest); lia.
Qed.

Lemma recordsOf_cons (r : Row) (rest : Sheet) :
  recordsOf (r :: rest) = take (getLastRow rest) rest.
Proof.
  unfold recordsOf. cbn [getLastRow].
  destruct (getLastRow rest) as [|n].
  - destruct (rowBlank r); reflexivity.
  - reflexivity.
Qed.

(** Writing the header keeps the records below it. *)
Lemma recordsOf_with_header (sheet : Sheet) :
  recordsOf (setRowValues 1 HEADER_ROW sheet) = recordsOf sheet.
Proof.
  rewrite setRowValues_first. destruct sheet as [|r rest].
  - reflexivity.
  - cbn [drop]. rewrite !recordsOf_cons. reflexivity.
Qed.

Lemma initializeSheet_runs (now : Z) (b : Book) :
  exists message : string,
    initializeSheet numberToString now b
    = (Ok tt,
       mkBook (setTracking (initializedTracking now b) (world b))
              (Some (paintDashboard numberToString now
                       (recordsOf (default [] (tracking (world b))))
                       (default ∅ (dashboard b))))
              false (otherSheets b) (triggers b) (alerts b ++ [message])).
Proof.
  eexists.
  unfold initializeSheet, initializedTracking.
  unfold bindA at 1. unfold prepareTracking.
  unfold bindA at 1. unfold ensureDashboard.
  unfold bindA at 1. rewrite buildDashboard_runs.
  destruct b as [w d s o t a].
  cbn [world dashboard defaultSheet otherSheets triggers alerts setWorld setDashboard
       tracking setTracking].
  assert (Hdef : (match tracking w with Some sheet => sheet | None => [] end)
                 = default [] (tracking w)) by (destruct (tracking w); reflexivity).
  rewrite Hdef.
  set (s0 := setRowValues 1 HEADER_ROW (default [] (tracking w))).
  assert (Hrec : recordsOf s0 = recordsOf (default [] (tracking w)))
    by apply recordsOf_with_header.
  assert (Hpaint : forall (x : Book),
             dashboard x = match d with Some _ => d | None => Some ∅ end ->
             paintDashboard numberToString now (recordsOf s0) <$> dashboard x
             = Some (paintDashboard numberToString now
                       (recordsOf (default [] (tracking w))) (default ∅ d))).
  { intros x ->. rewrite Hrec. destruct d; reflexivity. }
  clear Hpaint.
  destruct d as [d|], s;
    unfold bindA, removeDefaultSheet, countSheets, liftScript, alert, setWorld, setDashboard;
    cbn [world dashboard defaultSheet otherSheets triggers alerts
         tracking setTracking fmap option_fmap option_map default
         andb Nat.add Nat.ltb Nat.leb];
    rewrite Hrec;
    rewrite (addTodayRow_found now _ s0) by reflexivity;
    destruct (countToday now s0);
    reflexivity.
Qed.

Lemma initializedTracking_facts (now : Z) (b : Book) :
  let old := default [] (tracking (world b)) in
  let sheet' := initializedTracking now b in
  (exists rest, sheet' = HEADER_ROW :: rest)
  /\ (1 <= getLastRow sheet')%nat
  /\ (1 <= countToday now sheet')%nat
  /\ (recordsOf sheet' = recordsOf old
      \/ recordsOf sheet' = recordsOf old ++ [dateOnlyRow now]).
Proof.
  intros old sheet'. subst sheet'. unfold initializedTracking. fold old.
  rewrite setRowValues_first.
  set (s0 := HEADER_ROW :: drop 1 old).
  assert (Hinit : (1 <= getLastRow s0)%nat) by (apply getLastRow_header; reflexivity).
  assert (Hrec : recordsOf s0 = recordsOf old).
  { subst s0. rewrite <- setRowValues_first. apply recordsOf_with_header. }
  destruct (Nat.ltb_spec 0 (countToday now s0)) as [Hsome|Hnone].
  - split; [eexists; reflexivity|]. split; [exact Hinit|]. split; [lia|]. now left.
  - split; [|split; [|split]].
    + unfold setValue. destruct (getLastRow s0) as [|n]; [lia|].
      subst s0. cbn [app alter list_alter]. eexists. reflexivity.
    + destruct (appended_sheet now s0) as [-> _]. lia.
    + rewrite countToday_appended by exact Hinit. lia.
    + right. rewrite appended_records by exact Hinit. now rewrite Hrec.
Qed.

(** X22: initializeSheet never throws, also when the Tracking and Dashboard
    sheets do not exist yet.  Afterwards the Tracking sheet exists with the
    header in row 1 and a record for today; the records that were below row
    1 are kept in place, followed at most by today's new row; "Sheet1" is
    gone, the Dashboard exists, one dialog was shown, and script properties,
    lock and mail are untouched. *)
Theorem initializeSheet_prepares_tracking (now : Z) (b : Book) :
  let b' := snd (initializeSheet numberToString now b) in
  let old := default [] (tracking (world b)) in
  fst (initializeSheet numberToString now b) = Ok tt
  /\ (exists sheet' : Sheet,
         tracking (world b') = Some sheet'
         /\ (forall c : COL, getValue 1 c sheet' = cell HEADER_ROW c)
         /\ (1 <= getLastRow sheet')%nat
         /\ (1 <= countToday now sheet')%nat
         /\ (recordsOf sheet' = recordsOf old
             \/ recordsOf sheet' = recordsOf old ++ [dateOnlyRow now]))
  /\ defaultSheet b' = false
  /\ is_Some (dashboard b')
  /\ scriptProperties (world b') = scriptProperties (world b)
  /\ scriptLock (world b') = scriptLock (world b)
  /\ sentMail (world b') = sentMail (world b)
  /\ length (alerts b') = S (length (alerts b)).
Proof.
  intros b' old. subst b'.
  destruct (initializeSheet_runs now b) as [message ->].
  cbn [fst snd world dashboard defaultSheet alerts setTracking tracking
       scriptProperties scriptLock sentMail].
  destruct (initializedTracking_facts now b) as ((rest & Hhead) & Hlast & Hcount & Hrec).
  split; [reflexivity|]. split.
  - exists (initializedTracking now b). split; [reflexivity|].
    split; [|auto].
    intros c. rewrite Hhead. reflexivity.
  - split; [reflexivity|]. split; [eexists; reflexivity|].
    repeat split. rewrite length_app. simpl. lia.
Qed.

(** X23: initializeSheet can be run again: a second run later on the same
    calendar day returns normally and leaves the Tracking sheet exactly as
    the first run left it, with no second row for today. *)
Theorem initializeSheet_again_keeps_tracking (now later : Z) (b : Book) :
  formatDate later = formatDate now ->
  let b1 := snd (initializeSheet numberToString now b) in
  fst (initializeSheet numberToString later b1) = Ok tt
  /\ tracking (world (snd (initializeSheet numberToString later b1)))
     = tracking (world b1).
Proof.
  intros Hday b1. subst b1.
  destruct (initializeSheet_runs now b) as [message ->]. cbn [snd].
  destruct (initializeSheet_runs later
              (mkBook (setTracking (initializedTracking now b) (world b))
                 (Some (paintDashboard numberToString now
                          (recordsOf (default [] (tracking (world b))))
                          (default ∅ (dashboard b))))
                 false (otherSheets b) (triggers b) (alerts b ++ [message])))
    as [message' ->].
  cbn [fst snd world setTracking tracking]. split; [reflexivity|]. f_equal.
  destruct (initializedTracking_facts now b) as ((rest & Hhead) & _ & Hcount & _).
  unfold initializedTracking at 1. cbn [world setTracking tracking default].
  rewrite setRowValues_first. unfold id.
  assert (Hsame : HEADER_ROW :: drop 1 (initializedTracking now b)
                  = initializedTracking now b) by (rewrite Hhead; reflexivity).
  rewrite Hsame.
  assert (Hlater : countToday later (initializedTracking now b)
                   = countToday now (initializedTracking now b))
    by (unfold countToday; now rewrite Hday).
  rewrite Hlater.
  destruct (Nat.ltb_spec 0 (countToday now (initializedTracking now b)));
    [reflexivity | lia].
Qed.

End WorkbookProperties.

(** ** The workbook properties on samples *)

Lemma updateDashboard_repaints_from_records_witness :
  let b := bookOf (worldOf gapRows) in
  let b' := snd (updateDashboard wholeNumberToString (jan 5) b) in
  world b' = world b
  /\ updateDashboard wholeNumberToString (jan 5) b' = (Ok tt, b').
Proof.
  intros b b'.
  destruct (updateDashboard_repaints_from_records wholeNumberToString (jan 5) b
              (headerRow :: gapRows) eq_refl)
    as (_ & Hworld & _ & Hagain & _).
  split; [exact Hworld | exact Hagain].
Defined.

Lemma updateDashboard_without_tracking_blanks_witness :
  let b := mkBook (mkWorld None ∅ false [])
                  (Some {[ (1%nat, 1%nat) := CStr "old title" ]}) false O [] [] in
  dashboard (snd (updateDashboard wholeNumberToString (jan 5) b)) = Some ∅.
Proof.
  intros b.
  apply (updateDashboard_without_tracking_blanks wholeNumberToString (jan 5) b).
  reflexivity.
Defined.

Lemma weekly_summary_sent_on_every_call_witness :
  let b := bookOf (worldOf gapRows) in
  let run := sampleRun (jan 8 + hours 8) true in
  let b2 := snd (sendWeeklySummary wholeNumberToString run
                   (snd (sendWeeklySummary wholeNumberToString run b))) in
  scriptLock (world b2) = false
  /\ scriptProperties (world b2) = scriptProperties (world b).
Proof.
  intros b run b2.
  destruct (weekly_summary_sent_on_every_call wholeNumberToString run run b
              (headerRow :: gapRows) eq_refl eq_refl eq_refl eq_refl)
    as (_ & _ & _ & _ & _ & Hprops & Hlock & _).
  split; [exact Hlock | exact Hprops].
Defined.

Example weekly_summary_twice_on_sample :
  let b := bookOf (worldOf gapRows) in
  let run := sampleRun (jan 8 + hours 8) true in
  length (sentMail (world (snd (sendWeeklySummary wholeNumberToString run
                                  (snd (sendWeeklySummary wholeNumberToString run b))))))
  = 2%nat.
Proof. vm_compute. reflexivity. Qed.

Lemma weekly_summary_failure_changes_nothing_witness :
  let b := bookOf (worldOf gapRows) in
  let run := sampleRun (jan 8 + hours 8) false in
  sendWeeklySummary wholeNumberToString run b = (Throw MailFailure, b).
Proof.
  intros b run.
  destruct (weekly_summary_failure_changes_nothing wholeNumberToString run b)
    as (_ & _ & Hfail & _).
  apply (Hfail (headerRow :: gapRows)); reflexivity.
Defined.

Lemma dashboard_weight_cell_witness :
  let b := bookOf (worldOf [weighIn (jan 1) 60; weighIn (jan 2) 60.1]) in
  exists cells : Dashboard,
    dashboard (snd (updateDashboard wholeNumberToString (jan 5) b)) = Some cells
    /\ cells !! (13%nat, 2%nat) = Some (CStr "60.0 kg").
Proof.
  intros b.
  destruct (dashboard_weight_cell wholeNumberToString (jan 5) b
              [headerRow; weighIn (jan 1) 60; weighIn (jan 2) 60.1] eq_refl)
    as (cells & Hcells & Hsome & _).
  exists cells. split; [exact Hcells|].
  apply (Hsome 60.05%float); reflexivity.
Defined.

Lemma initializeSheet_again_keeps_tracking_witness :
  let b := bookOf (mkWorld None ∅ false []) in
  let b1 := snd (initializeSheet wholeNumberToString (jan 3 + hours 9) b) in
  tracking (world (snd (initializeSheet wholeNumberToString (jan 3 + hours 20) b1)))
  = tracking (world b1).
Proof.
  intros b b1.
  apply (initializeSheet_again_keeps_tracking wholeNumberToString
           (jan 3 + hours 9) (jan 3 + hours 20) b).
  vm_compute. reflexivity.
Defined.

Example initializeSheet_on_new_spreadsheet :
  let b' := snd (initializeSheet wholeNumberToString (jan 3 + hours 9)
                   (bookOf (mkWorld None ∅ false []))) in
  tracking (world b') = Some [HEADER_ROW; dateOnlyRow (jan 3 + hours 9)]
  /\ defaultSheet b' = false.
Proof. vm_compute. split; reflexivity. Qed.

(** ** Missing sheet, sums, and the week as a whole *)

Section MissingSheet.

Variable numberToString : float -> string.

(** X24: with the Tracking sheet missing every function that reads it throws
    the "sheet not found" error and changes nothing: the three streak
    functions, getWeekStats_, getMonthStats_ and addTodayRow always,
    dailyAutoAddRow unless the lock is held elsewhere, sendDailyReminder
    unless the lock is held or the marker already equals today. *)
Theorem missing_tracking_sheet_throws (at_ : Z) (run : Run) (w : World) :
  tracking w = None ->
  calculateExerciseStreak w = (Throw SheetNotFound, w)
  /\ calculateNoAlcoholStreak w = (Throw SheetNotFound, w)
  /\ calculateLongestExerciseStreak w = (Throw SheetNotFound, w)
  /\ getWeekStats_ at_ w = (Throw SheetNotFound, w)
  /\ getMonthStats_ numberToString at_ w = (Throw SheetNotFound, w)
  /\ addTodayRow at_ w = (Throw SheetNotFound, w)
  /\ dailyAutoAddRow at_ w
     = (if scriptLock w then Ok tt else Throw SheetNotFound, w)
  /\ sendDailyReminder run w
     = (if scriptLock w
           || bool_decide (scriptProperties w !! lastReminderDate
                           = Some (formatDate (now run)))
        then Ok tt else Throw SheetNotFound, w).
Proof.
  intros Hsheet.
  assert (Hadd : addTodayRow at_ w = (Throw SheetNotFound, w)).
  { unfold addTodayRow, bind, getTrackingSheet_. rewrite Hsheet. reflexivity. }
  unfold calculateExerciseStreak, calculateNoAlcoholStreak,
    calculateLongestExerciseStreak, getWeekStats_, getMonthStats_.
  rewrite !reads_tracking_data, Hsheet.
  repeat split; try exact Hadd.
  - rewrite dailyAutoAddRow_runs, Hadd. destruct (scriptLock w); reflexivity.
  - rewrite sendDailyReminder_runs, Hsheet.
    destruct (scriptLock w); [reflexivity|].
    destruct (bool_decide _); reflexivity.
Qed.

End MissingSheet.

Lemma missing_tracking_sheet_throws_witness :
  let w := mkWorld None ∅ false [] in
  sendDailyReminder (sampleRun (jan 3) true) w = (Throw SheetNotFound, w).
Proof.
  intros w.
  destruct (missing_tracking_sheet_throws wholeNumberToString (jan 3)
              (sampleRun (jan 3) true) w eq_refl)
    as (_ & _ & _ & _ & _ & _ & _ & Hreminder).
  exact Hreminder.
Defined.

(** X25: getWeekStats_ returns, over the rows of the week window, the number
    of exercise days, and the minutes and the beers that are numbers added up
    from 0 in stored order.  Over rows followed by more rows the exercise
    days are those of the two parts together, and each total is what adding
    the numbers of the later rows, in order, to the total of the earlier rows
    gives. *)
Theorem week_summary_counts_and_sums (now : Z) (data more : list Row) :
  let window := List.filter (onOrAfter (mondayOf now)) in
  WeekStats.exerciseDays (weekStatsOf now data)
  = length (List.filter isExerciseDay (window data))
  /\ WeekStats.totalMinutes (weekStatsOf now data)
     = fold_left PrimFloat.add (flat_map minutesOf (window data)) 0%float
  /\ WeekStats.totalBeers (weekStatsOf now data)
     = fold_left PrimFloat.add (flat_map beersOf (window data)) 0%float
  /\ WeekStats.exerciseDays (weekStatsOf now (data ++ more))
     = (WeekStats.exerciseDays (weekStatsOf now data)
        + WeekStats.exerciseDays (weekStatsOf now more))%nat
  /\ WeekStats.totalMinutes (weekStatsOf now (data ++ more))
     = fold_left PrimFloat.add (flat_map minutesOf (window more))
                 (WeekStats.totalMinutes (weekStatsOf now data))
  /\ WeekStats.totalBeers (weekStatsOf now (data ++ more))
     = fold_left PrimFloat.add (flat_map beersOf (window more))
                 (WeekStats.totalBeers (weekStatsOf now data)).
Proof.
  intros window. subst window.
  rewrite !weekStatsOf_summary.
  cbn [summaryOf WeekStats.exerciseDays WeekStats.totalMinutes WeekStats.totalBeers].
  unfold sumOf.
  rewrite !List.filter_app, !flat_map_app, !fold_left_app, length_app.
  repeat split.
Qed.

Lemma mondayOf_same_week (now t : Z) :
  mondayOf now <= t < mondayOf now + 7 * msPerDay ->
  mondayOf t = mondayOf now.
Proof.
  intros Hweek.
  destruct (mondayOf_most_recent now) as (Hmon & _ & _).
  rewrite (mondayOf_dayNumber t).
  assert (HM : mondayOf now = msPerDay * dayNumber (mondayOf now)).
  { rewrite <- setHours0_dayNumber. unfold mondayOf.
    rewrite !setHours0_dayNumber, dayNumber_setDateBack.
    unfold dayNumber at 2. rewrite Z.mul_comm, Z.div_mul by (unfold msPerDay; lia).
    apply Z.mul_comm. }
  set (M := dayNumber (mondayOf now)) in *.
  assert (Hday : M <= dayNumber t <= M + 6).
  { unfold dayNumber at 1 2. unfold msPerDay in *.
    pose proof (Z.div_mod t 86400000). pose proof (Z.mod_pos_bound t 86400000).
    lia. }
  unfold getDay in *. fold M in Hmon.
  assert (Hoff : (if (dayNumber t + 4) mod 7 =? 0 then 6 else (dayNumber t + 4) mod 7 - 1)
                 = dayNumber t - M).
  { pose proof (Z.div_mod (M + 4) 7). pose proof (Z.div_mod (dayNumber t + 4) 7).
    pose proof (Z.mod_pos_bound (dayNumber t + 4) 7).
    destruct (Z.eqb_spec ((dayNumber t + 4) mod 7) 0); lia. }
  rewrite Hoff, HM. f_equal. lia.
Qed.

(** X26: the weekly summary does not move during the week: at any time from
    Monday 00:00 up to the next Monday the week starts at the same Monday, so
    getWeekStats_ returns the same summary for the same rows. *)
Theorem week_stats_same_all_week (now t : Z) (data : list Row) :
  mondayOf now <= t < mondayOf now + 7 * msPerDay ->
  mondayOf t = mondayOf now
  /\ weekStatsOf t data = weekStatsOf now data.
Proof.
  intros Hweek. pose proof (mondayOf_same_week now t Hweek) as Hsame.
  split; [exact Hsame|]. unfold weekStatsOf. now rewrite Hsame.
Qed.

Lemma week_stats_same_all_week_witness :
  weekStatsOf (jan 14 + hours 23) gapRows = weekStatsOf (jan 10) gapRows.
Proof.
  apply (week_stats_same_all_week (jan 10) (jan 14 + hours 23) gapRows).
  vm_compute. split; [discriminate | reflexivity].
Defined.

Section WorkbookOrder.

Variable numberToString : float -> string.

(** X27: initializeSheet paints the Dashboard before it adds today's row: B5
    shows the exercise streak of the records as they were, while on a sheet
    without a record for today the streak read from the sheet afterwards is
    0, the new row having no exercise type. *)
Theorem initializeSheet_paints_before_adding_row (now : Z) (b : Book) :
  let old := default [] (tracking (world b)) in
  let b' := snd (initializeSheet numberToString now b) in
  (exists cells : Dashboard,
      dashboard b' = Some cells
      /\ cells !! (5%nat, 2%nat) = Some (CStr (days (exerciseStreakOf (recordsOf old)))))
  /\ (countToday now (setRowValues 1 HEADER_ROW old) = O ->
      calculateExerciseStreak (world b') = (Ok O, world b')).
Proof.
  intros old b'. subst b'.
  destruct (initializeSheet_runs numberToString now b) as [message ->].
  cbn [snd dashboard world]. split.
  - eexists. split; [reflexivity|].
    unfold paintDashboard. cbn [writeRows writeCells].
    repeat (rewrite lookup_insert_ne by (intros [= ?]; lia)).
    apply lookup_insert_eq.
  - intros Hnone.
    unfold calculateExerciseStreak. rewrite reads_tracking_data.
    cbn [tracking setTracking].
    unfold initializedTracking. fold old. rewrite Hnone.
    change (0 <? 0)%nat with false. cbv iota.
    rewrite appended_records
      by (rewrite setRowValues_first; apply getLastRow_header; reflexivity).
    unfold exerciseStreakOf. rewrite streakOf_snoc. reflexivity.
Qed.

End WorkbookOrder.

Lemma initializeSheet_paints_before_adding_row_witness :
  let b := bookOf (worldOf gapRows) in
  calculateExerciseStreak
    (world (snd (initializeSheet wholeNumberToString (jan 6) b)))
  = (Ok O, world (snd (initializeSheet wholeNumberToString (jan 6) b))).
Proof.
  intros b.
  apply (initializeSheet_paints_before_adding_row wholeNumberToString (jan 6) b).
  vm_compute. reflexivity.
Defined.

Example initializeSheet_dashboard_on_sample :
  let b' := snd (initializeSheet wholeNumberToString (jan 6) (bookOf (worldOf gapRows))) in
  (dashboard b' ≫= (fun cells => cells !! (5%nat, 2%nat))) = Some (CStr "2 days").
Proof. vm_compute. reflexivity. Qed.
